(** * FlowKit: gate evaluation, strategy construction and batch orchestration

    A shallow embedding of
    - [src/flowkit/models/gate.py]     ([Dimension], [Gate], [RectangleGate],
      [GatingStrategy]),
    - [src/flowkit/models/gates/gml_gates.py] (the range derivation of
      [GMLQuadrantGate.__init__]),
    - [src/flowkit/_models/session.py] ([_gate_sample], [_gate_samples],
      [Session.assign_sample], [Session.add_gate], [Session.analyze_samples]),
    followed by the properties proved about them.

    Python exceptions are values of [exn]; a call either raises or returns
    ([outcome]).  Numeric event values are kept abstract behind [PyFloat]:
    the code only ever compares them, so every statement holds for whatever
    the comparisons of the array's dtype answer (IEEE NaN included). *)

From Stdlib Require Import ZArith Lia DecimalString Sorted.
From stdpp Require Import base option list strings pretty gmap.

Open Scope string_scope.
Open Scope list_scope.

(* ===================================================================== *)
(** * Part I: the program *)
(* ===================================================================== *)

(** ** Python values shared by the three files *)

(** The exceptions the modelled code can raise. *)
Inductive exn : Type :=
| ValueError (msg : string)
| KeyError (key : string)
| IndexError
| AttributeError (attr : string)
| TypeError (msg : string).

(** Outcome of a call: it raises, or it returns a value. *)
Inductive outcome (A : Type) : Type :=
| Raise (e : exn)
| Return (a : A).
Arguments Raise {A} e.
Arguments Return {A} a.

#[global] Instance outcome_ret : MRet outcome := fun A a => Return a.
#[global] Instance outcome_bind : MBind outcome := fun A B f m =>
  match m with
  | Raise e => Raise e
  | Return a => f a
  end.
#[global] Instance outcome_fmap : FMap outcome := fun A B f m =>
  match m with
  | Raise e => Raise e
  | Return a => Return (f a)
  end.

Definition returns {A} (m : outcome A) : Prop := exists a, m = Return a.
Definition raises {A} (m : outcome A) : Prop := exists e, m = Raise e.

(** [l[i]] on a Python list. *)
Definition getitem {A} (l : list A) (i : nat) : outcome A :=
  match l !! i with
  | Some x => Return x
  | None => Raise IndexError
  end.

(** [l.index(x)]: position of the first element equal to [x]. *)
Fixpoint index (x : string) (l : list string) : option nat :=
  match l with
  | [] => None
  | y :: l' => if decide (y = x) then Some 0 else S <$> index x l'
  end.

Definition list_index (l : list string) (x : string) : outcome nat :=
  match index x l with
  | Some k => Return k
  | None => Raise (ValueError ("'" +:+ x +:+ "' is not in list"))
  end.

(** What the code needs from the numbers it handles: the four comparisons
    and [float(s)] on attribute text ([None] when Python raises). *)
Class PyFloat (value : Type) := {
  float_ge : value -> value -> bool;
  float_lt : value -> value -> bool;
  float_gt : value -> value -> bool;
  float_le : value -> value -> bool;
  float_of_str : string -> option value
}.

Definition float {value} `{PyFloat value} (s : string) : outcome value :=
  match float_of_str s with
  | Some v => Return v
  | None => Raise (ValueError ("could not convert string to float: '" +:+ s +:+ "'"))
  end.

(** A 2-D numpy array [events x channels]: its rows and its [shape[1]]
    (which numpy keeps even when there is no row). *)
Record ndarray (value : Type) : Type := {
  rows : list (list value);
  shape1 : nat
}.
Arguments rows {value} _.
Arguments shape1 {value} _.

Definition shape0 {value} (a : ndarray value) : nat := length (rows a).

(** Every row of a numpy matrix has [shape[1]] entries. *)
Definition is_matrix {value} (a : ndarray value) : Prop :=
  Forall (fun r => length r = shape1 a) (rows a).

(** [a[:, d]]. *)
Definition column {value} (a : ndarray value) (d : nat) : outcome (list value) :=
  if decide (d < shape1 a) then
    match mapM (fun r : list value => r !! d) (rows a) with
    | Some c => Return c
    | None => Raise IndexError
    end
  else Raise IndexError.

(** [np.ones(n, dtype=np.bool)]. *)
Definition np_ones (n : nat) : list bool := replicate n true.

(** [np.bitwise_and] on 1-D boolean arrays, with numpy's broadcasting of a
    one-element operand. *)
Definition np_bitwise_and (a b : list bool) : outcome (list bool) :=
  if decide (length a = length b) then Return (zip_with andb a b)
  else match a, b with
       | [x], _ => Return (andb x <$> b)
       | _, [y] => Return ((fun x => andb x y) <$> a)
       | _, _ => Raise (ValueError "operands could not be broadcast together")
       end.

(** ** [src/flowkit/models/gate.py] *)

(** What lxml answers for one [dimension] element: the three attribute
    queries and, when the [fcs-dimension] child exists, its [name] query. *)
Record dim_element : Type := {
  compensation_ref_attribs : list string;
  min_attribs : list string;
  max_attribs : list string;
  fcs_dim_els : option (list string)
}.

(** What lxml answers for one gate element. *)
Record gate_element : Type := {
  id_attribs : list string;
  parent_attribs : list string;
  dim_els : list dim_element
}.

Module Dimension.
Record t (value : Type) : Type := mk {
  compensation_ref : string;
  min : option value;
  max : option value;
  id : list string;
  label : string
}.
Arguments mk {value}.
Arguments compensation_ref {value} _.
Arguments min {value} _.
Arguments max {value} _.
Arguments id {value} _.
Arguments label {value} _.
End Dimension.

Module Gate.
Record t (value : Type) : Type := mk {
  id : string;
  parent : option string;
  dimensions : list (Dimension.t value)
}.
Arguments mk {value}.
Arguments id {value} _.
Arguments parent {value} _.
Arguments dimensions {value} _.
End Gate.

(** An FCS sample: what the gates read ([get_raw_events()], [pnn_labels])
    and the id the session files it under ([original_filename]). *)
Record Sample (value : Type) : Type := {
  original_filename : string;
  get_raw_events : ndarray value;
  pnn_labels : list string
}.
Arguments original_filename {value} _.
Arguments get_raw_events {value} _.
Arguments pnn_labels {value} _.

(** The loop variable of [gate_sample]: iterating the [gates] dict yields
    its keys (strings), iterating the one-element list yields the gate. *)
Inductive pyobj (value : Type) : Type :=
| PyStr (s : string)
| PyGate (g : Gate.t value).
Arguments PyStr {value} s.
Arguments PyGate {value} g.

Section GatePy.
Context {value : Type} `{PyFloat value}.

(** [Dimension.__init__] (the source line lxml adds to the message of the
    last error is left out). *)
Definition Dimension__init__ (dim_element : dim_element) : outcome (Dimension.t value) :=
  compensation_ref ← getitem (compensation_ref_attribs dim_element) 0;
  min ← match min_attribs dim_element with
        | [] => Return None
        | a :: _ => Some <$> float a
        end;
  max ← match max_attribs dim_element with
        | [] => Return None
        | a :: _ => Some <$> float a
        end;
  match fcs_dim_els dim_element with
  | None => Raise (AttributeError "xpath")
  | Some label_attribs =>
      match label_attribs with
      | a :: _ =>
          Return (Dimension.mk compensation_ref min max (max_attribs dim_element) a)
      | [] => Raise (ValueError "Dimension name not found")
      end
  end.

(** The [for dim_el in dim_els] loop of [Gate.__init__]. *)
Fixpoint Gate__init__dims (dim_els : list dim_element) (dimensions : list (Dimension.t value))
  : outcome (list (Dimension.t value)) :=
  match dim_els with
  | [] => Return dimensions
  | dim_el :: rest =>
      dim ← Dimension__init__ dim_el;
      Gate__init__dims rest (dimensions ++ [dim])
  end.

(** [Gate.__init__]; [RectangleGate.__init__] only calls it. *)
Definition Gate__init__ (gate_element : gate_element) : outcome (Gate.t value) :=
  id ← getitem (id_attribs gate_element) 0;
  let parent := match parent_attribs gate_element with
                | [] => None
                | p :: _ => Some p
                end in
  dimensions ← Gate__init__dims (dim_els gate_element) [];
  Return (Gate.mk id parent dimensions).

Definition RectangleGate__init__ (gate_element : gate_element) : outcome (Gate.t value) :=
  Gate__init__ gate_element.

(** First loop of [RectangleGate.apply]: the three parallel lists. *)
Fixpoint apply_collect (self_id : string) (pnn_labels : list string)
    (dims : list (Dimension.t value))
    (acc : list nat * list (option value) * list (option value))
  : outcome (list nat * list (option value) * list (option value)) :=
  match dims with
  | [] => Return acc
  | dim :: rest =>
      let '(dim_idx, dim_min, dim_max) := acc in
      match Dimension.min dim, Dimension.max dim with
      | None, None =>
          Raise (ValueError ("Gate '" +:+ self_id +:+ "' does not include a min or max value"))
      | _, _ =>
          k ← list_index pnn_labels (Dimension.label dim);
          apply_collect self_id pnn_labels rest
            (dim_idx ++ [k], dim_min ++ [Dimension.min dim], dim_max ++ [Dimension.max dim])
      end
  end.

(** Body of the second loop, for one [(i, d_idx)] of [enumerate(dim_idx)]. *)
Definition apply_step (events : ndarray value) (dim_min dim_max : list (option value))
    (results : list bool) (i d_idx : nat) : outcome (list bool) :=
  lo ← getitem dim_min i;
  results ← match lo with
            | Some m =>
                col ← column events d_idx;
                np_bitwise_and results ((fun v => float_ge v m) <$> col)
            | None => Return results
            end;
  hi ← getitem dim_max i;
  match hi with
  | Some m =>
      col ← column events d_idx;
      np_bitwise_and results ((fun v => float_lt v m) <$> col)
  | None => Return results
  end.

Fixpoint apply_loop (events : ndarray value) (dim_min dim_max : list (option value))
    (results : list bool) (i : nat) (dim_idx : list nat) : outcome (list bool) :=
  match dim_idx with
  | [] => Return results
  | d_idx :: rest =>
      results ← apply_step events dim_min dim_max results i d_idx;
      apply_loop events dim_min dim_max results (S i) rest
  end.

(** [RectangleGate.apply]. *)
Definition RectangleGate_apply (self : Gate.t value) (events : ndarray value)
    (pnn_labels : list string) : outcome (list bool) :=
  if decide (shape1 events ≠ length pnn_labels) then
    Raise (ValueError ("Number of FCS dimensions (" +:+ pretty (shape1 events) +:+
                       ") does not match label count (" +:+ pretty (length pnn_labels) +:+ ")"))
  else
    '(dim_idx, dim_min, dim_max) ←
       apply_collect (Gate.id self) pnn_labels (Gate.dimensions self) ([], [], []);
    apply_loop events dim_min dim_max (np_ones (shape0 events)) 0 dim_idx.

(** [GatingStrategy]: the [gates] dict, keyed by gate id.  (A [gmap] lists
    its keys in an order of its own, not in insertion order; nothing below
    depends on the order.) *)
Record GatingStrategy : Type := {
  gates : gmap string (Gate.t value)
}.

(** The [for gt_gate in gt_gates] loop of [GatingStrategy.__init__];
    [GATE_TYPES] holds ['RectangleGate'] only, so the constructor looked up
    in [globals()] is [RectangleGate]. *)
Fixpoint GatingStrategy__init__loop (gt_gates : list gate_element)
    (gates : gmap string (Gate.t value)) : outcome (gmap string (Gate.t value)) :=
  match gt_gates with
  | [] => Return gates
  | gt_gate :: rest =>
      g ← RectangleGate__init__ gt_gate;
      if decide (is_Some (gates !! Gate.id g)) then
        Raise (ValueError ("Gate '" +:+ Gate.id g +:+
                           "' already exists. Duplicate gate IDs are not allowed."))
      else GatingStrategy__init__loop rest (<[Gate.id g := g]> gates)
  end.

(** [GatingStrategy.__init__], from the gate elements [root.findall] finds
    in the parsed document (reading, validating and namespace look-up are
    lxml's). *)
Definition GatingStrategy__init__ (gt_gates : list gate_element) : outcome GatingStrategy :=
  gates ← GatingStrategy__init__loop gt_gates ∅;
  Return {| gates := gates |}.

(** [gate.apply(...)] on whatever the loop variable holds. *)
Definition py_apply (gate : pyobj value) (sample : Sample value) : outcome (list bool) :=
  match gate with
  | PyStr _ => Raise (AttributeError "apply")
  | PyGate g => RectangleGate_apply g (get_raw_events sample) (pnn_labels sample)
  end.

(** The [for gate in gates] loop of [gate_sample]; the key written is
    [gate_id], the argument of the call. *)
Fixpoint gate_sample_loop (sample : Sample value) (gate_id : option string)
    (gates : list (pyobj value)) (results : gmap (option string) (list bool))
  : outcome (gmap (option string) (list bool)) :=
  match gates with
  | [] => Return results
  | gate :: rest =>
      r ← py_apply gate sample;
      gate_sample_loop sample gate_id rest (<[gate_id := r]> results)
  end.

(** [GatingStrategy.gate_sample]. *)
Definition gate_sample (self : GatingStrategy) (sample : Sample value)
    (gate_id : option string) : outcome (gmap (option string) (list bool)) :=
  gates ← match gate_id with
          | None => Return (PyStr <$> (map_to_list (gates self)).*1)
          | Some k =>
              match gates self !! k with
              | Some g => Return [PyGate g]
              | None => Raise (KeyError k)
              end
          end;
  gate_sample_loop sample gate_id gates ∅.

(** *** Vocabulary of the statements about gates *)

(** The bound test of one dimension on one value. *)
Definition in_range (lo hi : option value) (v : value) : bool :=
  match lo with Some m => float_ge v m | None => true end &&
  match hi with Some m => float_lt v m | None => true end.

(** The dimension carries a min or a max. *)
Definition has_bound (dim : Dimension.t value) : Prop :=
  is_Some (Dimension.min dim) \/ is_Some (Dimension.max dim).

(** Message of the duplicate-id error of [GatingStrategy.__init__]. *)
Definition duplicate_msg (k : string) : string :=
  "Gate '" +:+ k +:+ "' already exists. Duplicate gate IDs are not allowed.".

(** The dict holding [m] and then the gates [gs], each under its id. *)
Definition register (m : gmap string (Gate.t value)) (gs : list (Gate.t value))
  : gmap string (Gate.t value) :=
  foldl (fun m g => <[Gate.id g := g]> m) m gs.

(** A [dimension] element with its [min] and [max] attributes removed. *)
Definition without_bounds (el : dim_element) : dim_element :=
  {| compensation_ref_attribs := compensation_ref_attribs el;
     min_attribs := [];
     max_attribs := [];
     fcs_dim_els := fcs_dim_els el |}.

(** A gate element with the bounds of all its dimensions removed. *)
Definition strip_bounds (el : gate_element) : gate_element :=
  {| id_attribs := id_attribs el;
     parent_attribs := parent_attribs el;
     dim_els := without_bounds <$> dim_els el |}.

(** The dimension [Dimension.__init__] builds when the element has neither
    a [min] nor a [max] attribute. *)
Definition unbounded (dim : Dimension.t value) : Dimension.t value :=
  Dimension.mk (Dimension.compensation_ref dim) None None [] (Dimension.label dim).

End GatePy.

Arguments GatingStrategy value : clear implicits.

(** ** [src/flowkit/models/gates/gml_gates.py] *)

Module Divider.
Record t (value : Type) : Type := mk {
  id : string;
  dimension_ref : string;
  values : list value
}.
Arguments mk {value}.
Arguments id {value} _.
Arguments dimension_ref {value} _.
Arguments values {value} _.
End Divider.

(** What [gml_utils.find_attribute_value] answers on one [position]
    element ([None] when the attribute is absent). *)
Record position_el : Type := {
  pos_divider_ref : option string;
  pos_location : option string
}.

(** One [Quadrant] element: its [id] lookup and its [position] children. *)
Record quadrant_el : Type := {
  quad_id_attrib : option string;
  position_els : list position_el
}.

(** The dict appended to [quadrants[quad_id]] for one position. *)
Module Position.
Record t (value : Type) : Type := mk {
  divider : option string;
  dimension : string;
  location : value;
  min : option value;
  max : option value
}.
Arguments mk {value}.
Arguments divider {value} _.
Arguments dimension {value} _.
Arguments location {value} _.
Arguments min {value} _.
Arguments max {value} _.
End Position.

Section GmlGatesPy.
Context {value : Type} `{PyFloat value}.

(** [sorted(l)]: a stable sort that only asks [<]. *)
Fixpoint sorted_insert (x : value) (l : list value) : list value :=
  match l with
  | [] => [x]
  | y :: l' => if float_lt y x then y :: sorted_insert x l' else x :: l
  end.

Definition sorted (l : list value) : list value := foldr sorted_insert [] l.

(** The [for v in sorted(div.values)] loop, from the current
    [(q_min, q_max)]: the [break] leaves with the pair as it stands. *)
Fixpoint quadrant_scan (location : value) (vs : list value)
    (q_min q_max : option value) : option value * option value :=
  match vs with
  | [] => (q_min, q_max)
  | v :: rest =>
      if float_gt v location then (q_min, Some v)
      else if float_le v location then quadrant_scan location rest (Some v) q_max
      else quadrant_scan location rest q_min q_max
  end.

(** The [for div in dividers] loop on [(q_min, q_max, dim_label)]. *)
Fixpoint quadrant_dividers (divider : option string) (location : value)
    (dividers : list (Divider.t value))
    (st : option value * option value * option string)
  : option value * option value * option string :=
  match dividers with
  | [] => st
  | div :: rest =>
      let '(q_min, q_max, dim_label) := st in
      if decide (Some (Divider.id div) <> divider) then
        quadrant_dividers divider location rest st
      else
        let '(q_min, q_max) :=
          quadrant_scan location (sorted (Divider.values div)) q_min q_max in
        quadrant_dividers divider location rest (q_min, q_max, Some (Divider.dimension_ref div))
  end.

(** Body of [for pos_el in position_els]: the entry for one position. *)
Definition quadrant_position (dividers : list (Divider.t value)) (pos_el : position_el)
  : outcome (Position.t value) :=
  let divider := pos_divider_ref pos_el in
  location ← match pos_location pos_el with
             | Some s => float s
             | None => Raise (TypeError "float() argument must be a string or a number")
             end;
  let '(q_min, q_max, dim_label) :=
    quadrant_dividers divider location dividers (None, None, None) in
  match dim_label with
  | None => Raise (ValueError "Quadrant must define a divider reference")
  | Some dim_label => Return (Position.mk divider dim_label location q_min q_max)
  end.

Fixpoint quadrant_positions (dividers : list (Divider.t value)) (position_els : list position_el)
    (acc : list (Position.t value)) : outcome (list (Position.t value)) :=
  match position_els with
  | [] => Return acc
  | pos_el :: rest =>
      entry ← quadrant_position dividers pos_el;
      quadrant_positions dividers rest (acc ++ [entry])
  end.

(** The [for quadrant_el in quadrant_els] loop building [quadrants]. *)
Fixpoint quadrant_loop (dividers : list (Divider.t value)) (quadrant_els : list quadrant_el)
    (quadrants : gmap (option string) (list (Position.t value)))
  : outcome (gmap (option string) (list (Position.t value))) :=
  match quadrant_els with
  | [] => Return quadrants
  | quadrant_el :: rest =>
      let quad_id := quad_id_attrib quadrant_el in
      entries ← quadrant_positions dividers (position_els quadrant_el) [];
      quadrant_loop dividers rest (<[quad_id := entries]> quadrants)
  end.

(** [GMLQuadrantGate.__init__] up to the call of the base constructor: the
    [quadrants] dict built from the parsed dividers and the [Quadrant]
    elements. *)
Definition GMLQuadrantGate__init__quadrants (dividers : list (Divider.t value))
    (quadrant_els : list quadrant_el)
  : outcome (gmap (option string) (list (Position.t value))) :=
  if decide (length dividers < 1) then
    Raise (ValueError "Quadrant gates must have at least 1 divider")
  else quadrant_loop dividers quadrant_els ∅.

(** *** Vocabulary of the statements about quadrants *)



End GmlGatesPy.

(** The comparisons form a total order (true of numbers other than NaN). *)
Class FloatOrder (value : Type) `{PyFloat value} : Prop := {
  float_lt_irrefl : forall x : value, float_lt x x = false;
  float_lt_trans : forall x y z : value,
    float_lt x y = true -> float_lt y z = true -> float_lt x z = true;
  float_lt_total : forall x y : value,
    float_lt x y = true \/ x = y \/ float_lt y x = true;
  float_gt_lt : forall x y : value, float_gt x y = float_lt y x;
  float_le_lt : forall x y : value, float_le x y = negb (float_lt y x)
}.

(** [x] is not above [y]. *)
Notation "x ⪯ y" := (float_lt y x = false) (at level 70).

(** ** [src/flowkit/_models/session.py]: the batch functions *)

(** What the module reads from its surroundings: [multi_proc] and
    [mp.cpu_count()] of [_utils.gate_utils], and, for a pool in which more
    than one task fails, which of the failures reaches the parent first. *)
Record mp_env : Type := {
  multi_proc : bool;
  cpu_count : Z;
  first_failure : nat
}.

(** [mp.get_context("spawn").Pool(processes=n)]: the pool has [n] workers;
    the constructor refuses [n < 1]. *)
Definition Pool (processes : Z) : outcome Z :=
  if decide (processes < 1)%Z then
    Raise (ValueError "Number of processes must be at least 1")
  else Return processes.

(** The exceptions among a list of outcomes, in task order. *)
Fixpoint failures {A} (rs : list (outcome A)) : list exn :=
  match rs with
  | [] => []
  | Raise e :: rs' => e :: failures rs'
  | Return _ :: rs' => failures rs'
  end.

(** The values among a list of outcomes, in task order. *)
Fixpoint successes {A} (rs : list (outcome A)) : list A :=
  match rs with
  | [] => []
  | Raise _ :: rs' => successes rs'
  | Return a :: rs' => a :: successes rs'
  end.

(** [pool.map(f, data)]: every task runs; the results come back in task
    order, unless a task failed, in which case the failure that arrived
    first is raised in the parent. *)
Definition pool_map {A B} (env : mp_env) (f : A -> outcome B) (data : list A)
  : outcome (list B) :=
  let rs := f <$> data in
  match failures rs with
  | [] => Return (successes rs)
  | e :: es => Raise (nth (first_failure env `mod` length (e :: es)) (e :: es) e)
  end.

Section GateSamples.
Context {strategy sample results : Type}.
(** [gating_strategy.gate_sample(sample, verbose=verbose)], a method of the
    [GatingStrategy] class of [_models/gating_strategy.py]. *)
Variable GatingStrategy_gate_sample : strategy -> sample -> bool -> outcome results.

(** [_gate_sample]. *)
Definition _gate_sample (data : strategy * sample * bool) : outcome results :=
  let gating_strategy := data.1.1 in
  let sample := data.1.2 in
  let verbose := data.2 in
  GatingStrategy_gate_sample gating_strategy sample verbose.

(** The test that selects the multiprocessing branch:
    [multi_proc and sample_count > 1 and use_mp]. *)
Definition use_pool (env : mp_env) (sample_count : nat) (use_mp : bool) : bool :=
  multi_proc env && bool_decide (1 < sample_count) && use_mp.

(** [proc_count] as the multiprocessing branch computes it. *)
Definition proc_count (env : mp_env) (sample_count : nat) : Z :=
  if decide (Z.of_nat sample_count < cpu_count env)%Z then Z.of_nat sample_count
  else (cpu_count env - 1)%Z.

(** [[(gating_strategies[i], sample, verbose) for i, sample in
    enumerate(samples)]], from index [i]. *)
Fixpoint build_data (gating_strategies : list strategy) (verbose : bool)
    (i : nat) (samples : list sample) : outcome (list (strategy * sample * bool)) :=
  match samples with
  | [] => Return []
  | sample :: rest =>
      gs ← getitem gating_strategies i;
      data ← build_data gating_strategies verbose (S i) rest;
      Return ((gs, sample, verbose) :: data)
  end.

(** The sequential loop, from index [i]. *)
Fixpoint sequential_loop (gating_strategies : list strategy) (verbose : bool)
    (i : nat) (samples : list sample) (all_results : list results)
  : outcome (list results) :=
  match samples with
  | [] => Return all_results
  | sample :: rest =>
      gs ← getitem gating_strategies i;
      results ← GatingStrategy_gate_sample gs sample verbose;
      sequential_loop gating_strategies verbose (S i) rest (all_results ++ [results])
  end.

(** The number of workers [_gate_samples] asks a pool for, when it takes
    the multiprocessing branch. *)
Definition requested_workers (env : mp_env) (samples : list sample) (use_mp : bool)
  : option Z :=
  let sample_count := length samples in
  if use_pool env sample_count use_mp then Some (proc_count env sample_count) else None.

(** [_gate_samples]. *)
Definition _gate_samples (env : mp_env) (gating_strategies : list strategy)
    (samples : list sample) (verbose : bool) (use_mp : bool) : outcome (list results) :=
  let sample_count := length samples in
  if use_pool env sample_count use_mp then
    pool ← Pool (proc_count env sample_count);
    data ← build_data gating_strategies verbose 0 samples;
    pool_map env _gate_sample data
  else
    sequential_loop gating_strategies verbose 0 samples [].

End GateSamples.

(** ** [src/flowkit/_models/session.py]: the [Session] *)

(** *** Objects and references *)

(** Modelled from the spec: the [GatingStrategy] class of
    [_models/gating_strategy.py] is not in src/.  Section 3 of the
    specification gives its state: [gates], a mapping from gate path to
    [Gate]; [transformations] and [comp_matrices], mappings from id to
    [Transform] and [Matrix].  The dicts hold references; a reference is the
    position of the instance among the objects of its kind. *)
Module Strategy.
Record t : Type := mk {
  gates : list (list string * nat);
  transformations : list (string * nat);
  comp_matrices : list (string * nat)
}.
End Strategy.

(** The Python heap as far as the session reaches into it: the
    [GatingStrategy] instances and the [Gate], [Transform] and [Matrix]
    instances they refer to, each of the latter with a state [payload] of
    its own that holds no reference.  Allocation appends, so an object's
    reference is its position and never changes. *)
Record heap (payload : Type) : Type := {
  strategies : list Strategy.t;
  leaves : list payload
}.
Arguments strategies {payload} _.
Arguments leaves {payload} _.

(** The references a strategy holds. *)
Definition refs (gs : Strategy.t) : list nat :=
  (Strategy.gates gs).*2 ++ (Strategy.transformations gs).*2 ++ (Strategy.comp_matrices gs).*2.

(** [copy.deepcopy] reaching a [Gate], [Transform] or [Matrix] instance:
    the instance is copied once, the memo remembers the copy. *)
Definition deepcopy_ref {payload} (st : list payload * gmap nat nat) (r : nat)
  : list payload * gmap nat nat * nat :=
  let '(leaves, memo) := st in
  match memo !! r with
  | Some r' => (st, r')
  | None =>
      match leaves !! r with
      | Some p => (leaves ++ [p], <[r := length leaves]> memo, length leaves)
      | None => (st, r)
      end
  end.

(** [copy.deepcopy] walking through one dict of references. *)
Fixpoint deepcopy_dict {payload K} (st : list payload * gmap nat nat) (d : list (K * nat))
  : list payload * gmap nat nat * list (K * nat) :=
  match d with
  | [] => (st, [])
  | (k, r) :: d' =>
      let '(st1, r') := deepcopy_ref st r in
      let '(st2, d'') := deepcopy_dict st1 d' in
      (st2, (k, r') :: d'')
  end.

(** [copy.deepcopy(strategy)]: a new [GatingStrategy] instance whose dicts
    refer to copies of the instances the original refers to. *)
Definition deepcopy_strategy {payload} (h : heap payload) (l : nat) : heap payload * nat :=
  match strategies h !! l with
  | None => (h, l)
  | Some gs =>
      let '(st1, gates) := deepcopy_dict (leaves h, ∅) (Strategy.gates gs) in
      let '(st2, transformations) := deepcopy_dict st1 (Strategy.transformations gs) in
      let '(st3, comp_matrices) := deepcopy_dict st2 (Strategy.comp_matrices gs) in
      ({| strategies := strategies h ++ [Strategy.mk gates transformations comp_matrices];
          leaves := st3.1 |},
       length (strategies h))
  end.

(** [copy.deepcopy(gate)]. *)
Definition deepcopy_leaf {payload} (h : heap payload) (r : nat) : heap payload * nat :=
  match leaves h !! r with
  | None => (h, r)
  | Some p => ({| strategies := strategies h; leaves := leaves h ++ [p] |}, length (leaves h))
  end.

(** *** The classes [session.py] imports *)

(** The methods and attributes of [GatingStrategy] and [GatingResults]
    ([_models/gating_strategy.py], [_models/gating_results.py]) that the
    modelled functions call. [GatingStrategy_add_gate] answers the new
    state of the receiver. *)
Class Collaborators (value payload results row : Type) := {
  GatingStrategy_add_gate :
    list payload -> Strategy.t -> nat -> option (list string) -> outcome Strategy.t;
  GatingStrategy_gate_sample :
    heap payload -> nat -> Sample value -> bool -> outcome results;
  GatingResults_sample_id : results -> string;
  GatingResults_report : results -> list row
}.

(** [add_gate] files the gate it is given and refers to nothing new
    besides. *)
Class AddGateStoresItsArgument (value payload results row : Type)
    `{Collaborators value payload results row} : Prop :=
  add_gate_refs : forall leaves gs gate gate_path gs',
    GatingStrategy_add_gate leaves gs gate gate_path = Return gs' ->
    refs gs' ⊆ gate :: refs gs.

(** *** The session *)

(** One entry of [_sample_group_lut]. *)
Record group : Type := {
  template : nat;
  samples : gmap string nat
}.

(** One entry of [_results_lut]. *)
Record group_results (results row : Type) : Type := {
  report : list row;
  results_samples : gmap string results
}.
Arguments report {results row} _.
Arguments results_samples {results row} _.

Record Session (value results row : Type) : Type := {
  subsample_count : Z;
  sample_lut : gmap string (option (Sample value));
  _results_lut : gmap string (group_results results row);
  _sample_group_lut : gmap string group
}.
Arguments subsample_count {value results row} _.
Arguments sample_lut {value results row} _.
Arguments _results_lut {value results row} _.
Arguments _sample_group_lut {value results row} _.

(** A session, the objects it refers to, and the warnings issued so far. *)
Record world (value payload results row : Type) : Type := {
  session : Session value results row;
  objects : heap payload;
  warnings : list string
}.
Arguments session {value payload results row} _.
Arguments objects {value payload results row} _.
Arguments warnings {value payload results row} _.

(** [pd.concat(objs)]. *)
Definition pd_concat {row} (objs : list (list row)) : outcome (list row) :=
  match objs with
  | [] => Raise (ValueError "No objects to concatenate")
  | _ => Return (concat objs)
  end.

Section SessionPy.
Context {value payload results row : Type} `{Collaborators value payload results row}.

Abbreviation World := (world value payload results row).

Definition warn (msg : string) (w : World) : World :=
  {| session := session w; objects := objects w; warnings := warnings w ++ [msg] |}.

Definition set_group (group_name : string) (g : group) (w : World) : World :=
  {| session :=
       {| subsample_count := subsample_count (session w);
          sample_lut := sample_lut (session w);
          _results_lut := _results_lut (session w);
          _sample_group_lut := <[group_name := g]> (_sample_group_lut (session w)) |};
     objects := objects w;
     warnings := warnings w |}.

Definition set_objects (h : heap payload) (w : World) : World :=
  {| session := session w; objects := h; warnings := warnings w |}.

Definition set_results (group_name : string) (r : group_results results row) (w : World)
  : World :=
  {| session :=
       {| subsample_count := subsample_count (session w);
          sample_lut := sample_lut (session w);
          _results_lut := <[group_name := r]> (_results_lut (session w));
          _sample_group_lut := _sample_group_lut (session w) |};
     objects := objects w;
     warnings := warnings w |}.

(** [Session.assign_sample]. *)
Definition assign_sample (sample_id group_name : string) (w : World) : outcome unit * World :=
  match _sample_group_lut (session w) !! group_name with
  | None => (Raise (KeyError group_name), w)
  | Some group =>
      if decide (is_Some (samples group !! sample_id)) then
        (Return (),
         warn ("Sample " +:+ sample_id +:+ " is already assigned to the group " +:+
               group_name +:+ "...nothing changed") w)
      else
        let template := template group in
        let '(h, copy) := deepcopy_strategy (objects w) template in
        (Return (),
         set_group group_name
           {| template := template; samples := <[sample_id := copy]> (samples group) |}
           (set_objects h w))
  end.

(** [strategy.add_gate(copy.deepcopy(gate), gate_path=gate_path)] on the
    strategy object [self]: the argument is copied, then the method runs on
    the receiver. *)
Definition call_add_gate (self gate : nat) (gate_path : option (list string)) (w : World)
  : outcome unit * World :=
  let '(h, gate_copy) := deepcopy_leaf (objects w) gate in
  let w1 := set_objects h w in
  match strategies h !! self with
  | None => (Raise (AttributeError "add_gate"), w1)
  | Some gs =>
      match GatingStrategy_add_gate (leaves h) gs gate_copy gate_path with
      | Raise e => (Raise e, w1)
      | Return gs' =>
          (Return (),
           set_objects {| strategies := <[self := gs']> (strategies h); leaves := leaves h |} w1)
      end
  end.

(** The [for s_id, s_strategy in s_members.items()] loop of [add_gate]. *)
Fixpoint add_gate_members (gate : nat) (gate_path : option (list string))
    (s_members : list (string * nat)) (w : World) : outcome unit * World :=
  match s_members with
  | [] => (Return (), w)
  | (s_id, s_strategy) :: rest =>
      match call_add_gate s_strategy gate gate_path w with
      | (Raise e, w1) => (Raise e, w1)
      | (Return _, w1) => add_gate_members gate gate_path rest w1
      end
  end.

(** [Session.add_gate]. *)
Definition add_gate (gate : nat) (gate_path : option (list string)) (group_name : string)
    (w : World) : outcome unit * World :=
  match _sample_group_lut (session w) !! group_name with
  | None => (Raise (KeyError group_name), w)
  | Some group =>
      let template := template group in
      let s_members := samples group in
      match call_add_gate template gate gate_path w with
      | (Raise e, w1) => (Raise e, w1)
      | (Return _, w1) => add_gate_members gate gate_path (map_to_list s_members) w1
      end
  end.

(** [Session.get_sample_ids]. *)
Definition get_sample_ids (self : Session value results row) (loaded_only : bool)
  : list string :=
  if loaded_only then
    omap (fun kv : string * option (Sample value) =>
            match kv.2 with Some _ => Some kv.1 | None => None end)
         (map_to_list (sample_lut self))
  else (map_to_list (sample_lut self)).*1.

(** [Session.get_group_sample_ids]. *)
Definition get_group_sample_ids (self : Session value results row) (group_name : string)
    (loaded_only : bool) : outcome (list string) :=
  match _sample_group_lut self !! group_name with
  | None => Raise (KeyError group_name)
  | Some group =>
      let sample_ids := (map_to_list (samples group)).*1 in
      if loaded_only then
        let loaded_sample_ids := get_sample_ids self true in
        Return (elements ((list_to_set sample_ids : gset string) ∪ list_to_set loaded_sample_ids))
      else Return sample_ids
  end.

(** [Session.get_sample]. *)
Definition get_sample (self : Session value results row) (sample_id : string)
  : outcome (option (Sample value)) :=
  match sample_lut self !! sample_id with
  | Some s => Return s
  | None => Raise (KeyError sample_id)
  end.

(** [Session.get_group_samples]. *)
Definition get_group_samples (self : Session value results row) (group_name : string)
  : outcome (list (option (Sample value))) :=
  sample_ids ← get_group_sample_ids self group_name true;
  mapM (get_sample self) sample_ids.

(** The [for s in samples] loop of [analyze_samples]. *)
Fixpoint collect_units (self : Session value results row) (group_name : string)
    (sample_list : list (option (Sample value)))
    (gating_strategies : list nat) (samples_to_run : list (Sample value))
  : outcome (list nat * list (Sample value)) :=
  match sample_list with
  | [] => Return (gating_strategies, samples_to_run)
  | None :: rest =>
      collect_units self group_name rest gating_strategies samples_to_run
  | Some s :: rest =>
      match _sample_group_lut self !! group_name with
      | None => Raise (KeyError group_name)
      | Some group =>
          match samples group !! original_filename s with
          | None => Raise (KeyError (original_filename s))
          | Some gs =>
              collect_units self group_name rest
                (gating_strategies ++ [gs]) (samples_to_run ++ [s])
          end
      end
  end.

(** [analyze_samples] up to the call of [_gate_samples]: the strategies and
    samples to run, or the warning with which the method returns early. *)
Definition units_to_run (self : Session value results row) (group_name : string)
    (sample_id : option string)
  : outcome (string + list nat * list (Sample value)) :=
  sample_list ← get_group_samples self group_name;
  if decide (length sample_list = 0) then
    Return (inl ("No samples have been assigned to sample group " +:+ group_name))
  else
    match sample_id with
    | None => inr <$> collect_units self group_name sample_list [] []
    | Some sample_id =>
        sample_ids ← get_group_sample_ids self group_name true;
        if decide (sample_id ∈ sample_ids) then
          s ← get_sample self sample_id;
          inr <$> collect_units self group_name [s] [] []
        else
          Return (inl (sample_id +:+ " is not assigned to sample group " +:+ group_name))
    end.

(** The [for r in results] loop filling [_results_lut[group]['samples']]. *)
Definition store_results (rs : list results) : gmap string results :=
  foldl (fun m r => <[GatingResults_sample_id r := r]> m) ∅ rs.

(** [Session.analyze_samples]; [use_mp] is the module's global. *)
Definition analyze_samples (env : mp_env) (use_mp : bool) (group_name : string)
    (sample_id : option string) (verbose : bool) (w : World) : outcome unit * World :=
  match units_to_run (session w) group_name sample_id with
  | Raise e => (Raise e, w)
  | Return (inl msg) => (Return (), warn msg w)
  | Return (inr (gating_strategies, samples_to_run)) =>
      match _gate_samples (GatingStrategy_gate_sample (objects w)) env
                          gating_strategies samples_to_run verbose use_mp with
      | Raise e => (Raise e, w)
      | Return rs =>
          let all_reports := GatingResults_report <$> rs in
          match pd_concat all_reports with
          | Raise e => (Raise e, w)
          | Return report =>
              (Return (),
               set_results group_name
                 {| report := report; results_samples := store_results rs |} w)
          end
      end
  end.

(** *** Vocabulary of the statements about sessions *)

(** The instances a strategy object refers to. *)
Definition footprint (h : heap payload) (l : nat) : list nat :=
  match strategies h !! l with
  | Some gs => refs gs
  | None => []
  end.

(** What one reads through a dict of references. *)
Definition view_dict {K} (leaves : list payload) (d : list (K * nat))
  : list (K * option payload) :=
  (fun kr => (kr.1, leaves !! kr.2)) <$> d.

(** The content of a strategy: its dicts with every reference followed. *)
Definition view (h : heap payload) (l : nat)
  : option (list (list string * option payload) *
            list (string * option payload) *
            list (string * option payload)) :=
  match strategies h !! l with
  | Some gs =>
      Some (view_dict (leaves h) (Strategy.gates gs),
            view_dict (leaves h) (Strategy.transformations gs),
            view_dict (leaves h) (Strategy.comp_matrices gs))
  | None => None
  end.

(** Every reference held by a strategy points to an existing instance. *)
Definition closed (h : heap payload) : Prop :=
  forall l gs, strategies h !! l = Some gs ->
  forall r, r ∈ refs gs -> r < length (leaves h).

(** The places where a session holds a strategy: the template of a group
    ([None]) or the entry of one of its samples. *)
Definition strategy_at (s : Session value results row) (group_name : string)
    (sample_id : option string) : option nat :=
  match _sample_group_lut s !! group_name with
  | None => None
  | Some g =>
      match sample_id with
      | None => Some (template g)
      | Some sid => samples g !! sid
      end
  end.

(** The session only refers to existing strategy objects, and these only
    to existing instances. *)
Definition well_formed (w : World) : Prop :=
  closed (objects w) /\
  forall g sid l, strategy_at (session w) g sid = Some l ->
                  l < length (strategies (objects w)).

(** No two places of the session share a strategy object or an instance
    one of their strategies refers to. *)
Definition separated (w : World) : Prop :=
  forall g1 sid1 g2 sid2 l1 l2,
    (g1, sid1) <> (g2, sid2) ->
    strategy_at (session w) g1 sid1 = Some l1 ->
    strategy_at (session w) g2 sid2 = Some l2 ->
    l1 <> l2 /\
    forall r, r ∈ footprint (objects w) l1 -> r ∉ footprint (objects w) l2.

(** [h'] is [h] after mutations of the strategy object [l] and of the
    instances it refers to (and possibly new objects): every other existing
    object is as it was. *)
Definition mutation_of (h : heap payload) (l : nat) (h' : heap payload) : Prop :=
  (forall l', l' <> l -> l' < length (strategies h) ->
              strategies h' !! l' = strategies h !! l') /\
  (forall r, r ∉ footprint h l -> r < length (leaves h) ->
             leaves h' !! r = leaves h !! r).

(** [w'] is [w] with the same session, the same objects plus new
    instances, and strategies that refer to what they referred to before or
    to instances that did not exist in [w]. *)
Definition grows (w w' : World) : Prop :=
  session w' = session w /\
  well_formed w' /\
  (separated w -> separated w') /\
  (exists new, leaves (objects w') = leaves (objects w) ++ new) /\
  length (strategies (objects w')) = length (strategies (objects w)) /\
  forall l r, r ∈ footprint (objects w') l ->
              r ∈ footprint (objects w) l \/ length (leaves (objects w)) <= r.

(** State of a running [copy.deepcopy] with respect to the instances [old]
    that existed when it began: it has only added instances, and its memo
    sends an old instance to a new one of the same state. *)
Definition copying (old : list payload) (st : list payload * gmap nat nat) : Prop :=
  (exists new, st.1 = old ++ new) /\
  forall r r', st.2 !! r = Some r' ->
    length old <= r' /\ st.1 !! r' = old !! r /\ r < length old.

(** [d'] is the dict [d] with every reference replaced by a reference to a
    new instance of the same state. *)
Definition copied_dict {K} (old lv : list payload) (d d' : list (K * nat)) : Prop :=
  Forall2 (fun kr kr' => kr'.1 = kr.1 /\ length old <= kr'.2 /\ lv !! kr'.2 = old !! kr.2) d d'.

End SessionPy.

(** ** Integers as event values, for running the definitions *)

#[global] Instance Z_PyFloat : PyFloat Z := {
  float_ge := Z.geb;
  float_lt := Z.ltb;
  float_gt := Z.gtb;
  float_le := Z.leb;
  float_of_str := fun s => Z.of_int <$> NilZero.int_of_string s
}.

(** *** A small document and a small sample *)

Definition dim_X : dim_element :=
  {| compensation_ref_attribs := ["uncompensated"];
     min_attribs := ["0"]; max_attribs := ["10"];
     fcs_dim_els := Some ["X"] |}.

Definition dim_Y_min_only : dim_element :=
  {| compensation_ref_attribs := ["uncompensated"];
     min_attribs := ["5"]; max_attribs := [];
     fcs_dim_els := Some ["Y"] |}.

Definition dim_Y_unbounded : dim_element := without_bounds dim_Y_min_only.

Definition el_R : gate_element :=
  {| id_attribs := ["R"]; parent_attribs := []; dim_els := [dim_X; dim_Y_min_only] |}.

Definition el_R_child : gate_element :=
  {| id_attribs := ["R"]; parent_attribs := ["P"]; dim_els := [dim_X] |}.

Definition el_P : gate_element :=
  {| id_attribs := ["P"]; parent_attribs := []; dim_els := [dim_X] |}.

Definition el_U : gate_element :=
  {| id_attribs := ["U"]; parent_attribs := []; dim_els := [dim_X; dim_Y_unbounded] |}.

Definition gate_R : Gate.t Z :=
  Gate.mk "R" None
    [Dimension.mk "uncompensated" (Some 0%Z) (Some 10%Z) ["10"] "X";
     Dimension.mk "uncompensated" (Some 5%Z) None [] "Y"].

Definition gate_U : Gate.t Z :=
  Gate.mk "U" None
    [Dimension.mk "uncompensated" (Some 0%Z) (Some 10%Z) ["10"] "X";
     Dimension.mk "uncompensated" None None [] "Y"].

Definition strategy_U : GatingStrategy Z := {| gates := {["U" := gate_U]} |}.

Definition gate_P : Gate.t Z :=
  Gate.mk "P" None [Dimension.mk "uncompensated" (Some 0%Z) (Some 10%Z) ["10"] "X"].

Definition gate_R_child : Gate.t Z :=
  Gate.mk "R" (Some "P") [Dimension.mk "uncompensated" (Some 0%Z) (Some 10%Z) ["10"] "X"].

Definition strategy_R : GatingStrategy Z := {| gates := {["R" := gate_R]} |}.

Definition divider_A : Divider.t Z := Divider.mk "A" "X" [30; 10; 20]%Z.
Definition divider_B : Divider.t Z := Divider.mk "B" "Y" [7]%Z.

Definition position_A15 : position_el :=
  {| pos_divider_ref := Some "A"; pos_location := Some "15" |}.

(** A machine with one CPU, and one with four. *)
Definition one_cpu : mp_env := {| multi_proc := true; cpu_count := 1; first_failure := 0 |}.
Definition four_cpus : mp_env := {| multi_proc := true; cpu_count := 4; first_failure := 0 |}.

(** A unit of work for the examples: a strategy of [gate.py] together with
    the id of the gate to evaluate. *)
Definition gate_one (unit : string * GatingStrategy Z) (sample : Sample Z) (verbose : bool)
  : outcome (gmap (option string) (list bool)) :=
  gate_sample unit.2 sample (Some unit.1).

Definition events4 : ndarray Z :=
  {| rows := [[5; 5]; [15; 5]; [10; 50]; [0; 50]]%Z; shape1 := 2 |}.

Definition sample4 : Sample Z :=
  {| original_filename := "a.fcs"; get_raw_events := events4; pnn_labels := ["X"; "Y"] |}.

(** *** A small engine, to run the session functions *)

(** Results of the small engine: the sample id and one mask per gate path. *)
Record mini_results : Type := {
  mini_sample_id : string;
  mini_masks : list (list string * list bool)
}.

(** Modelled from the spec: the [GatingStrategy] and [GatingResults]
    classes of [_models/] are not in src/.  Following sections 3, 4.4 and 4.5 of the
    specification: [add_gate] files a gate under its gate path and refuses
    a path already taken; [gate_sample] evaluates every gate of the strategy
    on the sample; the report has one row (sample, path, count) per gate.
    The gates are the rectangle gates of [gate.py]. *)
#[global] Instance mini_engine :
  Collaborators Z (Gate.t Z) mini_results (string * list string * nat) := {
  GatingStrategy_add_gate := fun leaves gs gate gate_path =>
    g ← getitem leaves gate;
    let path := default [] gate_path ++ [Gate.id g] in
    if decide (path ∈ (Strategy.gates gs).*1) then
      Raise (ValueError "gate path already exists")
    else
      Return (Strategy.mk (Strategy.gates gs ++ [(path, gate)])
                          (Strategy.transformations gs) (Strategy.comp_matrices gs));
  GatingStrategy_gate_sample := fun h l sample verbose =>
    gs ← getitem (strategies h) l;
    masks ← mapM (fun pr : list string * nat =>
                    g ← getitem (leaves h) pr.2;
                    m ← RectangleGate_apply g (get_raw_events sample) (pnn_labels sample);
                    Return (pr.1, m))
                 (Strategy.gates gs);
    Return {| mini_sample_id := original_filename sample; mini_masks := masks |};
  GatingResults_sample_id := mini_sample_id;
  GatingResults_report := fun r =>
    (fun pm : list string * list bool =>
       (mini_sample_id r, pm.1, length (filter (fun b => b = true) pm.2))) <$> mini_masks r
}.

(** Two gate objects, the template of the default group referring to the
    first, and two loaded samples not yet assigned. *)
Definition sample5 : Sample Z :=
  {| original_filename := "b.fcs"; get_raw_events := events4; pnn_labels := ["X"; "Y"] |}.

Definition world0 : world Z (Gate.t Z) mini_results (string * list string * nat) :=
  {| session :=
       {| subsample_count := 10000%Z;
          sample_lut := {["a.fcs" := Some sample4; "b.fcs" := Some sample5]};
          _results_lut := ∅;
          _sample_group_lut := {["default" := {| template := 0; samples := ∅ |}]} |};
     objects := {| strategies := [Strategy.mk [(["R"], 0)] [] []];
                   leaves := [gate_R; gate_P] |};
     warnings := [] |}.

(** The default group with two assigned samples, each with a copy of
    gate R. *)
Definition world_RR : world Z (Gate.t Z) mini_results (string * list string * nat) :=
  {| session :=
       {| subsample_count := 10000%Z;
          sample_lut := {["a.fcs" := Some sample4; "b.fcs" := Some sample5]};
          _results_lut := ∅;
          _sample_group_lut :=
            {["default" := {| template := 0;
                              samples := {["a.fcs" := 1; "b.fcs" := 2]} |}]} |};
     objects := {| strategies := [Strategy.mk [(["R"], 0)] [] [];
                                  Strategy.mk [(["R"], 1)] [] [];
                                  Strategy.mk [(["R"], 2)] [] []];
                   leaves := [gate_R; gate_R; gate_R] |};
     warnings := [] |}.

(** The default group with two assigned samples; the strategy of "b.fcs"
    refers to gate U, whose second dimension has no bound. *)
Definition world_U : world Z (Gate.t Z) mini_results (string * list string * nat) :=
  {| session :=
       {| subsample_count := 10000%Z;
          sample_lut := {["a.fcs" := Some sample4; "b.fcs" := Some sample5]};
          _results_lut := ∅;
          _sample_group_lut :=
            {["default" := {| template := 0;
                              samples := {["a.fcs" := 1; "b.fcs" := 2]} |}]} |};
     objects := {| strategies := [Strategy.mk [(["R"], 0)] [] [];
                                  Strategy.mk [(["R"], 1)] [] [];
                                  Strategy.mk [(["U"], 2)] [] []];
                   leaves := [gate_R; gate_R; gate_U] |};
     warnings := [] |}.

(** ** Further vocabulary and further code *)

Section GateMoreVocabulary.
Context {value : Type} `{PyFloat value}.

(** What makes [apply] return. *)
Definition applicable (dims : list (Dimension.t value)) (events : ndarray value)
    (labels : list string) : Prop :=
  shape1 events = length labels /\
  Forall (fun dim => has_bound dim /\ Dimension.label dim ∈ labels) dims.

(** The row passes the bound tests of all of [dims]. *)
Definition row_inside (dims : list (Dimension.t value)) (labels : list string)
    (row : list value) : Prop :=
  forall dim, dim ∈ dims ->
    exists k v, index (Dimension.label dim) labels = Some k /\
                row !! k = Some v /\
                in_range (Dimension.min dim) (Dimension.max dim) v = true.

End GateMoreVocabulary.

Section QuadrantMoreVocabulary.
Context {value : Type} `{PyFloat value}.


End QuadrantMoreVocabulary.

(** *** [GMLEllipsoidGate.__init__] and [GMLBooleanGate.__init__] *)

(** What lxml and [gml_utils.find_attribute_value] answer on an
    [EllipsoidGate] element: the [value] of every [coordinate] of the
    [mean] child, of every [entry] of every [row] of the [covarianceMatrix]
    child ([None] for a child that is absent), and of [distanceSquare]. *)
Record ellipsoid_el : Type := {
  mean_coord_values : option (list (option string));
  covariance_row_values : option (list (list (option string)));
  dist_square_value : option string
}.

(** The arguments [GMLEllipsoidGate.__init__] hands to the base class. *)
Record ellipsoid_args (value : Type) : Type := {
  coordinates : list value;
  covariance_matrix : list (list value);
  distance_square : value
}.
Arguments coordinates {value} _.
Arguments covariance_matrix {value} _.
Arguments distance_square {value} _.

(** One [gateReference] element: its [ref] and [use-as-complement]. *)
Record gate_reference_el : Type := {
  ref_attrib : option string;
  use_as_complement_attrib : option string
}.

(** The [and], [or] and [not] children of a [BooleanGate] element, each
    with its [gateReference] children. *)
Record boolean_el : Type := {
  and_els : list (list gate_reference_el);
  or_els : list (list gate_reference_el);
  not_els : list (list gate_reference_el)
}.

(** One entry of [gate_refs]. *)
Module GateRef.
Record t : Type := mk {
  ref : string;
  complement : bool
}.
End GateRef.

Section GmlGatesMorePy.
Context {value : Type} `{PyFloat value}.

(** [float(value)] on the answer of [find_attribute_value]. *)
Definition float_of_attribute (v : option string) : outcome value :=
  match v with
  | Some s => float s
  | None => Raise (TypeError "float() argument must be a string or a number")
  end.

(** The [for coord_el in coord_els] loop. *)
Fixpoint ellipsoid_coordinates (coord_values : list (option string)) (coordinates : list value)
  : outcome (list value) :=
  match coord_values with
  | [] => Return coordinates
  | None :: _ => Raise (ValueError "A coordinate must have only 1 value")
  | Some v :: rest =>
      x ← float v;
      ellipsoid_coordinates rest (coordinates ++ [x])
  end.

(** The [for entry_el in row_entry_els] loop. *)
Fixpoint ellipsoid_entries (entry_values_in : list (option string)) (entry_values : list value)
  : outcome (list value) :=
  match entry_values_in with
  | [] => Return entry_values
  | v :: rest =>
      x ← float_of_attribute v;
      ellipsoid_entries rest (entry_values ++ [x])
  end.

(** The [for row_el in covariance_row_els] loop. *)
Fixpoint ellipsoid_rows (n_coordinates : nat) (row_values : list (list (option string)))
    (covariance_matrix : list (list value)) : outcome (list (list value)) :=
  match row_values with
  | [] => Return covariance_matrix
  | row :: rest =>
      entry_values ← ellipsoid_entries row [];
      if decide (length entry_values ≠ n_coordinates) then
        Raise (ValueError "Covariance row entry value count must match # of dimensions")
      else ellipsoid_rows n_coordinates rest (covariance_matrix ++ [entry_values])
  end.

(** [GMLEllipsoidGate.__init__] from the parsed gate element on, up to the
    call of the base constructor. *)
Definition GMLEllipsoidGate__init__args (el : ellipsoid_el) : outcome (ellipsoid_args value) :=
  match mean_coord_values el with
  | None => Raise (AttributeError "findall")
  | Some coord_els =>
      if decide (length coord_els = 1) then
        Raise (ValueError "Ellipsoids must have at least 2 dimensions")
      else
        coordinates ← ellipsoid_coordinates coord_els [];
        match covariance_row_values el with
        | None => Raise (AttributeError "findall")
        | Some covariance_row_els =>
            covariance_matrix ← ellipsoid_rows (length coordinates) covariance_row_els [];
            distance_square ← float_of_attribute (dist_square_value el);
            Return {| coordinates := coordinates;
                      covariance_matrix := covariance_matrix;
                      distance_square := distance_square |}
        end
  end.

(** The [for gate_ref_el in gate_ref_els] loop of [GMLBooleanGate]. *)
Fixpoint boolean_gate_refs (gate_ref_els : list gate_reference_el) (gate_refs : list GateRef.t)
  : outcome (list GateRef.t) :=
  match gate_ref_els with
  | [] => Return gate_refs
  | gate_ref_el :: rest =>
      match ref_attrib gate_ref_el with
      | None => Raise (ValueError "Boolean gate reference must specify a 'ref' attribute")
      | Some gate_ref =>
          let use_complement :=
            match use_as_complement_attrib gate_ref_el with
            | Some s => bool_decide (s = "true")
            | None => false
            end in
          boolean_gate_refs rest (gate_refs ++ [GateRef.mk gate_ref use_complement])
      end
  end.

(** [GMLBooleanGate.__init__] from the parsed gate element on, up to the
    call of the base constructor: [bool_type] and [gate_refs]. *)
Definition GMLBooleanGate__init__args (el : boolean_el) : outcome (string * list GateRef.t) :=
  '(bool_type, bool_op_el) ←
     match and_els el, or_els el, not_els el with
     | a :: _, _, _ => Return ("and", a)
     | [], o :: _, _ => Return ("or", o)
     | [], [], n :: _ => Return ("not", n)
     | [], [], [] =>
         Raise (ValueError "Boolean gate must specify one of 'and', 'or', or 'not'")
     end;
  gate_refs ← boolean_gate_refs bool_op_el [];
  Return (bool_type, gate_refs).

(** The value and complement flag a [gateReference] element stands for. *)
Definition reference_of (el : gate_reference_el) (r : GateRef.t) : Prop :=
  ref_attrib el = Some (GateRef.ref r) /\
  GateRef.complement r = bool_decide (use_as_complement_attrib el = Some "true").

(** The attribute is present and is the text of the number [x]. *)
Definition number_of (v : option string) (x : value) : Prop :=
  exists s, v = Some s /\ float_of_str s = Some x.

End GmlGatesMorePy.

(** *** [Session.get_gating_results] and [Session.get_group_report] *)

Section SessionResultsPy.
Context {value results row : Type}.

(** [Session.get_gating_results]; a result is an immutable value here, so
    its deep copy is the value itself. *)
Definition get_gating_results (self : Session value results row)
    (group_name sample_id : string) : outcome results :=
  match _results_lut self !! group_name with
  | None => Raise (KeyError group_name)
  | Some group_results =>
      match results_samples group_results !! sample_id with
      | None => Raise (KeyError sample_id)
      | Some gating_result => Return gating_result
      end
  end.

(** [Session.get_group_report]. *)
Definition get_group_report (self : Session value results row) (group_name : string)
  : outcome (list row) :=
  match _results_lut self !! group_name with
  | None => Raise (KeyError group_name)
  | Some group_results => Return (report group_results)
  end.

End SessionResultsPy.

(** *** [Session.__init__], [add_sample_group] and [add_samples] *)

(** The [gating_strategy] argument of [add_sample_group], by the tests the
    method applies to it: a [GatingStrategy] instance, a [str] or
    [io.IOBase], [None], or anything else. *)
Inductive strategy_arg : Type :=
  | StrategyInstance (l : nat)
  | StrategyPath (path : string)
  | StrategyNone
  | StrategyOther.

Section SessionSetupPy.
Context {value payload results row : Type} `{Collaborators value payload results row}.

(** What the section takes from outside src/: the state of a new
    [GatingStrategy()], [xml_utils.parse_gating_xml] (which creates its
    objects on the heap and answers the new strategy), and
    [Sample.subsample_events] (which changes the sample in place). *)
Variable blank_strategy : Strategy.t.
Variable parse_gating_xml : string -> heap payload -> outcome (heap payload * nat).
Variable Sample_subsample_events : Sample value -> Z -> Sample value.

(** [GatingStrategy()]: a new object. *)
Definition new_GatingStrategy (h : heap payload) : heap payload * nat :=
  ({| strategies := strategies h ++ [blank_strategy]; leaves := leaves h |},
   length (strategies h)).

(** [Session.add_sample_group]. *)
Definition add_sample_group (group_name : string) (gating_strategy : strategy_arg)
    (w : world value payload results row) : outcome unit * world value payload results row :=
  if decide (is_Some (_sample_group_lut (session w) !! group_name)) then
    (Return (), warn "A sample group with this name already exists...skipping" w)
  else
    match gating_strategy with
    | StrategyInstance gating_strategy =>
        (Return (),
         set_group group_name {| template := gating_strategy; samples := ∅ |} w)
    | StrategyPath path =>
        match parse_gating_xml path (objects w) with
        | Raise e => (Raise e, w)
        | Return (h, gating_strategy) =>
            (Return (),
             set_group group_name {| template := gating_strategy; samples := ∅ |}
               (set_objects h w))
        end
    | StrategyNone =>
        let '(h, gating_strategy) := new_GatingStrategy (objects w) in
        (Return (),
         set_group group_name {| template := gating_strategy; samples := ∅ |}
           (set_objects h w))
    | StrategyOther =>
        (Raise (ValueError
           "'gating_strategy' must be either a GatingStrategy instance or a path to a GatingML document"),
         w)
    end.

(** [self.sample_lut[sample_id] = s]. *)
Definition set_sample (sample_id : string) (s : option (Sample value))
    (w : world value payload results row) : world value payload results row :=
  {| session :=
       {| subsample_count := subsample_count (session w);
          sample_lut := <[sample_id := s]> (sample_lut (session w));
          _results_lut := _results_lut (session w);
          _sample_group_lut := _sample_group_lut (session w) |};
     objects := objects w;
     warnings := warnings w |}.

(** [Session.add_samples], from the list that [sample_utils.load_samples]
    answers. *)
Fixpoint add_samples (new_samples : list (Sample value))
    (w : world value payload results row) : outcome unit * world value payload results row :=
  match new_samples with
  | [] => (Return (), w)
  | s :: rest =>
      let s := Sample_subsample_events s (subsample_count (session w)) in
      match sample_lut (session w) !! original_filename s with
      | Some (Some _) =>
          add_samples rest
            (warn ("A sample with ID " +:+ original_filename s +:+ " already exists...skipping") w)
      | _ =>
          let w1 := set_sample (original_filename s) (Some s) w in
          match assign_sample (original_filename s) "default" w1 with
          | (Raise e, w2) => (Raise e, w2)
          | (Return _, w2) => add_samples rest w2
          end
      end
  end.

(** [Session.__init__], on the heap [h] of the running program. *)
Definition Session__init__ (new_samples : list (Sample value)) (subsample_count : Z)
    (h : heap payload) : outcome unit * world value payload results row :=
  let w := {| session := {| subsample_count := subsample_count;
                            sample_lut := ∅;
                            _results_lut := ∅;
                            _sample_group_lut := ∅ |};
              objects := h;
              warnings := [] |} in
  match add_sample_group "default" StrategyNone w with
  | (Raise e, w1) => (Raise e, w1)
  | (Return _, w1) => add_samples new_samples w1
  end.

(** The sample is loaded in the session under the id [k]. *)
Definition loaded (s : Session value results row) (k : string) : Prop :=
  exists smp, sample_lut s !! k = Some (Some smp).

(** [w'] is [w] after samples have been loaded: the session and its objects
    are in order, what was loaded is loaded, every place of [w] holds the
    strategy it held, with the same content, no template has changed, and
    every new place is a sample of the default group with a new strategy
    that has the content of the group's template. *)
Definition loads (w w' : world value payload results row) : Prop :=
  well_formed w' /\
  (separated w -> separated w') /\
  subsample_count (session w') = subsample_count (session w) /\
  _results_lut (session w') = _results_lut (session w) /\
  length (strategies (objects w)) <= length (strategies (objects w')) /\
  (forall k smp, sample_lut (session w) !! k = Some (Some smp) ->
                 sample_lut (session w') !! k = Some (Some smp)) /\
  (forall g, strategy_at (session w') g None = strategy_at (session w) g None) /\
  (forall g sid l, strategy_at (session w) g (Some sid) = Some l ->
                   strategy_at (session w') g (Some sid) = Some l) /\
  (forall l, l < length (strategies (objects w)) ->
             view (objects w') l = view (objects w) l) /\
  (forall g sid l, strategy_at (session w') g (Some sid) = Some l ->
     strategy_at (session w) g (Some sid) = Some l \/
     (g = "default" /\ length (strategies (objects w)) <= l /\
      exists t, strategy_at (session w) "default" None = Some t /\
                view (objects w') l = view (objects w) t)).

End SessionSetupPy.

(** A third sample, not loaded in the worlds above, and the collaborators
    of the section on [Session.__init__] for the small engine: a new
    strategy has empty dicts, no GatingML file can be read, and
    sub-sampling keeps the sample as it is. *)
Definition sample6 : Sample Z :=
  {| original_filename := "c.fcs"; get_raw_events := events4; pnn_labels := ["X"; "Y"] |}.

Definition mini_blank : Strategy.t := Strategy.mk [] [] [].

Definition mini_parse (path : string) (h : heap (Gate.t Z)) : outcome (heap (Gate.t Z) * nat) :=
  Raise (ValueError ("cannot read " +:+ path)).

Definition mini_subsample (s : Sample Z) (count : Z) : Sample Z := s.

(** *** [Session.import_flowjo_workspace] *)

(** What [wsp_utils.parse_wsp] answers for one sample of a group: the gates
    with their gate paths, the compensation (a [Matrix] with its id, or
    [None] for anything that is not a [Matrix]) and the transforms with
    their ids.  The objects are on the heap already. *)
Record wsp_sample_data : Type := {
  wsp_gates : list (nat * option (list string));
  wsp_compensation : option (string * nat);
  wsp_transforms : list (string * nat)
}.

(** [d[k] = v] on a dict of references. *)
Fixpoint dict_set {K} `{EqDecision K} (k : K) (v : nat) (d : list (K * nat)) : list (K * nat) :=
  match d with
  | [] => [(k, v)]
  | (k', v') :: d' => if decide (k' = k) then (k', v) :: d' else (k', v') :: dict_set k v d'
  end.

Section SessionImportPy.
Context {value payload results row : Type} `{Collaborators value payload results row}.
Variable blank_strategy : Strategy.t.
Variable parse_gating_xml : string -> heap payload -> outcome (heap payload * nat).

(** An assignment to an attribute of the strategy object [gs]. *)
Definition alter_strategy (f : Strategy.t -> Strategy.t) (gs : nat)
    (w : world value payload results row) : world value payload results row :=
  set_objects {| strategies := alter f gs (strategies (objects w));
                 leaves := leaves (objects w) |} w.

(** The [for gate_dict in data_dict['gates']] loop: [gs.add_gate] on the
    gate itself. *)
Fixpoint import_gates (gate_dicts : list (nat * option (list string))) (gs : nat)
    (w : world value payload results row) : outcome unit * world value payload results row :=
  match gate_dicts with
  | [] => (Return (), w)
  | (gate, gate_path) :: rest =>
      match strategies (objects w) !! gs with
      | None => (Raise (AttributeError "add_gate"), w)
      | Some state =>
          match GatingStrategy_add_gate (leaves (objects w)) state gate gate_path with
          | Raise e => (Raise e, w)
          | Return state' => import_gates rest gs (alter_strategy (fun _ => state') gs w)
          end
      end
  end.

(** The body of the loop over the samples of a group. *)
Definition import_sample (ignore_missing_files : bool) (group_name sample : string)
    (data_dict : wsp_sample_data) (w : world value payload results row)
  : outcome unit * world value payload results row :=
  let w1 :=
    if decide (is_Some (sample_lut (session w) !! sample)) then w
    else
      let w' := set_sample sample None w in
      if ignore_missing_files then w'
      else warn ("Sample " +:+ sample +:+ " has not been added to the session. ") w' in
  let '(h, gs) := new_GatingStrategy blank_strategy (objects w1) in
  match import_gates (wsp_gates data_dict) gs (set_objects h w1) with
  | (Raise e, w2) => (Raise e, w2)
  | (Return _, w2) =>
      let w3 :=
        match wsp_compensation data_dict with
        | Some (matrix_id, matrix) =>
            alter_strategy
              (fun st => Strategy.mk (Strategy.gates st) (Strategy.transformations st)
                                     (dict_set matrix_id matrix (Strategy.comp_matrices st)))
              gs w2
        | None => w2
        end in
      let w4 :=
        alter_strategy
          (fun st => Strategy.mk (Strategy.gates st)
                                 (foldl (fun d xform => dict_set xform.1 xform.2 d) []
                                        (wsp_transforms data_dict))
                                 (Strategy.comp_matrices st))
          gs w3 in
      match (if decide (is_Some (_sample_group_lut (session w4) !! group_name))
             then (Return (), w4)
             else add_sample_group blank_strategy parse_gating_xml group_name
                    (StrategyInstance gs) w4) with
      | (Raise e, w5) => (Raise e, w5)
      | (Return _, w5) =>
          match _sample_group_lut (session w5) !! group_name with
          | None => (Raise (KeyError group_name), w5)
          | Some group =>
              (Return (),
               set_group group_name
                 {| template := template group; samples := <[sample := gs]> (samples group) |}
                 w5)
          end
      end
  end.

(** The loop over the samples of a group. *)
Fixpoint import_samples (ignore_missing_files : bool) (group_name : string)
    (sample_data : list (string * wsp_sample_data)) (w : world value payload results row)
  : outcome unit * world value payload results row :=
  match sample_data with
  | [] => (Return (), w)
  | (sample, data_dict) :: rest =>
      match import_sample ignore_missing_files group_name sample data_dict w with
      | (Raise e, w1) => (Raise e, w1)
      | (Return _, w1) => import_samples ignore_missing_files group_name rest w1
      end
  end.

(** [Session.import_flowjo_workspace], from the groups that
    [wsp_utils.parse_wsp] answers, in the order of the dict. *)
Fixpoint import_flowjo_workspace (ignore_missing_files : bool)
    (wsp_sample_groups : list (string * list (string * wsp_sample_data)))
    (w : world value payload results row) : outcome unit * world value payload results row :=
  match wsp_sample_groups with
  | [] => (Return (), w)
  | (group_name, sample_data) :: rest =>
      match import_samples ignore_missing_files group_name sample_data w with
      | (Raise e, w1) => (Raise e, w1)
      | (Return _, w1) => import_flowjo_workspace ignore_missing_files rest w1
      end
  end.

End SessionImportPy.

(** *** [Session.add_transform] and [Session.add_comp_matrix] *)

Section SessionPassThroughPy.
Context {value payload results row : Type}.

(** [GatingStrategy.add_transform] and [GatingStrategy.add_comp_matrix] of
    [_models/gating_strategy.py]; each answers the new state of the
    receiver. *)
Variable GatingStrategy_add_transform : list payload -> Strategy.t -> nat -> outcome Strategy.t.
Variable GatingStrategy_add_comp_matrix : list payload -> Strategy.t -> nat -> outcome Strategy.t.

(** [strategy.name(copy.deepcopy(arg))] on the strategy object [self],
    where [method] is what the class does for [name]. *)
Definition call_with_copy (name : string)
    (method : list payload -> Strategy.t -> nat -> outcome Strategy.t)
    (self arg : nat) (w : world value payload results row)
  : outcome unit * world value payload results row :=
  let '(h, arg_copy) := deepcopy_leaf (objects w) arg in
  let w1 := {| session := session w; objects := h; warnings := warnings w |} in
  match strategies h !! self with
  | None => (Raise (AttributeError name), w1)
  | Some gs =>
      match method (leaves h) gs arg_copy with
      | Raise e => (Raise e, w1)
      | Return gs' =>
          (Return (),
           {| session := session w;
              objects := {| strategies := <[self := gs']> (strategies h); leaves := leaves h |};
              warnings := warnings w |})
      end
  end.

(** The [for s_id, s_strategy in s_members.items()] loop. *)
Fixpoint call_members (name : string)
    (method : list payload -> Strategy.t -> nat -> outcome Strategy.t)
    (arg : nat) (s_members : list (string * nat)) (w : world value payload results row)
  : outcome unit * world value payload results row :=
  match s_members with
  | [] => (Return (), w)
  | (s_id, s_strategy) :: rest =>
      match call_with_copy name method s_strategy arg w with
      | (Raise e, w1) => (Raise e, w1)
      | (Return _, w1) => call_members name method arg rest w1
      end
  end.

(** The common body of the two methods. *)
Definition pass_through (name : string)
    (method : list payload -> Strategy.t -> nat -> outcome Strategy.t)
    (arg : nat) (group_name : string) (w : world value payload results row)
  : outcome unit * world value payload results row :=
  match _sample_group_lut (session w) !! group_name with
  | None => (Raise (KeyError group_name), w)
  | Some group =>
      let template := template group in
      let s_members := samples group in
      match call_with_copy name method template arg w with
      | (Raise e, w1) => (Raise e, w1)
      | (Return _, w1) => call_members name method arg (map_to_list s_members) w1
      end
  end.

(** [Session.add_transform]. *)
Definition add_transform (transform : nat) (group_name : string)
    (w : world value payload results row) : outcome unit * world value payload results row :=
  pass_through "add_transform" GatingStrategy_add_transform transform group_name w.

(** [Session.add_comp_matrix]. *)
Definition add_comp_matrix (matrix : nat) (group_name : string)
    (w : world value payload results row) : outcome unit * world value payload results row :=
  pass_through "add_comp_matrix" GatingStrategy_add_comp_matrix matrix group_name w.

(** The method files the instance it is given and refers to nothing new
    besides. *)
Definition stores_its_argument
    (method : list payload -> Strategy.t -> nat -> outcome Strategy.t) : Prop :=
  forall leaves gs arg gs', method leaves gs arg = Return gs' -> refs gs' ⊆ arg :: refs gs.

(** The method seen as the [add_gate] of a strategy class: the body of the
    two methods is the body of [Session.add_gate]. *)
Definition as_add_gate (method : list payload -> Strategy.t -> nat -> outcome Strategy.t)
  : Collaborators value payload results row :=
  {| GatingStrategy_add_gate := fun leaves gs arg _ => method leaves gs arg;
     GatingStrategy_gate_sample := fun _ _ _ _ => Raise IndexError;
     GatingResults_sample_id := fun _ => "";
     GatingResults_report := fun _ => [] |}.

End SessionPassThroughPy.

(** [add_transform] and [add_comp_matrix] for the small engine: the
    instance is filed under the id of the rectangle that stands for it,
    and an id already taken is refused. *)
Definition mini_add_transform (leaves : list (Gate.t Z)) (gs : Strategy.t) (transform : nat)
  : outcome Strategy.t :=
  x ← getitem leaves transform;
  if decide (Gate.id x ∈ (Strategy.transformations gs).*1) then
    Raise (KeyError (Gate.id x))
  else
    Return (Strategy.mk (Strategy.gates gs)
                        (Strategy.transformations gs ++ [(Gate.id x, transform)])
                        (Strategy.comp_matrices gs)).

Definition mini_add_comp_matrix (leaves : list (Gate.t Z)) (gs : Strategy.t) (matrix : nat)
  : outcome Strategy.t :=
  x ← getitem leaves matrix;
  if decide (Gate.id x ∈ (Strategy.comp_matrices gs).*1) then
    Raise (KeyError (Gate.id x))
  else
    Return (Strategy.mk (Strategy.gates gs) (Strategy.transformations gs)
                        (Strategy.comp_matrices gs ++ [(Gate.id x, matrix)])).

(** A [dimension] element with both bounds and its channel name. *)
Definition dim_full : dim_element :=
  {| compensation_ref_attribs := ["uncompensated"];
     min_attribs := ["3"];
     max_attribs := ["9"];
     fcs_dim_els := Some ["FSC-A"] |}.

(* ===================================================================== *)
(** * Part II: properties *)
(* ===================================================================== *)

(** ** The outcome monad *)

Lemma bind_Return {A B} (m : outcome A) (f : A -> outcome B) (b : B) :
  m ≫= f = Return b <-> exists a, m = Return a /\ f a = Return b.
Proof.
  destruct m as [e|a]; simpl; split.
  - discriminate.
  - intros (a & Ha & _). discriminate.
  - intros Hf. exists a. split; [reflexivity | exact Hf].
  - intros (a' & Ha & Hf). injection Ha as ->. exact Hf.
Qed.

Lemma bind_Raise {A B} (m : outcome A) (f : A -> outcome B) (e : exn) :
  m ≫= f = Raise e <-> m = Raise e \/ exists a, m = Return a /\ f a = Raise e.
Proof.
  destruct m as [e'|a]; simpl; split.
  - intros [= ->]. left. reflexivity.
  - intros [[= ->] | (a & Ha & _)]; [reflexivity | discriminate].
  - intros Hf. right. exists a. split; [reflexivity | exact Hf].
  - intros [Heq | (a' & Ha & Hf)]; [discriminate |]. injection Ha as ->. exact Hf.
Qed.

Lemma returns_or_raises {A} (m : outcome A) : returns m \/ raises m.
Proof. destruct m as [e|a]; [right; exists e | left; exists a]; reflexivity. Qed.

Lemma returns_not_raises {A} (m : outcome A) : returns m -> ~ raises m.
Proof. intros [a ->] [e He]. discriminate. Qed.

(** ** Python list helpers *)

Lemma index_Some x l k : index x l = Some k -> l !! k = Some x.
Proof.
  revert k. induction l as [|y l IH]; intros k; simpl; [discriminate |].
  destruct (decide (y = x)) as [->|Hne].
  - intros [= <-]. reflexivity.
  - destruct (index x l) as [k'|]; simpl; [|discriminate].
    intros [= <-]. simpl. apply IH. reflexivity.
Qed.

Lemma index_elem_of x l : x ∈ l -> exists k, index x l = Some k.
Proof.
  induction 1 as [x l | x y l Hin (k & IH)]; simpl.
  - exists 0. rewrite decide_True by reflexivity. reflexivity.
  - destruct (decide (y = x)); [exists 0; reflexivity |].
    exists (S k). rewrite IH. reflexivity.
Qed.

Lemma index_lt x l k : index x l = Some k -> k < length l.
Proof. intros Hk. apply index_Some in Hk. eapply lookup_lt_Some. exact Hk. Qed.

(** ** numpy helpers *)

Lemma column_Return {value} (a : ndarray value) (d : nat) :
  is_matrix a -> d < shape1 a ->
  exists c, column a d = Return c /\
            Forall2 (fun r v => r !! d = Some v) (rows a) c.
Proof.
  intros Hm Hd. unfold column. rewrite decide_True by exact Hd.
  assert (Hex : exists c, Forall2 (fun r v => r !! d = Some v) (rows a) c).
  { unfold is_matrix in Hm. induction Hm as [|r rs Hr _ (c & IH)].
    - exists []. constructor.
    - destruct (lookup_lt_is_Some_2 r d) as [v Hv]; [lia |].
      exists (v :: c). constructor; assumption. }
  destruct Hex as (c & Hc). exists c. split; [|exact Hc].
  apply (mapM_Some (fun r : list value => r !! d)) in Hc. rewrite Hc. reflexivity.
Qed.

Lemma np_bitwise_and_same (a b : list bool) :
  length a = length b -> np_bitwise_and a b = Return (zip_with andb a b).
Proof. intros Hl. unfold np_bitwise_and. rewrite decide_True by exact Hl. reflexivity. Qed.

(** ** [RectangleGate.apply] *)

Section RectangleGate.
Context {value : Type} `{PyFloat value}.

Lemma in_range_true lo hi v :
  in_range lo hi v = true <->
  (forall m, lo = Some m -> float_ge v m = true) /\
  (forall m, hi = Some m -> float_lt v m = true).
Proof.
  unfold in_range. rewrite andb_true_iff. split.
  - intros [Hlo Hhi]. split; intros m ->; assumption.
  - intros [Hlo Hhi]. split.
    + destruct lo as [m|]; [apply Hlo |]; reflexivity.
    + destruct hi as [m|]; [apply Hhi |]; reflexivity.
Qed.

(** The first loop returns exactly when every dimension has a bound and a
    label in [pnn_labels]; it then appends index, min and max of each. *)
Lemma apply_collect_Return self_id labels (dims : list (Dimension.t value)) idx mins maxs r :
  apply_collect self_id labels dims (idx, mins, maxs) = Return r ->
  exists ks,
    r = (idx ++ ks, mins ++ (Dimension.min <$> dims), maxs ++ (Dimension.max <$> dims)) /\
    Forall2 (fun dim k => index (Dimension.label dim) labels = Some k) dims ks /\
    Forall has_bound dims.
Proof.
  revert idx mins maxs. induction dims as [|dim dims IH]; intros idx mins maxs; simpl.
  - intros [= <-]. exists []. rewrite !app_nil_r. repeat split; constructor.
  - destruct (Dimension.min dim) as [lo|] eqn:Hlo, (Dimension.max dim) as [hi|] eqn:Hhi;
      try discriminate;
      (unfold list_index;
       destruct (index (Dimension.label dim) labels) as [k|] eqn:Hk; simpl; [|discriminate];
       intros Hr; apply IH in Hr as (ks & -> & Hks & Hbs);
       exists (k :: ks); rewrite <- !app_assoc; simpl; rewrite ?Hlo, ?Hhi;
       repeat split; constructor; try assumption;
       unfold has_bound; rewrite ?Hlo, ?Hhi; eauto).
Qed.

Lemma apply_collect_total self_id labels (dims : list (Dimension.t value)) idx mins maxs :
  Forall has_bound dims ->
  Forall (fun dim => Dimension.label dim ∈ labels) dims ->
  returns (apply_collect self_id labels dims (idx, mins, maxs)).
Proof.
  intros Hb. revert idx mins maxs.
  induction Hb as [|dim dims Hdim _ IH]; intros idx mins maxs Hin; simpl.
  - eexists. reflexivity.
  - inversion Hin as [|? ? Hl Hin']; subst.
    apply index_elem_of in Hl as (k & Hk). unfold list_index. rewrite Hk. simpl.
    destruct Hdim as [[m Hm] | [m Hm]]; rewrite Hm.
    + apply IH. exact Hin'.
    + destruct (Dimension.min dim); apply IH; exact Hin'.
Qed.

(** A dimension without bounds makes the first loop raise, whatever comes
    after it. *)
Lemma apply_collect_unbounded self_id labels (dims : list (Dimension.t value)) acc :
  Exists (fun dim => ~ has_bound dim) dims ->
  raises (apply_collect self_id labels dims acc).
Proof.
  intros Hex. destruct (returns_or_raises (apply_collect self_id labels dims acc))
    as [[r Hr] | Hraise]; [| exact Hraise].
  destruct acc as [[idx mins] maxs].
  apply apply_collect_Return in Hr as (ks & _ & _ & Hb).
  apply Exists_exists in Hex as (dim & Hin & Hn).
  rewrite Forall_forall in Hb. destruct Hn. apply Hb. exact Hin.
Qed.

(** One round of the second loop: every entry is and-ed with the bound
    test of the selected column. *)
Lemma apply_step_Return events mins maxs results i k lo hi :
  is_matrix events -> k < shape1 events ->
  length results = shape0 events ->
  mins !! i = Some lo -> maxs !! i = Some hi ->
  exists results',
    apply_step events mins maxs results i k = Return results' /\
    length results' = shape0 events /\
    forall r row b, rows events !! r = Some row -> results !! r = Some b ->
      exists v, row !! k = Some v /\ results' !! r = Some (b && in_range lo hi v).
Proof.
  intros Hm Hk Hlen Hlo Hhi.
  destruct (column_Return events k Hm Hk) as (col & Hcol & Hrows).
  pose proof (Forall2_length _ _ _ Hrows) as Hcl. fold (shape0 events) in Hcl.
  unfold apply_step, getitem. rewrite Hlo, Hhi. simpl.
  assert (Hcell : forall r row, rows events !! r = Some row ->
            exists v, row !! k = Some v /\ col !! r = Some v).
  { intros r row Hr. destruct (Forall2_lookup_l _ _ _ _ _ Hrows Hr) as (v & Hv & Hrv).
    exists v. split; assumption. }
  destruct lo as [m|], hi as [m'|]; simpl; rewrite ?Hcol; simpl.
  - rewrite np_bitwise_and_same by (rewrite length_fmap; lia). simpl.
    rewrite np_bitwise_and_same
      by (rewrite length_zip_with, !length_fmap; lia).
    eexists. split; [reflexivity |]. split.
    { rewrite !length_zip_with, !length_fmap. lia. }
    intros r row b Hr Hb. destruct (Hcell r row Hr) as (v & Hv & Hc).
    exists v. split; [exact Hv |].
    rewrite !lookup_zip_with, !list_lookup_fmap, Hb, Hc. simpl.
    unfold in_range. rewrite andb_assoc. reflexivity.
  - rewrite np_bitwise_and_same by (rewrite length_fmap; lia). simpl.
    eexists. split; [reflexivity |]. split.
    { rewrite !length_zip_with, !length_fmap. lia. }
    intros r row b Hr Hb. destruct (Hcell r row Hr) as (v & Hv & Hc).
    exists v. split; [exact Hv |].
    rewrite !lookup_zip_with, !list_lookup_fmap, Hb, Hc. simpl.
    unfold in_range. rewrite andb_true_r. reflexivity.
  - rewrite np_bitwise_and_same by (rewrite length_fmap; lia).
    eexists. split; [reflexivity |]. split.
    { rewrite !length_zip_with, !length_fmap. lia. }
    intros r row b Hr Hb. destruct (Hcell r row Hr) as (v & Hv & Hc).
    exists v. split; [exact Hv |].
    rewrite !lookup_zip_with, !list_lookup_fmap, Hb, Hc. simpl.
    unfold in_range. reflexivity.
  - exists results. split; [reflexivity |]. split; [exact Hlen |].
    intros r row b Hr Hb.
    destruct (Hcell r row Hr) as (v & Hv & Hc).
    exists v. split; [exact Hv |]. rewrite Hb.
    unfold in_range. simpl. rewrite andb_true_r. reflexivity.
Qed.

(** The second loop: it returns, keeps the length, and and-s the bound
    tests of all the dimensions it walks through. *)
Lemma apply_loop_Return events mins maxs idx :
  is_matrix events ->
  forall results i,
  length results = shape0 events ->
  Forall (fun k => k < shape1 events) idx ->
  (forall j, j < length idx -> is_Some (mins !! (i + j)) /\ is_Some (maxs !! (i + j))) ->
  exists results',
    apply_loop events mins maxs results i idx = Return results' /\
    length results' = shape0 events /\
    forall r row b, rows events !! r = Some row -> results !! r = Some b ->
      exists b', results' !! r = Some b' /\
        (b' = true <->
         b = true /\
         forall j k, idx !! j = Some k ->
           exists v lo hi, row !! k = Some v /\ mins !! (i + j) = Some lo /\
                           maxs !! (i + j) = Some hi /\ in_range lo hi v = true).
Proof.
  intros Hm. induction idx as [|k idx IH]; intros results i Hlen Hidx Hb; simpl.
  - exists results. split; [reflexivity |]. split; [exact Hlen |].
    intros r row b _ Hr. exists b. split; [exact Hr |]. split.
    + intros ->. split; [reflexivity |]. intros j k. rewrite lookup_nil. discriminate.
    + intros [-> _]. reflexivity.
  - inversion Hidx as [|? ? Hk Hidx']; subst.
    destruct (Hb 0) as [[lo Hlo] [hi Hhi]]; [simpl; lia |].
    rewrite Nat.add_0_r in Hlo, Hhi.
    destruct (apply_step_Return events mins maxs results i k lo hi Hm Hk Hlen Hlo Hhi)
      as (res1 & Hstep & Hlen1 & Hres1).
    rewrite Hstep. simpl.
    destruct (IH res1 (S i) Hlen1 Hidx') as (res2 & Hloop & Hlen2 & Hres2).
    { intros j Hj. replace (S i + j) with (i + S j) by lia. apply Hb. simpl. lia. }
    exists res2. split; [exact Hloop |]. split; [exact Hlen2 |].
    intros r row b Hr Hrb.
    destruct (Hres1 r row b Hr Hrb) as (v & Hv & Hr1).
    destruct (Hres2 r row _ Hr Hr1) as (b' & Hb' & Hiff).
    exists b'. split; [exact Hb' |]. rewrite Hiff, andb_true_iff. split.
    + intros [[-> Hin] Hrest]. split; [reflexivity |]. intros [|j] k'; simpl.
      * intros [= <-]. exists v, lo, hi. rewrite Nat.add_0_r. repeat split; assumption.
      * intros Hj. replace (i + S j) with (S i + j) by lia. apply Hrest. exact Hj.
    + intros [-> Hall]. split; [split; [reflexivity |] |].
      * destruct (Hall 0 k eq_refl) as (v' & lo' & hi' & Hv' & Hlo' & Hhi' & Hin).
        rewrite Nat.add_0_r in Hlo', Hhi'. congruence.
      * intros j k' Hj. replace (S i + j) with (i + S j) by lia. apply Hall. exact Hj.
Qed.

(** [apply] as one statement: under matching column count and resolving
    labels it returns exactly when every dimension has a bound, and the mask
    is the conjunction of the bound tests. *)
Lemma RectangleGate_apply_spec (self : Gate.t value) events labels :
  is_matrix events ->
  shape1 events = length labels ->
  Forall (fun dim => Dimension.label dim ∈ labels) (Gate.dimensions self) ->
  (returns (RectangleGate_apply self events labels) <->
   Forall has_bound (Gate.dimensions self)) /\
  forall mask, RectangleGate_apply self events labels = Return mask ->
    length mask = shape0 events /\
    forall i row, rows events !! i = Some row ->
      exists b, mask !! i = Some b /\
        (b = true <->
         forall dim, dim ∈ Gate.dimensions self ->
           exists k v, index (Dimension.label dim) labels = Some k /\
                       row !! k = Some v /\
                       in_range (Dimension.min dim) (Dimension.max dim) v = true).
Proof.
  intros Hm Hcols Hres. unfold RectangleGate_apply.
  rewrite decide_False by (intros Hne; apply Hne; exact Hcols).
  set (dims := Gate.dimensions self) in *.
  assert (Hrun : forall ks,
    Forall2 (fun dim k => index (Dimension.label dim) labels = Some k) dims ks ->
    exists mask,
      apply_loop events (Dimension.min <$> dims) (Dimension.max <$> dims)
                 (np_ones (shape0 events)) 0 ks = Return mask /\
      length mask = shape0 events /\
      forall i row, rows events !! i = Some row ->
        exists b, mask !! i = Some b /\
          (b = true <->
           forall dim, dim ∈ dims ->
             exists k v, index (Dimension.label dim) labels = Some k /\
                         row !! k = Some v /\
                         in_range (Dimension.min dim) (Dimension.max dim) v = true)).
  { intros ks Hks. pose proof (Forall2_length _ _ _ Hks) as Hlk.
    destruct (apply_loop_Return events (Dimension.min <$> dims) (Dimension.max <$> dims) ks Hm
                (np_ones (shape0 events)) 0) as (mask & Hloop & Hlen & Hmask).
    - unfold np_ones. apply length_replicate.
    - apply Forall_forall. intros k Hk. apply list_elem_of_lookup in Hk as (j & Hj).
      destruct (Forall2_lookup_r _ _ _ _ _ Hks Hj) as (dim & _ & Hix).
      apply index_lt in Hix. lia.
    - intros j Hj. simpl. rewrite !list_lookup_fmap.
      destruct (lookup_lt_is_Some_2 dims j) as [dim ->]; [lia |]. simpl. eauto.
    - exists mask. split; [exact Hloop |]. split; [exact Hlen |].
      intros i row Hrow.
      destruct (Hmask i row true Hrow) as (b & Hb & Hiff).
      { unfold np_ones. apply lookup_replicate. split; [reflexivity |].
        apply lookup_lt_Some in Hrow. exact Hrow. }
      exists b. split; [exact Hb |]. rewrite Hiff. split.
      + intros [_ Hall] dim Hdim. apply list_elem_of_lookup in Hdim as (j & Hj).
        destruct (Forall2_lookup_l _ _ _ _ _ Hks Hj) as (k & Hk & Hix).
        destruct (Hall j k Hk) as (v & lo & hi & Hv & Hlo & Hhi & Hin).
        simpl in Hlo, Hhi. rewrite list_lookup_fmap, Hj in Hlo, Hhi.
        injection Hlo as <-. injection Hhi as <-.
        exists k, v. repeat split; assumption.
      + intros Hall. split; [reflexivity |]. intros j k Hk.
        destruct (Forall2_lookup_r _ _ _ _ _ Hks Hk) as (dim & Hj & Hix).
        destruct (Hall dim) as (k' & v & Hix' & Hv & Hin).
        { apply list_elem_of_lookup. exists j. exact Hj. }
        assert (k' = k) as -> by congruence.
        exists v, (Dimension.min dim), (Dimension.max dim). simpl.
        rewrite !list_lookup_fmap, Hj. repeat split; assumption. }
  split; [split |].
  - intros [mask Hret]. apply bind_Return in Hret as ([[idx mins] maxs] & Hcol & _).
    apply apply_collect_Return in Hcol as (ks & _ & _ & Hb). exact Hb.
  - intros Hb.
    destruct (apply_collect_total (Gate.id self) labels dims [] [] [] Hb Hres) as [r Hr].
    pose proof Hr as Hr'. apply apply_collect_Return in Hr' as (ks & -> & Hks & _).
    rewrite Hr. simpl. destruct (Hrun ks Hks) as (mask & Hloop & _).
    exists mask. exact Hloop.
  - intros mask Hret. apply bind_Return in Hret as ([[idx mins] maxs] & Hcol & Hloop).
    apply apply_collect_Return in Hcol as (ks & [= -> -> ->] & Hks & _).
    simpl in Hloop. destruct (Hrun ks Hks) as (mask' & Hloop' & Hlen & Hmask).
    rewrite Hloop in Hloop'. injection Hloop' as <-. split; assumption.
Qed.

End RectangleGate.

Example el_R_parses : RectangleGate__init__ el_R = Return gate_R.
Proof. reflexivity. Qed.

Example gate_R_mask :
  RectangleGate_apply gate_R events4 ["X"; "Y"] = Return [true; false; false; true].
Proof. reflexivity. Qed.

Example strategy_R_built : GatingStrategy__init__ [el_R] = Return strategy_R.
Proof. vm_compute. reflexivity. Qed.

Example gate_sample_R :
  gate_sample strategy_R sample4 (Some "R") = Return {[Some "R" := [true; false; false; true]]}.
Proof. vm_compute. reflexivity. Qed.

Section RectangleGateClaims.
Context {value : Type} `{PyFloat value}.

(** C1.  For an events matrix whose column count equals the label count and
    a RectangleGate whose dimension labels all resolve, [apply] returns
    whenever every dimension has a bound, and any mask it returns holds at
    event [i] iff for every dimension the event's value in that dimension's
    channel is [>= min] when a min is present and [< max] when a max is
    present: lower bound included, upper bound excluded, dimensions
    combined by AND. *)
Theorem RectangleGate_apply_membership (self : Gate.t value) events labels :
  is_matrix events ->
  shape1 events = length labels ->
  Forall (fun dim => Dimension.label dim ∈ labels) (Gate.dimensions self) ->
  (Forall has_bound (Gate.dimensions self) ->
   returns (RectangleGate_apply self events labels)) /\
  forall mask, RectangleGate_apply self events labels = Return mask ->
    forall i row, rows events !! i = Some row ->
      exists b, mask !! i = Some b /\
        (b = true <->
         forall dim, dim ∈ Gate.dimensions self ->
           exists k v, index (Dimension.label dim) labels = Some k /\
                       row !! k = Some v /\
                       (forall m, Dimension.min dim = Some m -> float_ge v m = true) /\
                       (forall m, Dimension.max dim = Some m -> float_lt v m = true)).
Proof.
  intros Hm Hcols Hres.
  destruct (RectangleGate_apply_spec self events labels Hm Hcols Hres) as [Hret Hmask].
  split; [apply Hret |].
  intros mask Hmk i row Hrow.
  destruct (Hmask mask Hmk) as [_ Hat].
  destruct (Hat i row Hrow) as (b & Hb & Hiff).
  exists b. split; [exact Hb |]. rewrite Hiff.
  split; intros Hall dim Hdim; destruct (Hall dim Hdim) as (k & v & Hk & Hv & Hin);
    exists k, v; (split; [exact Hk |]); (split; [exact Hv |]).
  - apply in_range_true. exact Hin.
  - apply in_range_true. exact Hin.
Qed.

(** C10.  Under the same conditions, when every dimension carries at least
    one bound, [apply] returns a boolean array with one entry per event row;
    for a gate without dimensions the array is all [True]. *)
Theorem RectangleGate_apply_length (self : Gate.t value) events labels :
  is_matrix events ->
  shape1 events = length labels ->
  Forall (fun dim => Dimension.label dim ∈ labels) (Gate.dimensions self) ->
  Forall has_bound (Gate.dimensions self) ->
  exists mask,
    RectangleGate_apply self events labels = Return mask /\
    length mask = shape0 events /\
    (Gate.dimensions self = [] -> mask = replicate (shape0 events) true).
Proof.
  intros Hm Hcols Hres Hb.
  destruct (RectangleGate_apply_spec self events labels Hm Hcols Hres) as [Hret Hmask].
  destruct (proj2 Hret Hb) as [mask Hmk].
  exists mask. split; [exact Hmk |]. split; [apply (Hmask mask Hmk) |].
  intros Hnil. unfold RectangleGate_apply in Hmk.
  rewrite decide_False in Hmk by (intros Hne; apply Hne; exact Hcols).
  rewrite Hnil in Hmk. simpl in Hmk. injection Hmk as <-. reflexivity.
Qed.

End RectangleGateClaims.

Lemma events4_is_matrix : is_matrix events4.
Proof. unfold is_matrix, events4. simpl. repeat constructor. Defined.

Lemma gate_R_labels_resolve :
  Forall (fun dim : Dimension.t Z => Dimension.label dim ∈ ["X"; "Y"]) (Gate.dimensions gate_R).
Proof. unfold gate_R. simpl. repeat constructor. Defined.

Lemma gate_R_bounded : Forall has_bound (Gate.dimensions gate_R).
Proof.
  unfold gate_R, has_bound. simpl.
  repeat constructor; simpl; eexists; reflexivity.
Defined.

Lemma RectangleGate_apply_membership_witness :
  (Forall has_bound (Gate.dimensions gate_R) ->
   returns (RectangleGate_apply gate_R events4 ["X"; "Y"])) /\
  forall mask, RectangleGate_apply gate_R events4 ["X"; "Y"] = Return mask ->
    forall i row, rows events4 !! i = Some row ->
      exists b, mask !! i = Some b /\
        (b = true <->
         forall dim, dim ∈ Gate.dimensions gate_R ->
           exists k v, index (Dimension.label dim) ["X"; "Y"] = Some k /\
                       row !! k = Some v /\
                       (forall m, Dimension.min dim = Some m -> float_ge v m = true) /\
                       (forall m, Dimension.max dim = Some m -> float_lt v m = true)).
Proof.
  apply (RectangleGate_apply_membership gate_R events4 ["X"; "Y"]).
  - exact events4_is_matrix.
  - reflexivity.
  - exact gate_R_labels_resolve.
Defined.

Lemma RectangleGate_apply_length_witness :
  exists mask,
    RectangleGate_apply gate_R events4 ["X"; "Y"] = Return mask /\
    length mask = shape0 events4 /\
    (Gate.dimensions gate_R = [] -> mask = replicate (shape0 events4) true).
Proof.
  apply (RectangleGate_apply_length gate_R events4 ["X"; "Y"]).
  - exact events4_is_matrix.
  - reflexivity.
  - exact gate_R_labels_resolve.
  - exact gate_R_bounded.
Defined.

(** ** [GatingStrategy.gate_sample] *)

Section GateSample.
Context {value : Type} `{PyFloat value}.

(** With [gate_id = None] the loop runs over the keys of the [gates] dict,
    and a key has no [apply]: any strategy holding a gate raises. *)
Lemma gate_sample_None_AttributeError (self : GatingStrategy value) (sample : Sample value) :
  gates self <> ∅ ->
  gate_sample self sample None = Raise (AttributeError "apply").
Proof.
  intros Hne. unfold gate_sample. simpl.
  destruct (map_to_list (gates self)) as [|[k g] l] eqn:Hl.
  - apply map_to_list_empty_iff in Hl. contradiction.
  - reflexivity.
Qed.

Lemma gate_sample_None_empty (self : GatingStrategy value) (sample : Sample value) :
  gates self = ∅ ->
  gate_sample self sample None = Return ∅.
Proof.
  intros He. unfold gate_sample. simpl. rewrite He, map_to_list_empty. reflexivity.
Qed.

(** Whatever the loop runs over, it only ever writes the key [gate_id]:
    the mapping it returns has at most that one entry. *)
Lemma gate_sample_loop_keys (sample : Sample value) gate_id gs results results' :
  gate_sample_loop sample gate_id gs results = Return results' ->
  forall k, k <> gate_id -> results' !! k = results !! k.
Proof.
  revert results. induction gs as [|g gs IH]; intros results; simpl.
  - intros [= <-]. reflexivity.
  - intros Hr k Hk. apply bind_Return in Hr as (r & _ & Hr).
    rewrite (IH _ Hr k Hk). apply lookup_insert_ne. congruence.
Qed.

End GateSample.

(** C2.  [gate_sample] with [gate_id = None] on a strategy that holds the
    single gate R: the call raises [AttributeError] instead of returning a
    mapping with R's membership result. *)
Theorem gate_sample_None_strategy_R :
  gate_sample strategy_R sample4 None = Raise (AttributeError "apply").
Proof. vm_compute. reflexivity. Qed.

(** ** [GatingStrategy.__init__] *)


Section GatingStrategyInit.
Context {value : Type} `{PyFloat value}.

Lemma register_lookup_ne (gs : list (Gate.t value)) m k :
  k ∉ Gate.id <$> gs -> register m gs !! k = m !! k.
Proof.
  revert m. induction gs as [|g gs IH]; intros m Hk; simpl; [reflexivity |].
  rewrite fmap_cons, not_elem_of_cons in Hk. destruct Hk as [Hne Hk].
  unfold register in *. simpl. rewrite IH by exact Hk.
  apply lookup_insert_ne. congruence.
Qed.

Lemma register_lookup (gs : list (Gate.t value)) m g :
  NoDup (Gate.id <$> gs) -> g ∈ gs -> register m gs !! Gate.id g = Some g.
Proof.
  revert m. induction gs as [|g' gs IH]; intros m Hnd Hin.
  - inversion Hin.
  - rewrite fmap_cons in Hnd. apply NoDup_cons in Hnd as [Hfresh Hnd].
    apply elem_of_cons in Hin as [-> | Hin]; unfold register in *; simpl.
    + fold (register (<[Gate.id g' := g']> m) gs).
      rewrite register_lookup_ne by exact Hfresh. apply lookup_insert_eq.
    + apply IH; assumption.
Qed.

(** The constructor loop on elements that each parse to a gate: it returns
    the dict of those gates when their ids are pairwise distinct and absent
    from the dict so far, and raises the duplicate-id error otherwise. *)
Lemma GatingStrategy__init__loop_cases gt_gates (gs : list (Gate.t value)) :
  Forall2 (fun el g => RectangleGate__init__ el = Return g) gt_gates gs ->
  forall m,
    (NoDup (Gate.id <$> gs) /\ Forall (fun g => m !! Gate.id g = None) gs /\
     GatingStrategy__init__loop gt_gates m = Return (register m gs)) \/
    ((~ NoDup (Gate.id <$> gs) \/ Exists (fun g => is_Some (m !! Gate.id g)) gs) /\
     exists k, k ∈ Gate.id <$> gs /\
       GatingStrategy__init__loop gt_gates m = Raise (ValueError (duplicate_msg k))).
Proof.
  induction 1 as [|el g els gs Hel _ IH]; intros m.
  - left. simpl. repeat split; constructor.
  - simpl. rewrite Hel. simpl.
    destruct (decide (is_Some (m !! Gate.id g))) as [Hin | Hout].
    + right. split; [right; left; exact Hin |].
      exists (Gate.id g). split; [left | reflexivity].
    + apply eq_None_not_Some in Hout.
      destruct (IH (<[Gate.id g := g]> m)) as [(Hnd & Hall & Hret) | (Hbad & k & Hk & Hraise)].
      * left. rewrite Forall_forall in Hall. split; [| split].
        -- rewrite ?fmap_cons. apply NoDup_cons. split; [| exact Hnd].
           intros Hdup. apply list_elem_of_fmap in Hdup as (g' & Hid & Hg').
           specialize (Hall g' Hg'). rewrite <- Hid, lookup_insert_eq in Hall. discriminate.
        -- constructor; [exact Hout |]. apply Forall_forall. intros g' Hg'.
           specialize (Hall g' Hg').
           destruct (decide (Gate.id g = Gate.id g')) as [Heq | Hne].
           ++ rewrite <- Heq, lookup_insert_eq in Hall. discriminate.
           ++ rewrite lookup_insert_ne in Hall by exact Hne. exact Hall.
        -- exact Hret.
      * right. split.
        -- destruct Hbad as [Hnd | Hex].
           ++ left. rewrite ?fmap_cons. intros Hnd'. apply NoDup_cons in Hnd' as [_ Hnd'].
              contradiction.
           ++ apply Exists_exists in Hex as (g' & Hg' & Hsome).
              destruct (decide (Gate.id g = Gate.id g')) as [Heq | Hne].
              ** left. rewrite ?fmap_cons. intros Hnd'. apply NoDup_cons in Hnd' as [Hfresh _].
                 apply Hfresh. rewrite Heq. apply list_elem_of_fmap. exists g'. split; [reflexivity | exact Hg'].
              ** right. right. apply Exists_exists. exists g'. split; [exact Hg' |].
                 rewrite lookup_insert_ne in Hsome by exact Hne. exact Hsome.
        -- exists k. split; [right; exact Hk | exact Hraise].
Qed.

(** C3 (amended).  The key of the [gates] dict is the bare gate id.  For
    gate definitions that each parse, construction succeeds when their bare
    ids are pairwise distinct, and then holds every gate under its id; two
    definitions with the same bare id raise the duplicate-id [ValueError],
    whatever their parents. *)
Theorem GatingStrategy__init__bare_id_is_key gt_gates (gs : list (Gate.t value)) :
  Forall2 (fun el g => RectangleGate__init__ el = Return g) gt_gates gs ->
  (NoDup (Gate.id <$> gs) ->
   exists st, GatingStrategy__init__ gt_gates = Return st /\
              forall g, g ∈ gs -> gates st !! Gate.id g = Some g) /\
  (forall i j g1 g2, i <> j -> gs !! i = Some g1 -> gs !! j = Some g2 ->
     Gate.id g1 = Gate.id g2 ->
     exists k, k ∈ Gate.id <$> gs /\
       GatingStrategy__init__ gt_gates = Raise (ValueError (duplicate_msg k))).
Proof.
  intros Hparse. unfold GatingStrategy__init__.
  destruct (GatingStrategy__init__loop_cases gt_gates gs Hparse ∅)
    as [(Hnd & _ & Hret) | ([Hbad | Hex] & k & Hk & Hraise)].
  - split.
    + intros _. rewrite Hret. simpl. eexists. split; [reflexivity |].
      intros g Hg. simpl. apply register_lookup; assumption.
    + intros i j g1 g2 Hij Hi Hj Hid. exfalso. apply Hij.
      eapply (NoDup_lookup _ i j (Gate.id g1) Hnd); rewrite list_lookup_fmap.
      * rewrite Hi. reflexivity.
      * rewrite Hj, Hid. reflexivity.
  - split; [intros Hnd; contradiction |].
    intros _ _ _ _ _ _ _ _. exists k. rewrite Hraise. split; [exact Hk | reflexivity].
  - apply Exists_exists in Hex as (g & _ & [x Hx]). rewrite lookup_empty in Hx. discriminate.
Qed.

(** *** Construction does not look at the bounds *)

Lemma Dimension__init__without_bounds (el : dim_element) (dim : Dimension.t value) :
  Dimension__init__ el = Return dim ->
  Dimension__init__ (without_bounds el) = Return (unbounded dim).
Proof.
  unfold Dimension__init__. intros Hd.
  apply bind_Return in Hd as (c & Hc & Hd).
  apply bind_Return in Hd as (lo & _ & Hd).
  apply bind_Return in Hd as (hi & _ & Hd).
  simpl. rewrite Hc. simpl.
  destruct (fcs_dim_els el) as [[|a l]|]; try discriminate.
  injection Hd as <-. reflexivity.
Qed.

Lemma Gate__init__dims_without_bounds (els : list dim_element) :
  forall (acc dims : list (Dimension.t value)),
  Gate__init__dims els acc = Return dims ->
  Gate__init__dims (without_bounds <$> els) (unbounded <$> acc) = Return (unbounded <$> dims).
Proof.
  induction els as [|el els IH]; intros acc dims; simpl.
  - intros [= <-]. reflexivity.
  - intros Hd. apply bind_Return in Hd as (dim & Hdim & Hd).
    rewrite (Dimension__init__without_bounds el dim Hdim). simpl.
    apply IH in Hd. rewrite fmap_app in Hd. exact Hd.
Qed.

Lemma RectangleGate__init__strip_bounds (el : gate_element) (g : Gate.t value) :
  RectangleGate__init__ el = Return g ->
  RectangleGate__init__ (strip_bounds el) =
    Return (Gate.mk (Gate.id g) (Gate.parent g) (unbounded <$> Gate.dimensions g)).
Proof.
  unfold RectangleGate__init__, Gate__init__. intros Hg.
  apply bind_Return in Hg as (k & Hk & Hg).
  apply bind_Return in Hg as (dims & Hdims & Hg).
  injection Hg as <-. simpl. rewrite Hk. simpl.
  pose proof (Gate__init__dims_without_bounds _ [] dims Hdims) as Hs.
  simpl in Hs. rewrite Hs. reflexivity.
Qed.

Lemma unbounded_no_bound (dim : Dimension.t value) : ~ has_bound (unbounded dim).
Proof. intros [[x Hx] | [x Hx]]; discriminate. Qed.

Lemma GatingStrategy__init__loop_strip_bounds (gt_gates : list gate_element) :
  forall (m m' r : gmap string (Gate.t value)),
  GatingStrategy__init__loop gt_gates m = Return r ->
  dom m' = dom m ->
  (forall k g, m' !! k = Some g -> Forall (fun dim => ~ has_bound dim) (Gate.dimensions g)) ->
  exists r', GatingStrategy__init__loop (strip_bounds <$> gt_gates) m' = Return r' /\
    dom r' = dom r /\
    (forall k g, r' !! k = Some g -> Forall (fun dim => ~ has_bound dim) (Gate.dimensions g)).
Proof.
  induction gt_gates as [|el els IH]; intros m m' r; simpl.
  - intros [= <-] Hdom Hub. exists m'. repeat split; assumption.
  - intros Hr Hdom Hub. apply bind_Return in Hr as (g & Hg & Hr).
    rewrite (RectangleGate__init__strip_bounds el g Hg). simpl.
    destruct (decide (is_Some (m !! Gate.id g))) as [Hin | Hout]; [discriminate |].
    rewrite decide_False.
    2:{ intros Hin'. apply Hout. apply elem_of_dom. rewrite <- Hdom.
        apply elem_of_dom. exact Hin'. }
    eapply IH; [exact Hr | |].
    + rewrite !dom_insert_L, Hdom. reflexivity.
    + intros k g' Hk. destruct (decide (Gate.id g = k)) as [<- | Hne].
      * rewrite lookup_insert_eq in Hk. injection Hk as <-. simpl.
        apply Forall_fmap. apply Forall_forall. intros dim _. apply unbounded_no_bound.
      * rewrite lookup_insert_ne in Hk by exact Hne. eapply Hub. exact Hk.
Qed.

(** A [ValueError] is all the first loop of [apply] can raise. *)
Lemma apply_collect_raises_ValueError self_id labels (dims : list (Dimension.t value)) acc e :
  apply_collect self_id labels dims acc = Raise e -> exists msg, e = ValueError msg.
Proof.
  revert acc. induction dims as [|dim dims IH]; intros [[idx mins] maxs]; simpl; [discriminate |].
  unfold list_index.
  destruct (Dimension.min dim), (Dimension.max dim),
           (index (Dimension.label dim) labels); simpl;
    try (intros [= <-]; eexists; reflexivity); apply IH.
Qed.

(** C9 (amended).  A rectangle-gate dimension lacking both bounds is not a
    build-time error: removing every min and max from a document that
    builds gives a document that still builds, with the same gate ids and
    no bound left.  The error surfaces during per-sample evaluation: on any
    built strategy, evaluating a gate that holds such a dimension on a
    sample whose column count matches its label count raises [ValueError]
    in [RectangleGate.apply]. *)
Theorem missing_bounds_raised_by_apply :
  (forall gt_gates (st : GatingStrategy value),
     GatingStrategy__init__ gt_gates = Return st ->
     exists st', GatingStrategy__init__ (strip_bounds <$> gt_gates) = Return st' /\
       dom (gates st') = dom (gates st) /\
       forall k g, gates st' !! k = Some g ->
         Forall (fun dim => ~ has_bound dim) (Gate.dimensions g)) /\
  (forall gt_gates (st : GatingStrategy value) k g sample,
     GatingStrategy__init__ gt_gates = Return st ->
     gates st !! k = Some g ->
     Exists (fun dim => ~ has_bound dim) (Gate.dimensions g) ->
     shape1 (get_raw_events sample) = length (pnn_labels sample) ->
     exists msg, gate_sample st sample (Some k) = Raise (ValueError msg)).
Proof.
  split.
  - intros gt_gates st Hst. unfold GatingStrategy__init__ in *.
    apply bind_Return in Hst as (r & Hr & [= <-]).
    destruct (GatingStrategy__init__loop_strip_bounds gt_gates ∅ ∅ r Hr eq_refl)
      as (r' & Hr' & Hdom & Hub).
    { intros k g Hk. rewrite lookup_empty in Hk. discriminate. }
    rewrite Hr'. simpl. eexists. split; [reflexivity |]. split; assumption.
  - intros gt_gates st k g sample _ Hk Hex Hcols.
    unfold gate_sample. rewrite Hk. simpl. unfold RectangleGate_apply.
    rewrite decide_False by (intros Hne; apply Hne; exact Hcols).
    destruct (apply_collect_unbounded (Gate.id g) (pnn_labels sample)
                (Gate.dimensions g) ([], [], []) Hex) as [e He].
    rewrite He. simpl.
    destruct (apply_collect_raises_ValueError _ _ _ _ _ He) as [msg ->].
    exists msg. reflexivity.
Qed.

End GatingStrategyInit.

(** C3, as stated, fails: R at the root and R under parent P have different
    gate paths, yet the document holding both (and P) is refused. *)
Lemma GatingStrategy__init__refuses_same_id_other_parent :
  RectangleGate__init__ el_R = Return gate_R /\
  RectangleGate__init__ el_R_child = Return gate_R_child /\
  Gate.id gate_R = Gate.id gate_R_child /\
  Gate.parent gate_R <> Gate.parent gate_R_child /\
  GatingStrategy__init__ (value := Z) [el_P; el_R; el_R_child] =
    Raise (ValueError "Gate 'R' already exists. Duplicate gate IDs are not allowed.") /\
  ~ returns (GatingStrategy__init__ (value := Z) [el_P; el_R; el_R_child]).
Proof.
  repeat split; try reflexivity.
  - discriminate.
  - intros [st Hst]. vm_compute in Hst. discriminate.
Qed.

Lemma GatingStrategy__init__bare_id_is_key_witness :
  (NoDup (Gate.id <$> [gate_P; gate_R]) ->
   exists st, GatingStrategy__init__ [el_P; el_R] = Return st /\
              forall g, g ∈ [gate_P; gate_R] -> gates st !! Gate.id g = Some g) /\
  (forall i j g1 g2, i <> j -> [gate_P; gate_R] !! i = Some g1 ->
     [gate_P; gate_R] !! j = Some g2 ->
     Gate.id g1 = Gate.id g2 ->
     exists k, k ∈ Gate.id <$> [gate_P; gate_R] /\
       GatingStrategy__init__ (value := Z) [el_P; el_R] = Raise (ValueError (duplicate_msg k))).
Proof.
  apply (GatingStrategy__init__bare_id_is_key [el_P; el_R] [gate_P; gate_R]).
  repeat constructor.
Defined.

(** C9, as stated, fails: the document whose gate U has a dimension without
    bounds builds, and the error appears when the sample is gated. *)
Lemma unbounded_dimension_builds_then_apply_raises :
  GatingStrategy__init__ [el_U] = Return strategy_U /\
  Exists (fun dim => ~ has_bound dim) (Gate.dimensions gate_U) /\
  gate_sample strategy_U sample4 (Some "U") =
    Raise (ValueError "Gate 'U' does not include a min or max value").
Proof.
  split; [vm_compute; reflexivity |]. split; [| vm_compute; reflexivity].
  unfold gate_U. simpl. right. left. intros [[x Hx] | [x Hx]]; discriminate.
Qed.

Lemma missing_bounds_raised_by_apply_witness :
  exists msg, gate_sample strategy_U sample4 (Some "U") = Raise (ValueError msg).
Proof.
  apply (proj2 (missing_bounds_raised_by_apply (value := Z)) [el_U] strategy_U "U" gate_U sample4).
  - vm_compute. reflexivity.
  - vm_compute. reflexivity.
  - unfold gate_U. simpl. right. left. intros [[x Hx] | [x Hx]]; discriminate.
  - reflexivity.
Defined.

(** ** [GMLQuadrantGate.__init__]: the bounds of a position *)

#[global] Instance Z_FloatOrder : FloatOrder Z.
Proof.
  split; simpl; intros.
  - apply Z.ltb_irrefl.
  - apply Z.ltb_lt. apply Z.ltb_lt in H, H0. lia.
  - destruct (Z.lt_trichotomy x y) as [Hlt | [Heq | Hgt]].
    + left. apply Z.ltb_lt. exact Hlt.
    + right. left. exact Heq.
    + right. right. apply Z.ltb_lt. exact Hgt.
  - apply Z.gtb_ltb.
  - apply Z.leb_antisym.
Qed.

Example position_A15_bounds :
  quadrant_position [divider_B; divider_A] position_A15 =
    Return (Position.mk (Some "A") "X" 15%Z (Some 10%Z) (Some 20%Z)).
Proof. reflexivity. Qed.

Section QuadrantBounds.
Context {value : Type} `{FloatOrder value}.















End QuadrantBounds.


(** ** [_gate_samples] *)

Section GateSamplesTheory.
Context {strategy sample results : Type}.
Variable gate_sample_method : strategy -> sample -> bool -> outcome results.

(** The sequential loop returns exactly when the task list can be built and
    no task fails, and then returns the tasks' results in order. *)
Lemma sequential_loop_Return gs verbose (samples : list sample) :
  forall i acc rs,
  sequential_loop gate_sample_method gs verbose i samples acc = Return rs <->
  exists data, build_data gs verbose i samples = Return data /\
               failures (_gate_sample gate_sample_method <$> data) = [] /\
               rs = acc ++ successes (_gate_sample gate_sample_method <$> data).
Proof.
  induction samples as [|s samples IH]; intros i acc rs; simpl.
  - split.
    + intros [= <-]. exists []. simpl. rewrite app_nil_r. repeat split; reflexivity.
    + intros (data & [= <-] & _ & ->). simpl. rewrite app_nil_r. reflexivity.
  - destruct (getitem gs i) as [e|g]; simpl.
    + split; [discriminate | intros (data & Hd & _); discriminate].
    + split.
      * intros Hr. apply bind_Return in Hr as (r & Hg & Hr).
        apply IH in Hr as (data & Hd & Hf & ->).
        exists ((g, s, verbose) :: data). rewrite Hd. simpl.
        change (_gate_sample gate_sample_method (g, s, verbose))
          with (gate_sample_method g s verbose).
        rewrite Hg. repeat split; [exact Hf |]. rewrite <- app_assoc. reflexivity.
      * intros (data & Hd & Hf & ->).
        apply bind_Return in Hd as (data' & Hd' & [= <-]).
        simpl in Hf |- *.
        change (_gate_sample gate_sample_method (g, s, verbose))
          with (gate_sample_method g s verbose) in *.
        destruct (gate_sample_method g s verbose) as [e|r]; simpl in *; [discriminate |].
        apply IH. exists data'. repeat split; [exact Hd' | exact Hf |].
        rewrite <- app_assoc. reflexivity.
Qed.

(** The pool branch returns exactly when the pool can be created, the task
    list can be built and no task fails. *)
Lemma pool_map_Return {A B} env (f : A -> outcome B) data rs :
  pool_map env f data = Return rs <->
  failures (f <$> data) = [] /\ rs = successes (f <$> data).
Proof.
  unfold pool_map. destruct (failures (f <$> data)) as [|e es]; split.
  - intros [= <-]. split; reflexivity.
  - intros [_ ->]. reflexivity.
  - discriminate.
  - intros [Hf _]. discriminate.
Qed.

(** When the pool can be created the two branches return the same lists. *)
Lemma _gate_samples_branches_agree env gs (samples : list sample) verbose rs :
  (1 <= proc_count env (length samples))%Z ->
  _gate_samples gate_sample_method env gs samples verbose true = Return rs <->
  _gate_samples gate_sample_method env gs samples verbose false = Return rs.
Proof.
  intros Hn. unfold _gate_samples.
  replace (use_pool env (length samples) false) with false
    by (unfold use_pool; rewrite andb_false_r; reflexivity).
  destruct (use_pool env (length samples) true); [| reflexivity].
  unfold Pool. rewrite decide_False by lia. simpl.
  rewrite sequential_loop_Return. simpl. split.
  - intros Hr. apply bind_Return in Hr as (data & Hd & Hr).
    apply pool_map_Return in Hr as [Hf ->]. exists data. repeat split; assumption.
  - intros (data & Hd & Hf & ->). rewrite Hd. simpl. apply pool_map_Return.
    split; [exact Hf | reflexivity].
Qed.

(** On a machine with one CPU the pool branch asks for no worker. *)
Lemma _gate_samples_single_cpu env gs (samples : list sample) verbose :
  multi_proc env = true -> cpu_count env = 1%Z -> 1 < length samples ->
  _gate_samples gate_sample_method env gs samples verbose true =
    Raise (ValueError "Number of processes must be at least 1").
Proof.
  intros Hmp Hcpu Hlen. unfold _gate_samples, use_pool, proc_count.
  rewrite Hmp, Hcpu, bool_decide_true by exact Hlen. simpl.
  rewrite decide_False by lia. reflexivity.
Qed.

Lemma build_data_lookup (gs : list strategy) verbose (samples : list sample) :
  forall i data j s,
  build_data gs verbose i samples = Return data ->
  samples !! j = Some s ->
  exists g, gs !! (i + j) = Some g /\ data !! j = Some (g, s, verbose).
Proof.
  induction samples as [|s0 samples IH]; intros i data j s; simpl.
  - intros _ Hj. rewrite lookup_nil in Hj. discriminate.
  - intros Hd Hj. apply bind_Return in Hd as (g0 & Hg0 & Hd).
    apply bind_Return in Hd as (data' & Hd' & [= <-]).
    destruct j as [|j]; simpl in *.
    + injection Hj as <-. exists g0. rewrite Nat.add_0_r. split; [| reflexivity].
      unfold getitem in Hg0. destruct (gs !! i); [congruence | discriminate].
    + destruct (IH (S i) data' j s Hd' Hj) as (g & Hg & Hdj).
      exists g. split; [| exact Hdj]. replace (i + S j) with (S i + j) by lia. exact Hg.
Qed.

Lemma failures_nil_lookup {A B} (f : A -> outcome B) (data : list A) j x :
  failures (f <$> data) = [] -> data !! j = Some x -> returns (f x).
Proof.
  revert j. induction data as [|y data IH]; intros j; simpl.
  - intros _ Hj. rewrite lookup_nil in Hj. discriminate.
  - destruct (f y) as [e|b] eqn:Hy; [discriminate |]. intros Hf.
    destruct j as [|j]; simpl.
    + intros [= <-]. exists b. exact Hy.
    + apply IH. exact Hf.
Qed.

(** Either branch returns only if every task could be built and returned. *)
Lemma _gate_samples_Return env gs (samples : list sample) verbose use_mp rs :
  _gate_samples gate_sample_method env gs samples verbose use_mp = Return rs ->
  exists data, build_data gs verbose 0 samples = Return data /\
               failures (_gate_sample gate_sample_method <$> data) = [] /\
               rs = successes (_gate_sample gate_sample_method <$> data).
Proof.
  unfold _gate_samples. destruct (use_pool env (length samples) use_mp).
  - intros Hr. apply bind_Return in Hr as (n & _ & Hr).
    apply bind_Return in Hr as (data & Hd & Hr).
    apply pool_map_Return in Hr as [Hf ->]. exists data. repeat split; assumption.
  - intros Hr. apply sequential_loop_Return in Hr as (data & Hd & Hf & ->).
    exists data. repeat split; assumption.
Qed.

(** One failing unit makes the whole call raise, in either branch. *)
Lemma _gate_samples_failure env (gs : list strategy) (samples : list sample) verbose use_mp j s g :
  samples !! j = Some s -> gs !! j = Some g ->
  raises (gate_sample_method g s verbose) ->
  raises (_gate_samples gate_sample_method env gs samples verbose use_mp).
Proof.
  intros Hs Hg Hfail.
  destruct (returns_or_raises (_gate_samples gate_sample_method env gs samples verbose use_mp)) as [[rs Hr] | Hraise];
    [| exact Hraise].
  apply _gate_samples_Return in Hr as (data & Hd & Hf & _).
  destruct (build_data_lookup gs verbose samples 0 data j s Hd Hs) as (g' & Hg' & Hdj).
  simpl in Hg'. rewrite Hg in Hg'. injection Hg' as <-.
  pose proof (failures_nil_lookup _ data j _ Hf Hdj) as Hret.
  exfalso. exact (returns_not_raises _ Hret Hfail).
Qed.

(** C8.  When [_gate_samples] takes the multiprocessing branch, the pool it
    creates is asked for [min(sample_count, cpu_count - 1)] workers: never
    more than there are samples, never more than all CPUs but one; and the
    branch is taken only when more than one sample is queued. *)
Theorem _gate_samples_worker_count env (samples : list sample) use_mp n :
  requested_workers env samples use_mp = Some n ->
  n = Z.min (Z.of_nat (length samples)) (cpu_count env - 1) /\
  (n <= Z.of_nat (length samples))%Z /\
  (n <= cpu_count env - 1)%Z /\
  1 < length samples /\
  forall gs verbose,
    _gate_samples gate_sample_method env gs samples verbose use_mp =
      (pool ← Pool n;
       data ← build_data gs verbose 0 samples;
       pool_map env (_gate_sample gate_sample_method) data).
Proof.
  unfold requested_workers, _gate_samples.
  destruct (use_pool env (length samples) use_mp) eqn:Hpool; [| discriminate].
  intros [= <-]. unfold proc_count.
  assert (Hmore : 1 < length samples).
  { unfold use_pool in Hpool. apply andb_true_iff in Hpool as [Hpool _].
    apply andb_true_iff in Hpool as [_ Hpool]. apply bool_decide_eq_true in Hpool. exact Hpool. }
  destruct (decide (Z.of_nat (length samples) < cpu_count env)%Z);
    repeat split; try lia; reflexivity.
Qed.

End GateSamplesTheory.

(** The same slip seen from the session: with two samples in the group,
    [analyze_samples] stores both results on four CPUs and raises on one. *)
Example analyze_samples_one_cpu :
  (exists w', analyze_samples four_cpus true "default" None false world_RR = (Return (), w') /\
              dom (_results_lut (session w')) = {["default"]}) /\
  analyze_samples one_cpu true "default" None false world_RR =
    (Raise (ValueError "Number of processes must be at least 1"), world_RR).
Proof.
  split; [| vm_compute; reflexivity].
  eexists. split; vm_compute; reflexivity.
Qed.

Lemma _gate_samples_worker_count_witness :
  2%Z = Z.min (Z.of_nat (length [sample4; sample4])) (cpu_count four_cpus - 1) /\
  (2 <= Z.of_nat (length [sample4; sample4]))%Z /\
  (2 <= cpu_count four_cpus - 1)%Z /\
  1 < length [sample4; sample4] /\
  forall gs verbose,
    _gate_samples gate_one four_cpus gs [sample4; sample4] verbose true =
      (pool ← Pool 2;
       data ← build_data gs verbose 0 [sample4; sample4];
       pool_map four_cpus (_gate_sample gate_one) data).
Proof.
  apply (_gate_samples_worker_count gate_one four_cpus [sample4; sample4] true 2%Z).
  reflexivity.
Defined.

(** C4.  Two samples on a machine with one CPU: the sequential branch
    returns both results, the multiprocessing branch raises when it creates
    its pool. *)
Theorem _gate_samples_one_cpu_diverges :
  _gate_samples gate_one one_cpu [("R", strategy_R); ("R", strategy_R)]
                [sample4; sample4] false false =
    Return [ {[Some "R" := [true; false; false; true]]};
             {[Some "R" := [true; false; false; true]]} ] /\
  _gate_samples gate_one one_cpu [("R", strategy_R); ("R", strategy_R)]
                [sample4; sample4] false true =
    Raise (ValueError "Number of processes must be at least 1").
Proof. split; vm_compute; reflexivity. Qed.

(** ** [Session.analyze_samples] *)

Section AnalyzeSamples.
Context {value payload results row : Type} `{Collaborators value payload results row}.

(** C5 (amended).  When one of the units that [analyze_samples] hands to
    [_gate_samples] fails, [_gate_samples] raises, in either branch, and
    returns no result list; [analyze_samples] lets the exception through
    and leaves the session as it was: no result of the batch is stored. *)
Theorem failed_unit_aborts_batch (w : world value payload results row)
    env use_mp group_name sample_id verbose gs ss j s g :
  units_to_run (session w) group_name sample_id = Return (inr (gs, ss)) ->
  ss !! j = Some s ->
  gs !! j = Some g ->
  raises (GatingStrategy_gate_sample (objects w) g s verbose) ->
  (forall mp, raises (_gate_samples (GatingStrategy_gate_sample (objects w)) env
                                    gs ss verbose mp)) /\
  exists e, analyze_samples env use_mp group_name sample_id verbose w = (Raise e, w).
Proof.
  intros Hunits Hs Hg Hfail.
  assert (Hall : forall mp, raises (_gate_samples (GatingStrategy_gate_sample (objects w)) env
                                                  gs ss verbose mp)).
  { intros mp. eapply _gate_samples_failure; eassumption. }
  split; [exact Hall |].
  unfold analyze_samples. rewrite Hunits.
  destruct (Hall use_mp) as [e He]. rewrite He. exists e. reflexivity.
Qed.

End AnalyzeSamples.

(** C5, as stated, fails: the unit of "a.fcs" succeeds and the unit of
    "b.fcs" fails; neither [_gate_samples] nor [analyze_samples] delivers
    the result of "a.fcs", and no error list is returned. *)
Lemma failed_unit_loses_other_results :
  units_to_run (session world_U) "default" None = Return (inr ([1; 2], [sample4; sample5])) /\
  returns (GatingStrategy_gate_sample (objects world_U) 1 sample4 false) /\
  _gate_samples (GatingStrategy_gate_sample (objects world_U)) four_cpus
                [1; 2] [sample4; sample5] false false =
    Raise (ValueError "Gate 'U' does not include a min or max value") /\
  _gate_samples (GatingStrategy_gate_sample (objects world_U)) four_cpus
                [1; 2] [sample4; sample5] false true =
    Raise (ValueError "Gate 'U' does not include a min or max value") /\
  analyze_samples four_cpus true "default" None false world_U =
    (Raise (ValueError "Gate 'U' does not include a min or max value"), world_U).
Proof.
  repeat split; try (vm_compute; reflexivity).
  eexists. vm_compute. reflexivity.
Qed.

Lemma failed_unit_aborts_batch_witness :
  (forall mp, raises (_gate_samples (GatingStrategy_gate_sample (objects world_U)) four_cpus
                                    [1; 2] [sample4; sample5] false mp)) /\
  exists e, analyze_samples four_cpus true "default" None false world_U = (Raise e, world_U).
Proof.
  apply (failed_unit_aborts_batch world_U four_cpus true "default" None false
           [1; 2] [sample4; sample5] 1 sample5 2).
  - vm_compute. reflexivity.
  - reflexivity.
  - reflexivity.
  - eexists. vm_compute. reflexivity.
Defined.

(** ** [copy.deepcopy] *)

Section DeepCopy.
Context {payload : Type}.

Lemma copying_lookup_lt (old : list payload) st r r' :
  copying old st -> st.2 !! r = Some r' -> r' < length st.1.
Proof.
  intros [_ Hmemo] Hr. destruct (Hmemo r r' Hr) as (_ & Hlk & Hlt).
  apply lookup_lt_is_Some. rewrite Hlk. apply lookup_lt_is_Some. exact Hlt.
Qed.

Lemma deepcopy_ref_copying (old : list payload) st r st' r' :
  copying old st -> r < length old ->
  deepcopy_ref st r = (st', r') ->
  copying old st' /\ (exists ext, st'.1 = st.1 ++ ext) /\
  length old <= r' /\ st'.1 !! r' = old !! r.
Proof.
  intros Hc Hr. pose proof Hc as [[new Hnew] Hmemo].
  destruct st as [lv memo]. simpl in *. subst lv.
  destruct (memo !! r) as [r0|] eqn:Hm.
  - intros [= <- <-]. destruct (Hmemo r r0 Hm) as (Hge & Hlk & _).
    split; [exact Hc |]. split; [exists []; rewrite app_nil_r; reflexivity |].
    split; assumption.
  - destruct (lookup_lt_is_Some_2 old r Hr) as [p Hp].
    rewrite (lookup_app_l_Some _ _ _ _ Hp).
    intros [= <- <-]. simpl. split; [split |]; simpl.
    + exists (new ++ [p]). rewrite app_assoc. reflexivity.
    + intros r1 r1' Hr1. destruct (decide (r = r1)) as [<- | Hne].
      * rewrite lookup_insert_eq in Hr1. injection Hr1 as <-.
        split; [rewrite length_app; lia |]. split; [| exact Hr].
        rewrite Hp. apply list_lookup_middle. reflexivity.
      * rewrite lookup_insert_ne in Hr1 by exact Hne.
        destruct (Hmemo r1 r1' Hr1) as (Hge & Hlk & Hlt).
        split; [exact Hge |]. split; [| exact Hlt].
        rewrite lookup_app_l; [exact Hlk |].
        apply lookup_lt_is_Some. rewrite Hlk. apply lookup_lt_is_Some. exact Hlt.
    + split; [exists [p]; reflexivity |]. split; [rewrite length_app; lia |].
      rewrite Hp. apply list_lookup_middle. reflexivity.
Qed.

Lemma copied_dict_extend {K} (old lv ext : list payload) (d d' : list (K * nat)) :
  Forall (fun kr => kr.2 < length old) d ->
  copied_dict old lv d d' -> copied_dict old (lv ++ ext) d d'.
Proof.
  intros Hd Hc. unfold copied_dict in *.
  induction Hc as [|kr kr' d d' (Hk & Hge & Hlk) _ IH]; [constructor |].
  inversion Hd as [|? ? Hr Hd']; subst. constructor; [| apply IH; exact Hd'].
  split; [exact Hk |]. split; [exact Hge |].
  rewrite lookup_app_l; [exact Hlk |].
  apply lookup_lt_is_Some. rewrite Hlk. apply lookup_lt_is_Some. exact Hr.
Qed.

Lemma deepcopy_dict_copying {K} (old : list payload) (d : list (K * nat)) :
  forall st st' d',
  copying old st -> Forall (fun kr => kr.2 < length old) d ->
  deepcopy_dict st d = (st', d') ->
  copying old st' /\ (exists ext, st'.1 = st.1 ++ ext) /\ copied_dict old st'.1 d d'.
Proof.
  induction d as [|[k r] d IH]; intros st st' d' Hc Hd; simpl.
  - intros [= <- <-]. split; [exact Hc |].
    split; [exists []; rewrite app_nil_r; reflexivity | constructor].
  - inversion Hd as [|? ? Hr Hd']; subst. simpl in Hr.
    destruct (deepcopy_ref st r) as [st1 r'] eqn:Href.
    destruct (deepcopy_dict st1 d) as [st2 d''] eqn:Hdict.
    intros [= <- <-].
    destruct (deepcopy_ref_copying old st r st1 r' Hc Hr Href) as (Hc1 & [e1 He1] & Hge & Hlk).
    destruct (IH st1 st2 d'' Hc1 Hd' Hdict) as (Hc2 & [e2 He2] & Hcd).
    split; [exact Hc2 |]. split.
    + exists (e1 ++ e2). rewrite He2, He1, app_assoc. reflexivity.
    + constructor; [| exact Hcd]. simpl. split; [reflexivity |]. split; [exact Hge |].
      rewrite He2. rewrite lookup_app_l; [exact Hlk |].
      apply lookup_lt_is_Some. rewrite Hlk. apply lookup_lt_is_Some. exact Hr.
Qed.

Lemma copied_dict_view {K} (old lv : list payload) (d d' : list (K * nat)) :
  copied_dict old lv d d' -> view_dict lv d' = view_dict old d.
Proof.
  unfold copied_dict, view_dict.
  induction 1 as [|kr kr' d d' (Hk & _ & Hlk) _ IH]; simpl; [reflexivity |].
  f_equal; [rewrite Hk, Hlk; reflexivity | exact IH].
Qed.

Lemma copied_dict_fresh {K} (old lv : list payload) (d d' : list (K * nat)) :
  Forall (fun kr => kr.2 < length old) d ->
  copied_dict old lv d d' ->
  forall r, r ∈ d'.*2 -> length old <= r < length lv.
Proof.
  intros Hd Hc. unfold copied_dict in Hc.
  induction Hc as [|kr kr' d d' (Hk & Hge & Hlk) _ IH]; intros r Hr; simpl in Hr.
  - inversion Hr.
  - inversion Hd as [|? ? Hlt Hd']; subst.
    apply elem_of_cons in Hr as [-> | Hr]; [| apply IH; assumption].
    split; [exact Hge |].
    apply lookup_lt_is_Some. rewrite Hlk. apply lookup_lt_is_Some. exact Hlt.
Qed.

(** [copy.deepcopy] of a strategy: a new strategy object, referring only
    to new instances, with the content of the original; what existed stays. *)
Lemma deepcopy_strategy_spec (h : heap payload) t gs h' c :
  closed h -> strategies h !! t = Some gs ->
  deepcopy_strategy h t = (h', c) ->
  c = length (strategies h) /\
  (exists gs', strategies h' = strategies h ++ [gs'] /\
               forall r, r ∈ refs gs' -> length (leaves h) <= r < length (leaves h')) /\
  (exists new, leaves h' = leaves h ++ new) /\
  view h' c = view h t.
Proof.
  intros Hclosed Ht. unfold deepcopy_strategy. rewrite Ht.
  assert (Hrefs : forall r, r ∈ refs gs -> r < length (leaves h)) by (apply (Hclosed t gs Ht)).
  assert (Hg : Forall (fun kr : list string * nat => kr.2 < length (leaves h)) (Strategy.gates gs)).
  { apply Forall_forall. intros kr Hkr. apply Hrefs. unfold refs.
    apply elem_of_app. left. apply list_elem_of_fmap. exists kr. split; [reflexivity | exact Hkr]. }
  assert (Ht' : Forall (fun kr : string * nat => kr.2 < length (leaves h)) (Strategy.transformations gs)).
  { apply Forall_forall. intros kr Hkr. apply Hrefs. unfold refs.
    apply elem_of_app. right. apply elem_of_app. left.
    apply list_elem_of_fmap. exists kr. split; [reflexivity | exact Hkr]. }
  assert (Hm : Forall (fun kr : string * nat => kr.2 < length (leaves h)) (Strategy.comp_matrices gs)).
  { apply Forall_forall. intros kr Hkr. apply Hrefs. unfold refs.
    apply elem_of_app. right. apply elem_of_app. right.
    apply list_elem_of_fmap. exists kr. split; [reflexivity | exact Hkr]. }
  assert (Hc0 : copying (leaves h) (leaves h, ∅)).
  { split; [exists []; simpl; rewrite app_nil_r; reflexivity |].
    intros r r' Hr. simpl in Hr. rewrite lookup_empty in Hr. discriminate. }
  destruct (deepcopy_dict (leaves h, ∅) (Strategy.gates gs)) as [st1 gates'] eqn:H1.
  destruct (deepcopy_dict st1 (Strategy.transformations gs)) as [st2 xforms'] eqn:H2.
  destruct (deepcopy_dict st2 (Strategy.comp_matrices gs)) as [st3 mats'] eqn:H3.
  destruct (deepcopy_dict_copying _ _ _ _ _ Hc0 Hg H1) as (Hc1 & [e1 He1] & Hd1).
  destruct (deepcopy_dict_copying _ _ _ _ _ Hc1 Ht' H2) as (Hc2 & [e2 He2] & Hd2).
  destruct (deepcopy_dict_copying _ _ _ _ _ Hc2 Hm H3) as (Hc3 & [e3 He3] & Hd3).
  simpl in He1.
  assert (Hd1' : copied_dict (leaves h) st3.1 (Strategy.gates gs) gates').
  { rewrite He3, He2, <- app_assoc. apply copied_dict_extend; assumption. }
  assert (Hd2' : copied_dict (leaves h) st3.1 (Strategy.transformations gs) xforms').
  { rewrite He3. apply copied_dict_extend; assumption. }
  intros [= <- <-]. split; [reflexivity |]. split; [| split].
  - eexists. split; [reflexivity |]. simpl. intros r Hr. unfold refs in Hr. simpl in Hr.
    apply elem_of_app in Hr as [Hr | Hr]; [| apply elem_of_app in Hr as [Hr | Hr]].
    + eapply copied_dict_fresh; [exact Hg | exact Hd1' | exact Hr].
    + eapply copied_dict_fresh; [exact Ht' | exact Hd2' | exact Hr].
    + eapply copied_dict_fresh; [exact Hm | exact Hd3 | exact Hr].
  - simpl. exists (e1 ++ e2 ++ e3). rewrite He3, He2, He1, <- !app_assoc. reflexivity.
  - unfold view. simpl. rewrite Ht.
    rewrite list_lookup_middle by reflexivity. simpl.
    rewrite (copied_dict_view _ _ _ _ Hd1'), (copied_dict_view _ _ _ _ Hd2'),
            (copied_dict_view _ _ _ _ Hd3).
    reflexivity.
Qed.

End DeepCopy.

(** ** [Session.assign_sample] and [Session.add_gate] *)

Section SessionTheory.
Context {value payload results row : Type} `{Collaborators value payload results row}.

(** A strategy's content is read from its own object and from the
    instances it refers to, and from nothing else. *)
Lemma view_agree (h h' : heap payload) l :
  strategies h' !! l = strategies h !! l ->
  (forall r, r ∈ footprint h l -> leaves h' !! r = leaves h !! r) ->
  view h' l = view h l.
Proof.
  unfold view, footprint. intros -> Hleaves.
  destruct (strategies h !! l) as [gs|]; [| reflexivity].
  assert (Hd : forall K (d : list (K * nat)),
            (forall r, r ∈ d.*2 -> r ∈ refs gs) ->
            view_dict (leaves h') d = view_dict (leaves h) d).
  { intros K d Hin. unfold view_dict. apply list_fmap_ext. intros i kr Hkr.
    rewrite Hleaves; [reflexivity |]. apply Hin.
    apply list_elem_of_fmap. exists kr. split; [reflexivity |].
    apply list_elem_of_lookup. exists i. exact Hkr. }
  rewrite !Hd; [reflexivity | | |]; intros r Hr; unfold refs.
  - apply elem_of_app. right. apply elem_of_app. right. exact Hr.
  - apply elem_of_app. right. apply elem_of_app. left. exact Hr.
  - apply elem_of_app. left. exact Hr.
Qed.

Lemma footprint_lt (h : heap payload) l r :
  closed h -> r ∈ footprint h l -> r < length (leaves h).
Proof.
  unfold footprint. intros Hclosed Hr.
  destruct (strategies h !! l) as [gs|] eqn:Hgs; [| inversion Hr].
  eapply Hclosed; eassumption.
Qed.

(** Mutating one strategy and what it refers to leaves the content of a
    strategy that shares nothing with it as it was. *)
Lemma mutation_frame (h h' : heap payload) l1 l2 :
  closed h -> l2 < length (strategies h) -> l1 <> l2 ->
  (forall r, r ∈ footprint h l1 -> r ∉ footprint h l2) ->
  mutation_of h l1 h' ->
  view h' l2 = view h l2.
Proof.
  intros Hclosed Hl2 Hne Hdisj [Hstr Hlv]. apply view_agree.
  - apply Hstr; [congruence | exact Hl2].
  - intros r Hr. apply Hlv.
    + intros Hr1. exact (Hdisj r Hr1 Hr).
    + eapply footprint_lt; eassumption.
Qed.

(** In a separated session this holds between any two places. *)
Lemma separated_mutation (w : world value payload results row) g1 sid1 g2 sid2 l1 l2 h' :
  well_formed w -> separated w ->
  (g1, sid1) <> (g2, sid2) ->
  strategy_at (session w) g1 sid1 = Some l1 ->
  strategy_at (session w) g2 sid2 = Some l2 ->
  mutation_of (objects w) l1 h' ->
  view h' l2 = view (objects w) l2.
Proof.
  intros [Hclosed Hlocs] Hsep Hne H1 H2 Hmut.
  destruct (Hsep g1 sid1 g2 sid2 l1 l2 Hne H1 H2) as [Hl Hdisj].
  eapply mutation_frame; try eassumption. exact (Hlocs g2 sid2 l2 H2).
Qed.

(** The places of the session after [assign_sample] has filed [copy]. *)
Lemma strategy_at_set_group (w : world value payload results row) group_name grp sample_id copy g sid :
  _sample_group_lut (session w) !! group_name = Some grp ->
  strategy_at
    (session (set_group group_name
                {| template := template grp;
                   samples := <[sample_id := copy]> (samples grp) |} w)) g sid =
  if decide ((g, sid) = (group_name, Some sample_id)) then Some copy
  else strategy_at (session w) g sid.
Proof.
  intros Hgrp. unfold strategy_at. simpl.
  destruct (decide (group_name = g)) as [<- | Hg].
  - rewrite lookup_insert_eq, Hgrp. simpl. destruct sid as [sid|].
    + destruct (decide (sample_id = sid)) as [<- | Hs].
      * rewrite lookup_insert_eq, decide_True by reflexivity. reflexivity.
      * rewrite lookup_insert_ne by exact Hs. rewrite decide_False by congruence. reflexivity.
    + rewrite decide_False by congruence. reflexivity.
  - rewrite lookup_insert_ne by exact Hg. rewrite decide_False by congruence. reflexivity.
Qed.

(** [assign_sample], when the sample is not yet in the group: the entry it
    files is a new strategy object that refers to new instances only and has
    the content of the template; everything that existed is as it was. *)
Lemma assign_sample_copies (w : world value payload results row) sample_id group_name grp :
  well_formed w ->
  _sample_group_lut (session w) !! group_name = Some grp ->
  samples grp !! sample_id = None ->
  exists w' copy,
    assign_sample sample_id group_name w = (Return (), w') /\
    strategy_at (session w') group_name (Some sample_id) = Some copy /\
    (forall g sid, (g, sid) <> (group_name, Some sample_id) ->
                   strategy_at (session w') g sid = strategy_at (session w) g sid) /\
    length (strategies (objects w)) <= copy /\
    (forall r, r ∈ footprint (objects w') copy -> length (leaves (objects w)) <= r) /\
    view (objects w') copy = view (objects w) (template grp) /\
    (forall l, l < length (strategies (objects w)) ->
               view (objects w') l = view (objects w) l /\
               footprint (objects w') l = footprint (objects w) l) /\
    well_formed w' /\
    (separated w -> separated w').
Proof.
  intros [Hclosed Hlocs] Hgrp Hnew. unfold assign_sample. rewrite Hgrp.
  rewrite decide_False by (rewrite Hnew; intros [x Hx]; discriminate).
  assert (Htl : template grp < length (strategies (objects w))).
  { apply (Hlocs group_name None). unfold strategy_at. rewrite Hgrp. reflexivity. }
  destruct (lookup_lt_is_Some_2 _ _ Htl) as [gs Hgs].
  destruct (deepcopy_strategy (objects w) (template grp)) as [h' copy] eqn:Hcopy.
  destruct (deepcopy_strategy_spec _ _ _ _ _ Hclosed Hgs Hcopy)
    as (-> & (gs' & Hstr & Hfresh) & [new Hlv] & Hview).
  set (w1 := set_objects h' w).
  assert (Hat : forall g sid,
    strategy_at (session (set_group group_name
       {| template := template grp;
          samples := <[sample_id := length (strategies (objects w))]> (samples grp) |} w1)) g sid =
    if decide ((g, sid) = (group_name, Some sample_id))
    then Some (length (strategies (objects w)))
    else strategy_at (session w) g sid).
  { intros g sid. apply (strategy_at_set_group w1). exact Hgrp. }
  assert (Hold : forall l, l < length (strategies (objects w)) ->
            strategies h' !! l = strategies (objects w) !! l).
  { intros l Hl. rewrite Hstr. apply lookup_app_l. exact Hl. }
  assert (Hfp_old : forall l, l < length (strategies (objects w)) ->
            footprint h' l = footprint (objects w) l).
  { intros l Hl. unfold footprint. rewrite Hold by exact Hl. reflexivity. }
  assert (Hfp_new : footprint h' (length (strategies (objects w))) = refs gs').
  { unfold footprint. rewrite Hstr, list_lookup_middle by reflexivity. reflexivity. }
  assert (Hclosed' : closed h').
  { intros l gs0 Hl r Hr. rewrite Hlv, length_app.
    rewrite Hstr in Hl. apply lookup_app_Some in Hl as [Hl | [_ Hl]].
    - pose proof (Hclosed l gs0 Hl r Hr). lia.
    - apply list_lookup_singleton_Some in Hl as [_ <-].
      pose proof (Hfresh r Hr) as Hr'. rewrite Hlv, length_app in Hr'. lia. }
  eexists. exists (length (strategies (objects w))). split; [reflexivity |].
  split; [rewrite Hat, decide_True by reflexivity; reflexivity |].
  split; [intros g sid Hne; rewrite Hat, decide_False by exact Hne; reflexivity |].
  split; [lia |].
  split. { simpl. rewrite Hfp_new. intros r Hr. apply Hfresh. exact Hr. }
  split; [exact Hview |].
  split.
  { intros l Hl. simpl. split; [| apply Hfp_old; exact Hl].
    apply view_agree; [apply Hold; exact Hl |].
    intros r Hr. rewrite Hlv. apply lookup_app_l. eapply footprint_lt; eassumption. }
  split.
  { split; [exact Hclosed' |]. intros g sid l. rewrite Hat. simpl.
    rewrite Hstr, length_app. simpl. case_decide.
    - intros [= <-]. lia.
    - intros Hl. pose proof (Hlocs g sid l Hl). lia. }
  intros Hsep g1 sid1 g2 sid2 l1 l2 Hne. rewrite !Hat. simpl.
  destruct (decide ((g1, sid1) = (group_name, Some sample_id))) as [E1 | N1];
    destruct (decide ((g2, sid2) = (group_name, Some sample_id))) as [E2 | N2].
  - congruence.
  - intros [= <-] H2. pose proof (Hlocs g2 sid2 l2 H2) as Hl2. split; [lia |].
    rewrite Hfp_new, (Hfp_old l2 Hl2). intros r Hr Hr2.
    pose proof (Hfresh r Hr). pose proof (footprint_lt _ _ _ Hclosed Hr2). lia.
  - intros H1 [= <-]. pose proof (Hlocs g1 sid1 l1 H1) as Hl1. split; [lia |].
    rewrite Hfp_new, (Hfp_old l1 Hl1). intros r Hr Hr2.
    pose proof (Hfresh r Hr2). pose proof (footprint_lt _ _ _ Hclosed Hr). lia.
  - intros H1 H2. pose proof (Hlocs g1 sid1 l1 H1) as Hl1.
    pose proof (Hlocs g2 sid2 l2 H2) as Hl2.
    rewrite (Hfp_old l1 Hl1), (Hfp_old l2 Hl2).
    exact (Hsep g1 sid1 g2 sid2 l1 l2 Hne H1 H2).
Qed.

(** [assign_sample] on a sample that is already in the group only warns. *)
Lemma assign_sample_already_assigned (w : world value payload results row)
    sample_id group_name grp l :
  _sample_group_lut (session w) !! group_name = Some grp ->
  samples grp !! sample_id = Some l ->
  exists msg, assign_sample sample_id group_name w = (Return (), warn msg w).
Proof.
  intros Hgrp Hl. unfold assign_sample. rewrite Hgrp.
  rewrite decide_True by (rewrite Hl; eexists; reflexivity).
  eexists. reflexivity.
Qed.

Lemma grows_refl (w : world value payload results row) : well_formed w -> grows w w.
Proof.
  intros Hwf. split; [reflexivity |]. split; [exact Hwf |]. split; [tauto |].
  split; [exists []; rewrite app_nil_r; reflexivity |]. split; [reflexivity |].
  intros l r Hr. left. exact Hr.
Qed.

Lemma grows_trans (w1 w2 w3 : world value payload results row) : grows w1 w2 -> grows w2 w3 -> grows w1 w3.
Proof.
  intros (Hs1 & Hwf1 & Hsep1 & [n1 Hn1] & Hl1 & Hf1) (Hs2 & Hwf2 & Hsep2 & [n2 Hn2] & Hl2 & Hf2).
  split; [congruence |]. split; [exact Hwf2 |]. split; [tauto |].
  split; [exists (n1 ++ n2); rewrite Hn2, Hn1, app_assoc; reflexivity |].
  split; [congruence |].
  intros l r Hr. destruct (Hf2 l r Hr) as [Hr' | Hr'].
  - apply Hf1. exact Hr'.
  - right. rewrite Hn1, length_app in Hr'. lia.
Qed.

(** One [strategy.add_gate(copy.deepcopy(gate), ...)] on a strategy of the
    session: whatever the method answers, the strategy gains at most the
    new copy and the session stays separated. *)
Lemma call_add_gate_grows (w : world value payload results row) self gate gate_path g sid r w' :
  AddGateStoresItsArgument value payload results row ->
  well_formed w ->
  strategy_at (session w) g sid = Some self ->
  gate < length (leaves (objects w)) ->
  call_add_gate self gate gate_path w = (r, w') ->
  grows w w'.
Proof.
  intros Hadd [Hclosed Hlocs] Hself Hgate. unfold call_add_gate, deepcopy_leaf.
  destruct (lookup_lt_is_Some_2 _ _ Hgate) as [p Hp]. rewrite Hp. simpl.
  pose proof (Hlocs g sid self Hself) as Hlt.
  destruct (lookup_lt_is_Some_2 _ _ Hlt) as [gs Hgs]. rewrite Hgs.
  assert (Hkeep : grows w (set_objects {| strategies := strategies (objects w);
                                          leaves := leaves (objects w) ++ [p] |} w)).
  { split; [reflexivity |]. split; [| split; [| split; [| split]]].
    - split; [| exact Hlocs]. intros l gs0 Hl r0 Hr0. simpl in *.
      rewrite length_app. pose proof (Hclosed l gs0 Hl r0 Hr0). lia.
    - intros Hsep. exact Hsep.
    - exists [p]. reflexivity.
    - reflexivity.
    - intros l r0 Hr0. left. exact Hr0. }
  destruct (GatingStrategy_add_gate (leaves (objects w) ++ [p]) gs
              (length (leaves (objects w))) gate_path) as [e|gs'] eqn:Hcall.
  - intros [= <- <-]. exact Hkeep.
  - intros [= <- <-]. pose proof (Hadd _ _ _ _ _ Hcall) as Hrefs.
    assert (Hfp : forall l, footprint {| strategies := <[self := gs']> (strategies (objects w));
                                         leaves := leaves (objects w) ++ [p] |} l =
                            if decide (l = self) then refs gs' else footprint (objects w) l).
    { intros l. unfold footprint. simpl. case_decide as Hl.
      - subst l. rewrite list_lookup_insert_eq by exact Hlt. reflexivity.
      - rewrite list_lookup_insert_ne by congruence. reflexivity. }
    assert (Hin : forall r0, r0 ∈ refs gs' ->
              r0 = length (leaves (objects w)) \/ r0 ∈ footprint (objects w) self).
    { intros r0 Hr0. apply Hrefs in Hr0. apply elem_of_cons in Hr0 as [-> | Hr0]; [left; reflexivity |].
      right. unfold footprint. rewrite Hgs. exact Hr0. }
    split; [reflexivity |]. split; [| split; [| split; [| split]]].
    + split.
      * intros l gs0 Hl r0 Hr0. simpl in *. rewrite length_app. simpl.
        destruct (decide (l = self)) as [-> | Hne].
        -- rewrite list_lookup_insert_eq in Hl by exact Hlt. injection Hl as <-.
           destruct (Hin r0 Hr0) as [-> | Hr1]; [lia |].
           pose proof (footprint_lt _ _ _ Hclosed Hr1). lia.
        -- rewrite list_lookup_insert_ne in Hl by congruence.
           pose proof (Hclosed l gs0 Hl r0 Hr0). lia.
      * intros g0 sid0 l Hl. simpl. rewrite length_insert. apply (Hlocs g0 sid0 l Hl).
    + intros Hsep g1 sid1 g2 sid2 l1 l2 Hne H1 H2. simpl in H1, H2.
      destruct (Hsep g1 sid1 g2 sid2 l1 l2 Hne H1 H2) as [Hl Hdisj].
      split; [exact Hl |]. simpl. rewrite !Hfp. intros r0 Hr1 Hr2.
      destruct (decide (l1 = self)) as [-> | N1]; destruct (decide (l2 = self)) as [-> | N2].
      * congruence.
      * destruct (Hin r0 Hr1) as [-> | Hr1'].
        -- pose proof (footprint_lt _ _ _ Hclosed Hr2). lia.
        -- exact (Hdisj r0 Hr1' Hr2).
      * destruct (Hin r0 Hr2) as [-> | Hr2'].
        -- pose proof (footprint_lt _ _ _ Hclosed Hr1). lia.
        -- exact (Hdisj r0 Hr1 Hr2').
      * exact (Hdisj r0 Hr1 Hr2).
    + exists [p]. reflexivity.
    + simpl. apply length_insert.
    + intros l r0. simpl. rewrite Hfp. case_decide as Hl.
      * subst l. intros Hr0. destruct (Hin r0 Hr0) as [-> | Hr1]; [right; lia | left; exact Hr1].
      * intros Hr0. left. exact Hr0.
Qed.

Lemma add_gate_members_grows gate gate_path g (members : list (string * nat)) :
  AddGateStoresItsArgument value payload results row ->
  forall (w : world value payload results row) r w',
  well_formed w ->
  (forall sid l, (sid, l) ∈ members -> strategy_at (session w) g (Some sid) = Some l) ->
  gate < length (leaves (objects w)) ->
  add_gate_members gate gate_path members w = (r, w') ->
  grows w w'.
Proof.
  intros Hadd. induction members as [|[sid l] members IH]; intros w r w' Hwf Hmem Hgate; simpl.
  - intros [= <- <-]. apply grows_refl. exact Hwf.
  - destruct (call_add_gate l gate gate_path w) as [r1 w1] eqn:Hcall.
    assert (Hg1 : grows w w1).
    { eapply (call_add_gate_grows w l gate gate_path g (Some sid)); try eassumption.
      apply Hmem. left. }
    destruct r1 as [e|[]].
    + intros [= <- <-]. exact Hg1.
    + intros Hrest. apply (grows_trans w w1 w'); [exact Hg1 |].
      destruct Hg1 as (Hs1 & Hwf1 & _ & [n1 Hn1] & _ & _).
      eapply IH; [exact Hwf1 | | | exact Hrest].
      * intros sid0 l0 Hin. rewrite Hs1. apply Hmem. right. exact Hin.
      * rewrite Hn1, length_app. lia.
Qed.

(** [Session.add_gate]: whether it returns or raises half-way, every
    strategy of the session refers to what it referred to before or to
    copies made by this call, and no two strategies share a copy. *)
Lemma add_gate_grows (w : world value payload results row) gate gate_path group_name r w' :
  AddGateStoresItsArgument value payload results row ->
  well_formed w ->
  gate < length (leaves (objects w)) ->
  add_gate gate gate_path group_name w = (r, w') ->
  grows w w'.
Proof.
  intros Hadd Hwf Hgate. unfold add_gate.
  destruct (_sample_group_lut (session w) !! group_name) as [grp|] eqn:Hgrp.
  - destruct (call_add_gate (template grp) gate gate_path w) as [r1 w1] eqn:Hcall.
    assert (Hg1 : grows w w1).
    { eapply (call_add_gate_grows w (template grp) gate gate_path group_name None);
        try eassumption.
      unfold strategy_at. rewrite Hgrp. reflexivity. }
    destruct r1 as [e|[]].
    + intros [= <- <-]. exact Hg1.
    + intros Hrest. apply (grows_trans w w1 w'); [exact Hg1 |].
      destruct Hg1 as (Hs1 & Hwf1 & _ & [n1 Hn1] & _ & _).
      eapply (add_gate_members_grows gate gate_path group_name); try eassumption.
      * intros sid l Hin. apply elem_of_map_to_list in Hin.
        unfold strategy_at. rewrite Hs1, Hgrp. exact Hin.
      * rewrite Hn1, length_app. lia.
  - intros [= <- <-]. apply grows_refl. exact Hwf.
Qed.


End SessionTheory.

(** The small engine's [add_gate] files the reference it is given. *)
#[global] Instance mini_engine_add_gate_refs :
  AddGateStoresItsArgument Z (Gate.t Z) mini_results (string * list string * nat).
Proof.
  intros leaves gs gate gate_path gs'. simpl. intros Hcall.
  apply bind_Return in Hcall as (g & _ & Hcall).
  case_decide; [discriminate |]. injection Hcall as <-.
  intros r. unfold refs. simpl. rewrite fmap_app. simpl.
  rewrite elem_of_cons, !elem_of_app, list_elem_of_singleton. tauto.
Qed.

Lemma strategy_at_world_RR g sid l :
  strategy_at (session world_RR) g sid = Some l ->
  g = "default" /\
  ((sid = None /\ l = 0) \/ (sid = Some "a.fcs" /\ l = 1) \/ (sid = Some "b.fcs" /\ l = 2)).
Proof.
  unfold strategy_at, world_RR. simpl.
  destruct (decide (g = "default")) as [-> | Hg].
  - rewrite lookup_singleton_eq. simpl. intros Hl. split; [reflexivity |].
    destruct sid as [sid|]; [| left; split; congruence].
    destruct (decide (sid = "a.fcs")) as [-> | Ha].
    { rewrite lookup_insert_eq in Hl. right. left. split; congruence. }
    rewrite lookup_insert_ne in Hl by congruence.
    destruct (decide (sid = "b.fcs")) as [-> | Hb].
    { rewrite lookup_singleton_eq in Hl. right. right. split; congruence. }
    rewrite lookup_singleton_ne in Hl by congruence. discriminate.
  - rewrite lookup_singleton_ne by congruence. discriminate.
Qed.

Lemma world_RR_well_formed : well_formed world_RR.
Proof.
  split.
  - intros l gs Hl r Hr. simpl in *.
    destruct l as [|[|[|l]]]; simpl in Hl; try (rewrite lookup_nil in Hl; discriminate);
      injection Hl as <-; unfold refs in Hr; simpl in Hr;
      apply list_elem_of_singleton in Hr as ->; lia.
  - intros g sid l Hl. apply strategy_at_world_RR in Hl as (_ & [[_ ->] | [[_ ->] | [_ ->]]]);
      simpl; lia.
Qed.

Lemma world_RR_separated : separated world_RR.
Proof.
  intros g1 sid1 g2 sid2 l1 l2 Hne H1 H2.
  apply strategy_at_world_RR in H1 as (-> & [[-> ->] | [[-> ->] | [-> ->]]]);
    apply strategy_at_world_RR in H2 as (-> & [[-> ->] | [[-> ->] | [-> ->]]]);
    try congruence;
    (split; [lia |]); unfold footprint, refs; simpl; intros r Hr Hr';
    apply list_elem_of_singleton in Hr; apply list_elem_of_singleton in Hr'; lia.
Qed.

Example assign_then_add_gate :
  let w1 := (assign_sample "a.fcs" "default" world0).2 in
  let w2 := (assign_sample "b.fcs" "default" w1).2 in
  let w3 := (add_gate 1 None "default" w2).2 in
  strategies (objects w3) =
    [Strategy.mk [(["R"], 0); (["P"], 4)] [] [];
     Strategy.mk [(["R"], 2); (["P"], 5)] [] [];
     Strategy.mk [(["R"], 3); (["P"], 6)] [] []] /\
  leaves (objects w3) = [gate_R; gate_P; gate_R; gate_R; gate_P; gate_P; gate_P].
Proof. vm_compute. split; reflexivity. Qed.


(* ===================================================================== *)
(** * Part III: further properties of the modelled code *)
(* ===================================================================== *)

(** ** [RectangleGate.apply]: when it returns, and how masks compose *)

Section RectangleGateMore.
Context {value : Type} `{PyFloat value}.

(** Two boolean arrays of the same length whose entries are true under the
    same condition are the same array. *)
Lemma mask_ext (n : nat) (Q : nat -> Prop) (m m' : list bool) :
  length m = n -> length m' = n ->
  (forall i b, m !! i = Some b -> (b = true <-> Q i)) ->
  (forall i b, m' !! i = Some b -> (b = true <-> Q i)) ->
  m = m'.
Proof.
  intros Hl Hl' Hm Hm'. apply list_eq. intros i.
  destruct (m !! i) as [b|] eqn:Hb, (m' !! i) as [b'|] eqn:Hb'.
  - f_equal. specialize (Hm i b Hb). specialize (Hm' i b' Hb').
    destruct b, b'; try reflexivity.
    + assert (false = true) by (apply Hm', Hm; reflexivity). discriminate.
    + assert (false = true) by (apply Hm, Hm'; reflexivity). discriminate.
  - apply lookup_lt_Some in Hb. apply lookup_ge_None in Hb'. lia.
  - apply lookup_lt_Some in Hb'. apply lookup_ge_None in Hb. lia.
  - reflexivity.
Qed.

Lemma apply_returns_applicable (self : Gate.t value) events labels :
  returns (RectangleGate_apply self events labels) ->
  applicable (Gate.dimensions self) events labels.
Proof.
  intros [mask Hm]. unfold RectangleGate_apply in Hm.
  destruct (decide (shape1 events ≠ length labels)) as [Hne | Heq]; [discriminate |].
  split; [destruct (decide (shape1 events = length labels)); [assumption | contradiction] |].
  apply bind_Return in Hm as ([[idx mins] maxs] & Hcol & _).
  apply apply_collect_Return in Hcol as (ks & _ & Hks & Hb).
  apply Forall_forall. intros dim Hdim. split.
  - rewrite Forall_forall in Hb. apply Hb. exact Hdim.
  - apply list_elem_of_lookup in Hdim as (j & Hj).
    destruct (Forall2_lookup_l _ _ _ _ _ Hks Hj) as (k & _ & Hix).
    apply index_Some in Hix. apply list_elem_of_lookup. exists k. exact Hix.
Qed.

Lemma applicable_split (dims : list (Dimension.t value)) events labels :
  applicable dims events labels ->
  shape1 events = length labels /\
  Forall (fun dim => Dimension.label dim ∈ labels) dims /\
  Forall has_bound dims.
Proof.
  intros [Hc Hall]. split; [exact Hc |].
  split; eapply Forall_impl; try exact Hall; intros dim [Hb Hl]; assumption.
Qed.

(** The mask of an applicable gate, entry by entry. *)
Lemma apply_mask (self : Gate.t value) events labels :
  is_matrix events ->
  applicable (Gate.dimensions self) events labels ->
  exists mask,
    RectangleGate_apply self events labels = Return mask /\
    length mask = shape0 events /\
    forall i b, mask !! i = Some b ->
      (b = true <-> exists row, rows events !! i = Some row /\
                                row_inside (Gate.dimensions self) labels row).
Proof.
  intros Hm Happ. apply applicable_split in Happ as (Hc & Hres & Hb).
  destruct (RectangleGate_apply_spec self events labels Hm Hc Hres) as [Hret Hmask].
  destruct (proj2 Hret Hb) as [mask Hmk]. exists mask. split; [exact Hmk |].
  destruct (Hmask mask Hmk) as [Hlen Hat]. split; [exact Hlen |].
  intros i b Hb'.
  assert (Hi : i < length (rows events)).
  { apply lookup_lt_Some in Hb'. unfold shape0 in Hlen. lia. }
  destruct (lookup_lt_is_Some_2 _ _ Hi) as [row Hrow].
  destruct (Hat i row Hrow) as (b0 & Hb0 & Hiff).
  assert (b0 = b) as -> by congruence. rewrite Hiff. split.
  - intros Hall. exists row. split; [exact Hrow | exact Hall].
  - intros (row' & Hrow' & Hall). assert (row' = row) as -> by congruence. exact Hall.
Qed.

(** X1.  On an events matrix, [apply] returns exactly when the column count
    equals the label count and every dimension has a bound and a label among
    [pnn_labels]; whenever it does not return it raises [ValueError]. *)
Theorem RectangleGate_apply_returns_iff (self : Gate.t value) events labels :
  is_matrix events ->
  (returns (RectangleGate_apply self events labels) <->
   shape1 events = length labels /\
   Forall (fun dim => has_bound dim /\ Dimension.label dim ∈ labels) (Gate.dimensions self)) /\
  (forall e, RectangleGate_apply self events labels = Raise e -> exists msg, e = ValueError msg).
Proof.
  intros Hm. split; [split |].
  - apply apply_returns_applicable.
  - intros Happ. destruct (apply_mask self events labels Hm Happ) as (mask & Hmk & _).
    exists mask. exact Hmk.
  - intros e He. pose proof He as He'. unfold RectangleGate_apply in He.
    destruct (decide (shape1 events ≠ length labels)) as [Hne | Heq].
    + injection He as <-. eexists. reflexivity.
    + apply bind_Raise in He as [He | ([[idx mins] maxs] & Hcol & Hloop)].
      * eapply apply_collect_raises_ValueError. exact He.
      * exfalso. pose proof Hcol as Hcol'.
        apply apply_collect_Return in Hcol' as (ks & _ & Hks & Hb).
        assert (Happ : applicable (Gate.dimensions self) events labels).
        { split; [destruct (decide (shape1 events = length labels)); [assumption | contradiction] |].
          apply Forall_forall. intros dim Hdim. split.
          - rewrite Forall_forall in Hb. apply Hb. exact Hdim.
          - apply list_elem_of_lookup in Hdim as (j & Hj).
            destruct (Forall2_lookup_l _ _ _ _ _ Hks Hj) as (k & _ & Hix).
            apply index_Some in Hix. apply list_elem_of_lookup. exists k. exact Hix. }
        destruct (apply_mask self events labels Hm Happ) as (mask & Hmk & _).
        rewrite Hmk in He'. discriminate.
Qed.

(** X2.  The mask of a gate whose dimensions are those of two gates put
    together is the element-wise AND of the two masks: a gate over
    [dims1 ++ dims2] returns exactly when the gates over [dims1] and over
    [dims2] both return. *)
Theorem RectangleGate_apply_app (id : string) parent dims1 dims2 events labels mask :
  is_matrix events ->
  RectangleGate_apply (Gate.mk id parent (dims1 ++ dims2)) events labels = Return mask <->
  exists mask1 mask2,
    RectangleGate_apply (Gate.mk id parent dims1) events labels = Return mask1 /\
    RectangleGate_apply (Gate.mk id parent dims2) events labels = Return mask2 /\
    mask = zip_with andb mask1 mask2.
Proof.
  intros Hm.
  assert (Hboth : applicable (dims1 ++ dims2) events labels ->
    exists m m1 m2,
      RectangleGate_apply (Gate.mk id parent (dims1 ++ dims2)) events labels = Return m /\
      RectangleGate_apply (Gate.mk id parent dims1) events labels = Return m1 /\
      RectangleGate_apply (Gate.mk id parent dims2) events labels = Return m2 /\
      m = zip_with andb m1 m2).
  { intros Happ. pose proof Happ as [Hc Hall]. apply Forall_app in Hall as [H1 H2].
    destruct (apply_mask (Gate.mk id parent (dims1 ++ dims2)) events labels Hm Happ)
      as (m & Hmk & Hlen & Hat).
    destruct (apply_mask (Gate.mk id parent dims1) events labels Hm (conj Hc H1))
      as (m1 & Hmk1 & Hlen1 & Hat1).
    destruct (apply_mask (Gate.mk id parent dims2) events labels Hm (conj Hc H2))
      as (m2 & Hmk2 & Hlen2 & Hat2).
    exists m, m1, m2. repeat (split; [assumption |]). simpl in *.
    eapply (mask_ext (shape0 events)
              (fun i => exists row, rows events !! i = Some row /\
                                    row_inside (dims1 ++ dims2) labels row)).
    - exact Hlen.
    - rewrite length_zip_with. lia.
    - exact Hat.
    - intros i b Hb. apply lookup_zip_with_Some in Hb as (b1 & b2 & -> & Hb1 & Hb2).
      rewrite andb_true_iff, (Hat1 i b1 Hb1), (Hat2 i b2 Hb2). split.
      + intros [(row & Hrow & Hin1) (row' & Hrow' & Hin2)].
        assert (row' = row) as -> by congruence. exists row. split; [exact Hrow |].
        intros dim Hdim. apply elem_of_app in Hdim as [Hdim | Hdim]; [apply Hin1 | apply Hin2];
          exact Hdim.
      + intros (row & Hrow & Hin). split; exists row; (split; [exact Hrow |]);
          intros dim Hdim; apply Hin; apply elem_of_app; [left | right]; exact Hdim. }
  split.
  - intros Hmk. assert (Hret : returns (RectangleGate_apply (Gate.mk id parent (dims1 ++ dims2))
                                          events labels)) by (exists mask; exact Hmk).
    apply apply_returns_applicable in Hret. simpl in Hret.
    destruct (Hboth Hret) as (m & m1 & m2 & Hm0 & Hm1 & Hm2 & ->).
    exists m1, m2. repeat (split; [assumption |]). congruence.
  - intros (m1 & m2 & Hm1 & Hm2 & ->).
    assert (Happ : applicable (dims1 ++ dims2) events labels).
    { assert (R1 : returns (RectangleGate_apply (Gate.mk id parent dims1) events labels))
        by (exists m1; exact Hm1).
      assert (R2 : returns (RectangleGate_apply (Gate.mk id parent dims2) events labels))
        by (exists m2; exact Hm2).
      apply apply_returns_applicable in R1 as [Hc H1], R2 as [_ H2]. simpl in *.
      split; [exact Hc |]. apply Forall_app. split; assumption. }
    destruct (Hboth Happ) as (m & m1' & m2' & Hm0 & Hm1' & Hm2' & ->). congruence.
Qed.

(** X3.  The order in which a gate lists its dimensions does not matter:
    listing them in another order, [apply] returns the same mask. *)
Theorem RectangleGate_apply_Permutation (id : string) parent dims dims' events labels mask :
  is_matrix events ->
  dims ≡ₚ dims' ->
  RectangleGate_apply (Gate.mk id parent dims) events labels = Return mask ->
  RectangleGate_apply (Gate.mk id parent dims') events labels = Return mask.
Proof.
  intros Hm HP Hmk.
  assert (Hret : returns (RectangleGate_apply (Gate.mk id parent dims) events labels))
    by (exists mask; exact Hmk).
  apply apply_returns_applicable in Hret. simpl in Hret.
  assert (Happ' : applicable dims' events labels).
  { destruct Hret as [Hc Hall]. split; [exact Hc |]. rewrite <- HP. exact Hall. }
  destruct (apply_mask (Gate.mk id parent dims) events labels Hm Hret) as (m & Hm0 & Hlen & Hat).
  destruct (apply_mask (Gate.mk id parent dims') events labels Hm Happ') as (m' & Hm1 & Hlen' & Hat').
  assert (m = mask) as -> by congruence. rewrite Hm1. f_equal. simpl in *.
  eapply (mask_ext (shape0 events)
            (fun i => exists row, rows events !! i = Some row /\ row_inside dims labels row)).
  - exact Hlen'.
  - exact Hlen.
  - intros i b Hb. rewrite (Hat' i b Hb). split; intros (row & Hrow & Hin); exists row;
      (split; [exact Hrow |]); intros dim Hdim; apply Hin.
    + rewrite <- HP. exact Hdim.
    + rewrite HP. exact Hdim.
  - exact Hat.
Qed.

End RectangleGateMore.

(** ** [Gate.__init__], [GatingStrategy.__init__] and [gate_sample] together *)

Section GateConstruction.
Context {value : Type} `{PyFloat value}.

Lemma Gate__init__dims_Return (els : list dim_element) :
  forall (acc dims : list (Dimension.t value)),
  Gate__init__dims els acc = Return dims <->
  exists ds, Forall2 (fun el d => Dimension__init__ el = Return d) els ds /\ dims = acc ++ ds.
Proof.
  induction els as [|el els IH]; intros acc dims; simpl.
  - split.
    + intros [= <-]. exists []. rewrite app_nil_r. split; [constructor | reflexivity].
    + intros (ds & Hds & ->). inversion Hds. rewrite app_nil_r. reflexivity.
  - split.
    + intros Hr. apply bind_Return in Hr as (d & Hd & Hr).
      apply IH in Hr as (ds & Hds & ->). exists (d :: ds).
      split; [constructor; assumption |]. rewrite <- app_assoc. reflexivity.
    + intros (ds & Hds & ->). inversion Hds as [|? d ? ds' Hd Hds']; subst.
      rewrite Hd. simpl. apply IH. exists ds'. split; [exact Hds' |].
      rewrite <- app_assoc. reflexivity.
Qed.

(** X4.  [Gate.__init__] returns exactly when the element has an [id]
    attribute and every [dimension] child builds; the gate then has the
    first [id], the first [parent] if there is one, and one dimension per
    child, in document order. *)
Theorem Gate__init__Return (el : gate_element) (g : Gate.t value) :
  Gate__init__ el = Return g <->
  exists id rest,
    id_attribs el = id :: rest /\
    Gate.id g = id /\
    Gate.parent g = head (parent_attribs el) /\
    Forall2 (fun d_el d => Dimension__init__ d_el = Return d) (dim_els el) (Gate.dimensions g).
Proof.
  unfold Gate__init__, getitem. split.
  - intros Hr. apply bind_Return in Hr as (id & Hid & Hr).
    apply bind_Return in Hr as (dims & Hdims & [= <-]).
    apply Gate__init__dims_Return in Hdims as (ds & Hds & ->).
    destruct (id_attribs el) as [|id' rest]; simpl in Hid; [discriminate |].
    injection Hid as ->. exists id, rest. simpl.
    split; [reflexivity |]. split; [reflexivity |].
    split; [destruct (parent_attribs el); reflexivity | exact Hds].
  - intros (id & rest & Hid & Hgid & Hpar & Hds). rewrite Hid. simpl.
    rewrite (proj2 (Gate__init__dims_Return (dim_els el) [] (Gate.dimensions g)))
      by (exists (Gate.dimensions g); split; [exact Hds | reflexivity]).
    simpl. destruct g as [gid gpar gdims]. simpl in *. subst.
    destruct (parent_attribs el); reflexivity.
Qed.

Lemma GatingStrategy__init__loop_parses (gt_gates : list gate_element) :
  forall (m r : gmap string (Gate.t value)),
  GatingStrategy__init__loop gt_gates m = Return r ->
  exists gs, Forall2 (fun el g => RectangleGate__init__ el = Return g) gt_gates gs.
Proof.
  induction gt_gates as [|el els IH]; intros m r; simpl.
  - intros _. exists []. constructor.
  - intros Hr. apply bind_Return in Hr as (g & Hg & Hr).
    case_decide; [discriminate |]. apply IH in Hr as (gs & Hgs).
    exists (g :: gs). constructor; assumption.
Qed.

Lemma register_size (gs : list (Gate.t value)) :
  forall m, NoDup (Gate.id <$> gs) -> Forall (fun g => m !! Gate.id g = None) gs ->
  size (register m gs) = size m + length gs.
Proof.
  induction gs as [|g gs IH]; intros m Hnd Hfresh; simpl.
  - unfold register. simpl. lia.
  - rewrite fmap_cons in Hnd. apply NoDup_cons in Hnd as [Hnew Hnd].
    inversion Hfresh as [|? ? Hg Hfresh']; subst.
    unfold register in *. simpl. rewrite IH.
    + rewrite map_size_insert_None by exact Hg. lia.
    + exact Hnd.
    + apply Forall_forall. intros g' Hg'. rewrite lookup_insert_ne.
      * rewrite Forall_forall in Hfresh'. apply Hfresh'. exact Hg'.
      * intros Heq. apply Hnew. rewrite Heq. apply list_elem_of_fmap.
        exists g'. split; [reflexivity | exact Hg'].
Qed.

(** What a strategy that was built holds. *)
Lemma GatingStrategy__init__built gt_gates (st : GatingStrategy value) :
  GatingStrategy__init__ gt_gates = Return st ->
  exists gs,
    Forall2 (fun el g => RectangleGate__init__ el = Return g) gt_gates gs /\
    NoDup (Gate.id <$> gs) /\
    gates st = register ∅ gs.
Proof.
  unfold GatingStrategy__init__. intros Hst.
  apply bind_Return in Hst as (r & Hr & [= <-]). simpl.
  destruct (GatingStrategy__init__loop_parses gt_gates ∅ r Hr) as (gs & Hgs).
  exists gs. split; [exact Hgs |].
  destruct (GatingStrategy__init__loop_cases gt_gates gs Hgs ∅)
    as [(Hnd & _ & Hret) | (_ & k & _ & Hraise)]; [| congruence].
  split; [exact Hnd | congruence].
Qed.

(** X5.  In a strategy that [GatingStrategy.__init__] returned, every gate
    is filed under its own id, the gates filed are exactly the gates of the
    document's elements, and there are as many as there are elements. *)
Theorem GatingStrategy__init__files_by_id gt_gates (st : GatingStrategy value) :
  GatingStrategy__init__ gt_gates = Return st ->
  exists gs,
    Forall2 (fun el g => RectangleGate__init__ el = Return g) gt_gates gs /\
    (forall k g, gates st !! k = Some g <-> g ∈ gs /\ Gate.id g = k) /\
    size (gates st) = length gt_gates.
Proof.
  intros Hst. destruct (GatingStrategy__init__built gt_gates st Hst) as (gs & Hgs & Hnd & ->).
  exists gs. split; [exact Hgs |]. split.
  - intros k g. split.
    + intros Hk. destruct (decide (k ∈ Gate.id <$> gs)) as [Hin | Hout].
      * apply list_elem_of_fmap in Hin as (g' & -> & Hg').
        rewrite (register_lookup gs ∅ g' Hnd Hg') in Hk. injection Hk as <-.
        split; [exact Hg' | reflexivity].
      * rewrite (register_lookup_ne gs ∅ k Hout), lookup_empty in Hk. discriminate.
    + intros [Hg <-]. apply register_lookup; assumption.
  - rewrite register_size; [| exact Hnd |].
    + rewrite map_size_empty. simpl. symmetry. eapply Forall2_length. exact Hgs.
    + apply Forall_forall. intros g _. apply lookup_empty.
Qed.

(** X6.  Building a strategy and then gating by the id of one of the
    document's gates evaluates that gate and returns the one-entry mapping
    from the id to its mask, whatever the gate's parent; gating by an id
    that no gate of the document has raises [KeyError]. *)
Theorem built_strategy_gate_sample gt_gates (st : GatingStrategy value) (sample : Sample value) :
  GatingStrategy__init__ gt_gates = Return st ->
  (forall el g, el ∈ gt_gates -> RectangleGate__init__ el = Return g ->
     gate_sample st sample (Some (Gate.id g)) =
       (fun mask => {[Some (Gate.id g) := mask]}) <$>
         RectangleGate_apply g (get_raw_events sample) (pnn_labels sample)) /\
  (forall k,
     (forall el g, el ∈ gt_gates -> RectangleGate__init__ el = Return g -> Gate.id g <> k) ->
     gate_sample st sample (Some k) = Raise (KeyError k)).
Proof.
  intros Hst. destruct (GatingStrategy__init__built gt_gates st Hst) as (gs & Hgs & Hnd & Hreg).
  split.
  - intros el g Hel Hg. apply list_elem_of_lookup in Hel as (i & Hi).
    destruct (Forall2_lookup_l _ _ _ _ _ Hgs Hi) as (g' & Hi' & Hg').
    assert (g' = g) as -> by congruence.
    unfold gate_sample. rewrite Hreg.
    rewrite (register_lookup gs ∅ g Hnd) by (apply list_elem_of_lookup; eauto).
    simpl. destruct (RectangleGate_apply g (get_raw_events sample) (pnn_labels sample));
      reflexivity.
  - intros k Hk. unfold gate_sample. rewrite Hreg, register_lookup_ne, lookup_empty.
    + reflexivity.
    + intros Hin. apply list_elem_of_fmap in Hin as (g & -> & Hg).
      apply list_elem_of_lookup in Hg as (i & Hi).
      destruct (Forall2_lookup_r _ _ _ _ _ Hgs Hi) as (el & Hel & Hparse).
      apply (Hk el g); [apply list_elem_of_lookup; eauto | exact Hparse | reflexivity].
Qed.

End GateConstruction.

Lemma RectangleGate_apply_returns_iff_witness :
  (returns (RectangleGate_apply gate_R events4 ["X"; "Y"]) <->
   shape1 events4 = length ["X"; "Y"] /\
   Forall (fun dim => has_bound dim /\ Dimension.label dim ∈ ["X"; "Y"]) (Gate.dimensions gate_R)) /\
  (forall e, RectangleGate_apply gate_R events4 ["X"; "Y"] = Raise e -> exists msg, e = ValueError msg).
Proof.
  apply (RectangleGate_apply_returns_iff gate_R events4 ["X"; "Y"]).
  unfold is_matrix. simpl. repeat constructor.
Defined.

Lemma RectangleGate_apply_app_witness :
  RectangleGate_apply
    (Gate.mk "R" None ([Dimension.mk "uncompensated" (Some 0%Z) (Some 10%Z) ["10"] "X"] ++
                       [Dimension.mk "uncompensated" (Some 5%Z) None [] "Y"]))
    events4 ["X"; "Y"] = Return [true; false; false; true] <->
  exists mask1 mask2,
    RectangleGate_apply
      (Gate.mk "R" None [Dimension.mk "uncompensated" (Some 0%Z) (Some 10%Z) ["10"] "X"])
      events4 ["X"; "Y"] = Return mask1 /\
    RectangleGate_apply
      (Gate.mk "R" None [Dimension.mk "uncompensated" (Some 5%Z) None [] "Y"])
      events4 ["X"; "Y"] = Return mask2 /\
    [true; false; false; true] = zip_with andb mask1 mask2.
Proof.
  apply (RectangleGate_apply_app "R" None
           [Dimension.mk "uncompensated" (Some 0%Z) (Some 10%Z) ["10"] "X"]
           [Dimension.mk "uncompensated" (Some 5%Z) None [] "Y"]
           events4 ["X"; "Y"] [true; false; false; true]).
  unfold is_matrix. simpl. repeat constructor.
Defined.

Lemma RectangleGate_apply_Permutation_witness :
  RectangleGate_apply
    (Gate.mk "R" None [Dimension.mk "uncompensated" (Some 5%Z) None [] "Y";
                       Dimension.mk "uncompensated" (Some 0%Z) (Some 10%Z) ["10"] "X"])
    events4 ["X"; "Y"] = Return [true; false; false; true].
Proof.
  apply (RectangleGate_apply_Permutation "R" None
           [Dimension.mk "uncompensated" (Some 0%Z) (Some 10%Z) ["10"] "X";
            Dimension.mk "uncompensated" (Some 5%Z) None [] "Y"]
           _ events4 ["X"; "Y"] [true; false; false; true]).
  - unfold is_matrix. simpl. repeat constructor.
  - apply Permutation_swap.
  - reflexivity.
Defined.

Lemma GatingStrategy__init__files_by_id_witness :
  exists gs,
    Forall2 (fun el g => RectangleGate__init__ el = Return g) [el_P; el_R] gs /\
    (forall k g, gates {| gates := {["R" := gate_R; "P" := gate_P]} |} !! k = Some g <->
                 g ∈ gs /\ Gate.id g = k) /\
    size (gates {| gates := {["R" := gate_R; "P" := gate_P]} |}) = length [el_P; el_R].
Proof.
  apply (GatingStrategy__init__files_by_id [el_P; el_R]
           {| gates := {["R" := gate_R; "P" := gate_P]} |}).
  vm_compute. reflexivity.
Defined.

Lemma built_strategy_gate_sample_witness :
  (forall el g, el ∈ [el_R] -> RectangleGate__init__ el = Return g ->
     gate_sample strategy_R sample4 (Some (Gate.id g)) =
       (fun mask => {[Some (Gate.id g) := mask]}) <$>
         RectangleGate_apply g (get_raw_events sample4) (pnn_labels sample4)) /\
  (forall k,
     (forall el g, el ∈ [el_R] -> RectangleGate__init__ el = Return g -> Gate.id g <> k) ->
     gate_sample strategy_R sample4 (Some k) = Raise (KeyError k)).
Proof.
  apply (built_strategy_gate_sample [el_R] strategy_R sample4).
  vm_compute. reflexivity.
Defined.

(** ** [GMLQuadrantGate.__init__]: errors, cells, and the [quadrants] dict *)

Section QuadrantMore.
Context {value : Type} `{PyFloat value}.

Lemma quadrant_dividers_no_match (divider : option string) (L : value)
    (dividers : list (Divider.t value)) st :
  (forall div, div ∈ dividers -> Some (Divider.id div) <> divider) ->
  quadrant_dividers divider L dividers st = st.
Proof.
  induction dividers as [|div dividers IH]; intros Hno; simpl; [reflexivity |].
  destruct st as [[q_min q_max] dim_label].
  rewrite decide_True by (apply Hno; left).
  apply IH. intros div' Hdiv'. apply Hno. right. exact Hdiv'.
Qed.

Lemma quadrant_dividers_match (divider : option string) (L : value)
    (dividers : list (Divider.t value)) :
  forall st, (exists div, div ∈ dividers /\ Some (Divider.id div) = divider) ->
  is_Some (quadrant_dividers divider L dividers st).2.
Proof.
  induction dividers as [|div dividers IH]; intros st (div0 & Hin & Hid).
  - inversion Hin.
  - simpl. destruct st as [[q_min q_max] dim_label].
    destruct (decide (Exists (fun div' => Some (Divider.id div') = divider) dividers))
      as [Hlater | Hnone]; rewrite Exists_exists in *.
    + destruct (decide (Some (Divider.id div) <> divider)); [apply IH; exact Hlater |].
      destruct (quadrant_scan L (sorted (Divider.values div)) q_min q_max).
      apply IH. exact Hlater.
    + assert (Hno : forall div', div' ∈ dividers -> Some (Divider.id div') <> divider).
      { intros div' Hdiv' Heq. apply Hnone. exists div'. split; assumption. }
      apply elem_of_cons in Hin as [-> | Hin]; [| exfalso; exact (Hno div0 Hin Hid)].
      rewrite decide_False by (intros Hne; apply Hne; exact Hid).
      destruct (quadrant_scan L (sorted (Divider.values div)) q_min q_max).
      rewrite quadrant_dividers_no_match by exact Hno. simpl. eexists. reflexivity.
Qed.

(** X7.  A position gives an entry exactly when its location is present
    and is a number and some divider has the id it refers to.  With a
    numeric location and no such divider (or no divider reference at all)
    the constructor raises the 'must define a divider reference'
    [ValueError]; without a location it raises [TypeError]. *)
Theorem quadrant_position_returns_iff (dividers : list (Divider.t value)) (pos_el : position_el) :
  (returns (quadrant_position dividers pos_el) <->
   (exists s L, pos_location pos_el = Some s /\ float_of_str s = Some L) /\
   (exists div, div ∈ dividers /\ pos_divider_ref pos_el = Some (Divider.id div))) /\
  (forall s L, pos_location pos_el = Some s -> float_of_str s = Some L ->
     (forall div, div ∈ dividers -> pos_divider_ref pos_el <> Some (Divider.id div)) ->
     quadrant_position dividers pos_el =
       Raise (ValueError "Quadrant must define a divider reference")) /\
  (pos_location pos_el = None ->
   exists msg, quadrant_position dividers pos_el = Raise (TypeError msg)).
Proof.
  unfold quadrant_position, float. split; [split | split].
  - intros [e He]. destruct (pos_location pos_el) as [s|]; [| discriminate].
    destruct (float_of_str s) as [L|] eqn:HL; [| discriminate]. simpl in He.
    split; [exists s, L; split; [reflexivity | exact HL] |].
    destruct (decide (Exists (fun div => Some (Divider.id div) = pos_divider_ref pos_el)
                             dividers)) as [Hsome | Hnone]; rewrite Exists_exists in *;
      [destruct Hsome as (div & Hin & Hid) |].
    + exists div. split; [exact Hin | symmetry; exact Hid].
    + rewrite quadrant_dividers_no_match in He; [discriminate |].
      intros div Hdiv Heq. apply Hnone. exists div. split; assumption.
  - intros [(s & L & -> & HL) (div & Hin & Hid)]. rewrite HL. simpl.
    pose proof (quadrant_dividers_match (pos_divider_ref pos_el) L dividers (None, None, None))
      as [lbl Hlbl].
    { exists div. split; [exact Hin | symmetry; exact Hid]. }
    destruct (quadrant_dividers (pos_divider_ref pos_el) L dividers (None, None, None))
      as [[a b] lbl'].
    simpl in Hlbl. subst lbl'. eexists. reflexivity.
  - intros s L -> HL Hno. rewrite HL. simpl.
    rewrite quadrant_dividers_no_match; [reflexivity |].
    intros div Hdiv Heq. apply (Hno div Hdiv). symmetry. exact Heq.
  - intros ->. eexists. reflexivity.
Qed.

End QuadrantMore.

Section QuadrantCells.
Context {value : Type} `{FloatOrder value}.






End QuadrantCells.


Section QuadrantDict.
Context {value : Type} `{PyFloat value}.

Lemma quadrant_positions_Return (dividers : list (Divider.t value)) (ps : list position_el) :
  forall acc es,
  quadrant_positions dividers ps acc = Return es <->
  exists es', Forall2 (fun p e => quadrant_position dividers p = Return e) ps es' /\
              es = acc ++ es'.
Proof.
  induction ps as [|p ps IH]; intros acc es; simpl.
  - split.
    + intros [= <-]. exists []. rewrite app_nil_r. split; [constructor | reflexivity].
    + intros (es' & Hes & ->). inversion Hes. rewrite app_nil_r. reflexivity.
  - split.
    + intros Hr. apply bind_Return in Hr as (e & He & Hr).
      apply IH in Hr as (es' & Hes & ->). exists (e :: es').
      split; [constructor; assumption |]. rewrite <- app_assoc. reflexivity.
    + intros (es' & Hes & ->). inversion Hes as [|? e ? es'' He Hes']; subst.
      rewrite He. simpl. apply IH. exists es''. split; [exact Hes' |].
      rewrite <- app_assoc. reflexivity.
Qed.

Lemma quadrant_loop_Return (dividers : list (Divider.t value)) (qels : list quadrant_el) :
  forall m q,
  quadrant_loop dividers qels m = Return q ->
  dom q = dom m ∪ list_to_set (quad_id_attrib <$> qels) /\
  (forall k, k ∉ quad_id_attrib <$> qels -> q !! k = m !! k) /\
  (forall pre qel post, qels = pre ++ qel :: post ->
     quad_id_attrib qel ∉ quad_id_attrib <$> post ->
     exists es, q !! quad_id_attrib qel = Some es /\
                Forall2 (fun p e => quadrant_position dividers p = Return e)
                        (position_els qel) es).
Proof.
  induction qels as [|qel0 qels IH]; intros m q; simpl.
  - intros [= <-]. split; [rewrite ?fmap_nil, ?list_to_set_nil, (right_id_L ∅ (∪)); reflexivity |].
    split; [reflexivity |].
    intros pre qel post Heq. destruct pre; discriminate.
  - intros Hr. apply bind_Return in Hr as (es0 & Hes0 & Hr).
    destruct (IH _ _ Hr) as (Hdom & Hkeep & Hlast).
    split.
    { rewrite Hdom, dom_insert_L, ?fmap_cons, ?list_to_set_cons. apply set_eq. intros x.
      rewrite !elem_of_union. tauto. }
    split.
    + intros k Hk. apply not_elem_of_cons in Hk as [Hne Hk].
      rewrite (Hkeep k Hk). apply lookup_insert_ne. congruence.
    + intros pre qel post Heq Hfresh. destruct pre as [|x pre]; simpl in Heq.
      * injection Heq as <- <-. exists es0. split.
        -- rewrite (Hkeep _ Hfresh). apply lookup_insert_eq.
        -- apply quadrant_positions_Return in Hes0 as (es' & Hes' & ->). exact Hes'.
      * injection Heq as <- ->. apply (Hlast pre qel post eq_refl Hfresh).
Qed.

(** X9.  When the constructor has built [quadrants]: there is at least one
    divider; the dict has exactly the ids of the [Quadrant] elements as
    keys; and under each id it holds the entries of the last element of
    that id, one per [position], in document order.  Without a divider the
    constructor raises [ValueError] whatever the quadrants are. *)
Theorem GMLQuadrantGate__init__quadrants_built (dividers : list (Divider.t value))
    (qels : list quadrant_el) :
  (forall q, GMLQuadrantGate__init__quadrants dividers qels = Return q ->
     dividers <> [] /\
     dom q = list_to_set (quad_id_attrib <$> qels) /\
     forall pre qel post, qels = pre ++ qel :: post ->
       quad_id_attrib qel ∉ quad_id_attrib <$> post ->
       exists es, q !! quad_id_attrib qel = Some es /\
                  Forall2 (fun p e => quadrant_position dividers p = Return e)
                          (position_els qel) es) /\
  (dividers = [] ->
   exists msg, GMLQuadrantGate__init__quadrants dividers qels = Raise (ValueError msg)).
Proof.
  unfold GMLQuadrantGate__init__quadrants. split.
  - intros q. case_decide as Hlen; [discriminate |]. intros Hq.
    destruct (quadrant_loop_Return dividers qels ∅ q Hq) as (Hdom & _ & Hlast).
    split; [intros ->; simpl in Hlen; lia |].
    split; [rewrite Hdom, dom_empty_L, (left_id_L ∅ (∪)); reflexivity | exact Hlast].
  - intros ->. simpl. eexists. reflexivity.
Qed.

End QuadrantDict.

(** ** [GMLEllipsoidGate.__init__] and [GMLBooleanGate.__init__] *)

Section GmlGatesMore.
Context {value : Type} `{PyFloat value}.

Lemma float_Return (s : string) (x : value) : float s = Return x <-> float_of_str s = Some x.
Proof.
  unfold float. destruct (float_of_str s); split; intros Hx; try discriminate; congruence.
Qed.

Lemma float_of_attribute_Return (v : option string) (x : value) :
  float_of_attribute v = Return x <-> number_of v x.
Proof.
  unfold float_of_attribute, number_of. destruct v as [s|].
  - rewrite float_Return. split; [intros Hs; exists s; split; [reflexivity | exact Hs] |].
    intros (s' & [= <-] & Hs). exact Hs.
  - split; [discriminate | intros (s & Hs & _); discriminate].
Qed.

Lemma ellipsoid_coordinates_Return (vs : list (option string)) :
  forall (acc cs : list value),
  ellipsoid_coordinates vs acc = Return cs <->
  exists xs, Forall2 number_of vs xs /\ cs = acc ++ xs.
Proof.
  induction vs as [|v vs IH]; intros acc cs; simpl.
  - split.
    + intros [= <-]. exists []. rewrite app_nil_r. split; [constructor | reflexivity].
    + intros (xs & Hxs & ->). inversion Hxs. rewrite app_nil_r. reflexivity.
  - destruct v as [s|].
    + split.
      * intros Hr. apply bind_Return in Hr as (x & Hx & Hr). apply float_Return in Hx.
        apply IH in Hr as (xs & Hxs & ->). exists (x :: xs). split.
        -- constructor; [exists s; split; [reflexivity | exact Hx] | exact Hxs].
        -- rewrite <- app_assoc. reflexivity.
      * intros (xs & Hxs & ->). inversion Hxs as [|? x ? xs' Hnum Hxs']; subst.
        destruct Hnum as (s' & Hs' & Hx). injection Hs' as <-.
        apply float_Return in Hx. rewrite Hx. simpl. apply IH. exists xs'.
        split; [exact Hxs' |]. rewrite <- app_assoc. reflexivity.
    + split; [discriminate |]. intros (xs & Hxs & _).
      inversion Hxs as [|? x ? xs' Hnum _]. destruct Hnum as (s' & Hs & _). discriminate.
Qed.

Lemma ellipsoid_entries_Return (vs : list (option string)) :
  forall (acc es : list value),
  ellipsoid_entries vs acc = Return es <->
  exists xs, Forall2 number_of vs xs /\ es = acc ++ xs.
Proof.
  induction vs as [|v vs IH]; intros acc es; simpl.
  - split.
    + intros [= <-]. exists []. rewrite app_nil_r. split; [constructor | reflexivity].
    + intros (xs & Hxs & ->). inversion Hxs. rewrite app_nil_r. reflexivity.
  - split.
    + intros Hr. apply bind_Return in Hr as (x & Hx & Hr). apply float_of_attribute_Return in Hx.
      apply IH in Hr as (xs & Hxs & ->). exists (x :: xs).
      split; [constructor; assumption |]. rewrite <- app_assoc. reflexivity.
    + intros (xs & Hxs & ->). inversion Hxs as [|? x ? xs' Hx Hxs']; subst.
      apply float_of_attribute_Return in Hx. rewrite Hx. simpl. apply IH. exists xs'.
      split; [exact Hxs' |]. rewrite <- app_assoc. reflexivity.
Qed.

Lemma ellipsoid_rows_Return (n : nat) (rows : list (list (option string))) :
  forall (acc m : list (list value)),
  ellipsoid_rows n rows acc = Return m <->
  exists rs, Forall2 (fun row xs => Forall2 number_of row xs /\ length row = n) rows rs /\
             m = acc ++ rs.
Proof.
  induction rows as [|row rows IH]; intros acc m; simpl.
  - split.
    + intros [= <-]. exists []. rewrite app_nil_r. split; [constructor | reflexivity].
    + intros (rs & Hrs & ->). inversion Hrs. rewrite app_nil_r. reflexivity.
  - split.
    + intros Hr. apply bind_Return in Hr as (es & Hes & Hr).
      apply ellipsoid_entries_Return in Hes as (xs & Hxs & ->). simpl in Hr.
      case_decide as Hlen; [discriminate |].
      apply IH in Hr as (rs & Hrs & ->). exists (xs :: rs). split.
      * constructor; [| exact Hrs]. split; [exact Hxs |].
        rewrite (Forall2_length _ _ _ Hxs).
        destruct (decide (length xs = n)); [assumption | contradiction].
      * rewrite <- app_assoc. reflexivity.
    + intros (rs & Hrs & ->). inversion Hrs as [|? xs ? rs' Hrow Hrs']; subst.
      destruct Hrow as [Hxs Hlen].
      rewrite (proj2 (ellipsoid_entries_Return row [] xs))
        by (exists xs; split; [exact Hxs | reflexivity]).
      simpl. rewrite decide_False
        by (intros Hne; apply Hne; rewrite <- Hlen; symmetry;
            apply (Forall2_length _ _ _ Hxs)).
      apply IH. exists rs'. split; [exact Hrs' |]. rewrite <- app_assoc. reflexivity.
Qed.

(** X10.  [GMLEllipsoidGate.__init__] gets as far as the base constructor
    exactly when the [mean] has a number of coordinates other than one, each
    with a numeric value, every entry of the covariance matrix is numeric,
    every row has as many entries as there are coordinates, and the
    distance square is numeric.  The number of rows is not compared with
    the number of coordinates, and a mean without coordinates passes. *)
Theorem GMLEllipsoidGate__init__args_Return (el : ellipsoid_el) (a : ellipsoid_args value) :
  GMLEllipsoidGate__init__args el = Return a <->
  exists coord_els row_els,
    mean_coord_values el = Some coord_els /\
    length coord_els <> 1 /\
    Forall2 number_of coord_els (coordinates a) /\
    covariance_row_values el = Some row_els /\
    Forall2 (fun row xs => Forall2 number_of row xs /\ length row = length coord_els)
            row_els (covariance_matrix a) /\
    number_of (dist_square_value el) (distance_square a).
Proof.
  unfold GMLEllipsoidGate__init__args. split.
  - destruct (mean_coord_values el) as [coord_els|]; [| discriminate].
    case_decide as Hone; [discriminate |]. intros Hr.
    apply bind_Return in Hr as (cs & Hcs & Hr).
    apply ellipsoid_coordinates_Return in Hcs as (xs & Hxs & ->). simpl in Hr.
    destruct (covariance_row_values el) as [row_els|]; [| discriminate].
    apply bind_Return in Hr as (m & Hm & Hr).
    apply ellipsoid_rows_Return in Hm as (rs & Hrs & ->). simpl in Hr.
    apply bind_Return in Hr as (d & Hd & [= <-]).
    apply float_of_attribute_Return in Hd.
    exists coord_els, row_els. simpl. repeat split; try assumption.
    rewrite (Forall2_length _ _ _ Hxs). exact Hrs.
  - intros (coord_els & row_els & -> & Hone & Hxs & -> & Hrs & Hd).
    rewrite decide_False by exact Hone.
    rewrite (proj2 (ellipsoid_coordinates_Return coord_els [] (coordinates a)))
      by (exists (coordinates a); split; [exact Hxs | reflexivity]).
    simpl.
    rewrite (proj2 (ellipsoid_rows_Return (length (coordinates a)) row_els []
                      (covariance_matrix a))).
    + simpl. apply float_of_attribute_Return in Hd. rewrite Hd. simpl.
      destruct a; reflexivity.
    + exists (covariance_matrix a). split; [| reflexivity].
      rewrite <- (Forall2_length _ _ _ Hxs). exact Hrs.
Qed.

Lemma use_complement_text (a : option string) :
  match a with Some s => bool_decide (s = "true") | None => false end =
  bool_decide (a = Some "true").
Proof.
  destruct a as [s|].
  - destruct (decide (s = "true")) as [-> | Hne].
    + rewrite !bool_decide_true by reflexivity. reflexivity.
    + rewrite !bool_decide_false by congruence. reflexivity.
  - rewrite bool_decide_false by discriminate. reflexivity.
Qed.

Lemma boolean_gate_refs_Return (els : list gate_reference_el) :
  forall acc refs,
  boolean_gate_refs els acc = Return refs <->
  exists rs, Forall2 reference_of els rs /\ refs = acc ++ rs.
Proof.
  induction els as [|el els IH]; intros acc refs; simpl.
  - split.
    + intros [= <-]. exists []. rewrite app_nil_r. split; [constructor | reflexivity].
    + intros (rs & Hrs & ->). inversion Hrs. rewrite app_nil_r. reflexivity.
  - destruct (ref_attrib el) as [r|] eqn:Hr.
    + rewrite use_complement_text. split.
      * intros Hret. apply IH in Hret as (rs & Hrs & ->).
        exists (GateRef.mk r (bool_decide (use_as_complement_attrib el = Some "true")) :: rs).
        split.
        -- constructor; [| exact Hrs]. split; [exact Hr | reflexivity].
        -- rewrite <- app_assoc. reflexivity.
      * intros (rs & Hrs & ->). inversion Hrs as [|? r0 ? rs' Hone Hrs']; subst.
        destruct Hone as [Href Hc].
        apply IH. exists rs'. split; [exact Hrs' |]. rewrite <- app_assoc. simpl.
        do 2 f_equal. destruct r0 as [r0 c0]. simpl in *.
        assert (r0 = r) as -> by congruence. rewrite Hc. reflexivity.
    + split; [discriminate |]. intros (rs & Hrs & _).
      inversion Hrs as [|? r0 ? rs' Hone _]. destruct Hone as [Href _]. congruence.
Qed.

(** X11.  [GMLBooleanGate.__init__] takes the first [and] element when
    there is one, else the first [or], else the first [not], whatever other
    operation elements the gate has besides; it gets as far as the base
    constructor exactly when every [gateReference] of that element has a
    [ref], and then hands on one reference per [gateReference], in document
    order, complemented only where [use-as-complement] is the text "true".
    Without any operation element it raises [ValueError]. *)
Theorem GMLBooleanGate__init__args_Return (el : boolean_el) :
  (forall bool_type gate_refs,
     GMLBooleanGate__init__args el = Return (bool_type, gate_refs) <->
     exists op,
       ((bool_type = "and" /\ head (and_els el) = Some op) \/
        (bool_type = "or" /\ and_els el = [] /\ head (or_els el) = Some op) \/
        (bool_type = "not" /\ and_els el = [] /\ or_els el = [] /\
         head (not_els el) = Some op)) /\
       Forall2 reference_of op gate_refs) /\
  (and_els el = [] -> or_els el = [] -> not_els el = [] ->
   exists msg, GMLBooleanGate__init__args el = Raise (ValueError msg)).
Proof.
  unfold GMLBooleanGate__init__args. split.
  - intros bool_type gate_refs. split.
    + intros Hr. apply bind_Return in Hr as ([t op] & Hsel & Hr).
      apply bind_Return in Hr as (refs & Hrefs & [= <- <-]).
      apply boolean_gate_refs_Return in Hrefs as (rs & Hrs & ->). simpl.
      exists op. split; [| exact Hrs].
      destruct (and_els el) as [|a ?], (or_els el) as [|o ?], (not_els el) as [|n ?];
        simpl in Hsel; try discriminate; injection Hsel as <- <-; simpl; tauto.
    + intros (op & Hsel & Hrs).
      assert (Hrefs : boolean_gate_refs op [] = Return gate_refs).
      { apply boolean_gate_refs_Return. exists gate_refs. split; [exact Hrs | reflexivity]. }
      destruct Hsel as [(-> & Ha) | [(-> & Ha & Ho) | (-> & Ha & Ho & Hn)]].
      * destruct (and_els el) as [|a ?]; simpl in Ha; [discriminate |]. injection Ha as ->.
        simpl. rewrite Hrefs. reflexivity.
      * rewrite Ha. destruct (or_els el) as [|o ?]; simpl in Ho; [discriminate |].
        injection Ho as ->. simpl. rewrite Hrefs. reflexivity.
      * rewrite Ha, Ho. destruct (not_els el) as [|n ?]; simpl in Hn; [discriminate |].
        injection Hn as ->. simpl. rewrite Hrefs. reflexivity.
  - intros -> -> ->. simpl. eexists. reflexivity.
Qed.

End GmlGatesMore.

(** ** [_gate_samples]: the result list *)

Section GateSamplesMore.
Context {strategy sample results : Type}.
Variable gate_sample_method : strategy -> sample -> bool -> outcome results.

Lemma build_data_length (gs : list strategy) verbose (samples : list sample) :
  forall i data, build_data gs verbose i samples = Return data -> length data = length samples.
Proof.
  induction samples as [|s samples IH]; intros i data; simpl.
  - intros [= <-]. reflexivity.
  - intros Hd. apply bind_Return in Hd as (g & _ & Hd).
    apply bind_Return in Hd as (data' & Hd' & [= <-]). simpl. f_equal. eapply IH. exact Hd'.
Qed.

Lemma successes_Forall2 {A B} (f : A -> outcome B) (data : list A) :
  failures (f <$> data) = [] ->
  Forall2 (fun x r => f x = Return r) data (successes (f <$> data)).
Proof.
  induction data as [|x data IH]; simpl; [constructor |].
  destruct (f x) as [e|r] eqn:Hx; [discriminate |]. intros Hf.
  constructor; [exact Hx | apply IH; exact Hf].
Qed.

(** What a returning call has computed, position by position. *)
Lemma _gate_samples_Return_lookup env (gs : list strategy) (samples : list sample)
    verbose use_mp rs :
  _gate_samples gate_sample_method env gs samples verbose use_mp = Return rs ->
  length rs = length samples /\
  forall j s, samples !! j = Some s ->
    exists g r, gs !! j = Some g /\ rs !! j = Some r /\
                gate_sample_method g s verbose = Return r.
Proof.
  intros Hr. apply _gate_samples_Return in Hr as (data & Hd & Hf & ->).
  pose proof (successes_Forall2 _ data Hf) as Hall.
  split.
  - rewrite <- (Forall2_length _ _ _ Hall). eapply build_data_length. exact Hd.
  - intros j s Hs.
    destruct (build_data_lookup gs verbose samples 0 data j s Hd Hs) as (g & Hg & Hdj).
    destruct (Forall2_lookup_l _ _ _ _ _ Hall Hdj) as (r & Hrj & Hcall).
    exists g, r. repeat split; assumption.
Qed.

(** X12.  When [_gate_samples] returns, in either branch, it returns one
    result per sample, in the order of the samples, and the result at
    position [j] is what the strategy at position [j] of
    [gating_strategies] answers for the sample at position [j]. *)
Theorem _gate_samples_results_in_order env (gs : list strategy) (samples : list sample)
    verbose use_mp rs :
  _gate_samples gate_sample_method env gs samples verbose use_mp = Return rs ->
  length rs = length samples /\
  forall j s, samples !! j = Some s ->
    exists g r, gs !! j = Some g /\ rs !! j = Some r /\
                gate_sample_method g s verbose = Return r.
Proof. apply _gate_samples_Return_lookup. Qed.

(** X13.  With fewer strategies than samples [_gate_samples] raises, in
    either branch: it never pairs a sample with a strategy of another
    position and never drops a sample. *)
Theorem _gate_samples_too_few_strategies env (gs : list strategy) (samples : list sample)
    verbose use_mp :
  length gs < length samples ->
  raises (_gate_samples gate_sample_method env gs samples verbose use_mp).
Proof.
  intros Hlen.
  destruct (returns_or_raises (_gate_samples gate_sample_method env gs samples verbose use_mp))
    as [[rs Hr] | Hraise]; [| exact Hraise].
  apply _gate_samples_Return in Hr as (data & Hd & _ & _).
  destruct (lookup_lt_is_Some_2 samples (length gs) Hlen) as [s Hs].
  destruct (build_data_lookup gs verbose samples 0 data _ s Hd Hs) as (g & Hg & _).
  simpl in Hg. apply lookup_lt_Some in Hg. lia.
Qed.

Lemma sequential_loop_first_failure (gs : list strategy) verbose (samples : list sample) :
  forall i acc j s g e,
  samples !! j = Some s -> gs !! (i + j) = Some g ->
  gate_sample_method g s verbose = Raise e ->
  (forall k s', k < j -> samples !! k = Some s' ->
     exists g', gs !! (i + k) = Some g' /\ returns (gate_sample_method g' s' verbose)) ->
  sequential_loop gate_sample_method gs verbose i samples acc = Raise e.
Proof.
  induction samples as [|s0 samples IH]; intros i acc j s g e Hs Hg He Hbefore.
  - rewrite lookup_nil in Hs. discriminate.
  - simpl. destruct j as [|j]; simpl in Hs.
    + injection Hs as <-. rewrite Nat.add_0_r in Hg. unfold getitem. rewrite Hg. simpl.
      rewrite He. reflexivity.
    + destruct (Hbefore 0 s0 ltac:(lia) eq_refl) as (g0 & Hg0 & [r0 Hr0]).
      rewrite Nat.add_0_r in Hg0. unfold getitem. rewrite Hg0. simpl. rewrite Hr0. simpl.
      apply (IH (S i) _ j s g e Hs).
      * replace (S i + j) with (i + S j) by lia. exact Hg.
      * exact He.
      * intros k s' Hk Hs'. replace (S i + k) with (i + S k) by lia.
        apply (Hbefore (S k) s'); [lia | exact Hs'].
Qed.

(** X14.  Outside the multiprocessing branch [_gate_samples] raises the
    exception of the first unit that fails: the units before it have run,
    those after it are not started. *)
Theorem _gate_samples_sequential_first_failure env (gs : list strategy)
    (samples : list sample) verbose use_mp j s g e :
  use_pool env (length samples) use_mp = false ->
  samples !! j = Some s -> gs !! j = Some g ->
  gate_sample_method g s verbose = Raise e ->
  (forall k s', k < j -> samples !! k = Some s' ->
     exists g', gs !! k = Some g' /\ returns (gate_sample_method g' s' verbose)) ->
  _gate_samples gate_sample_method env gs samples verbose use_mp = Raise e.
Proof.
  intros Hseq Hs Hg He Hbefore. unfold _gate_samples. rewrite Hseq.
  apply (sequential_loop_first_failure gs verbose samples 0 [] j s g e Hs Hg He).
  exact Hbefore.
Qed.

End GateSamplesMore.

Lemma _gate_samples_results_in_order_witness :
  length [ ({[Some "R" := [true; false; false; true]]} : gmap (option string) (list bool));
           {[Some "R" := [true; false; false; true]]} ] = length [sample4; sample4] /\
  forall j s, [sample4; sample4] !! j = Some s ->
    exists g r, [("R", strategy_R); ("R", strategy_R)] !! j = Some g /\
                [ ({[Some "R" := [true; false; false; true]]} : gmap (option string) (list bool));
                  {[Some "R" := [true; false; false; true]]} ] !! j = Some r /\
                gate_one g s false = Return r.
Proof.
  apply (_gate_samples_results_in_order gate_one four_cpus
           [("R", strategy_R); ("R", strategy_R)] [sample4; sample4] false true).
  vm_compute. reflexivity.
Defined.

Lemma _gate_samples_too_few_strategies_witness :
  raises (_gate_samples gate_one four_cpus [("R", strategy_R)] [sample4; sample4] false true).
Proof.
  apply (_gate_samples_too_few_strategies gate_one four_cpus [("R", strategy_R)]
           [sample4; sample4] false true).
  simpl. lia.
Defined.

Lemma _gate_samples_sequential_first_failure_witness :
  _gate_samples gate_one four_cpus [("R", strategy_R); ("U", strategy_U)]
                [sample4; sample4] false false =
    Raise (ValueError "Gate 'U' does not include a min or max value").
Proof.
  apply (_gate_samples_sequential_first_failure gate_one four_cpus
           [("R", strategy_R); ("U", strategy_U)] [sample4; sample4] false false
           1 sample4 ("U", strategy_U)).
  - reflexivity.
  - reflexivity.
  - reflexivity.
  - vm_compute. reflexivity.
  - intros k s' Hk Hs'. destruct k as [|k]; [| lia]. simpl in Hs'. injection Hs' as <-.
    exists ("R", strategy_R). split; [reflexivity |]. eexists. vm_compute. reflexivity.
Defined.

(** ** The queries of [Session] and [analyze_samples] *)

Section SessionQueries.
Context {value payload results row : Type} `{Collaborators value payload results row}.

Lemma mapM_outcome_Return {A B} (f : A -> outcome B) (l : list A) (ys : list B) :
  mapM f l = Return ys <-> Forall2 (fun x y => f x = Return y) l ys.
Proof.
  revert ys. induction l as [|x l IH]; intros ys; simpl.
  - split.
    + intros [= <-]. constructor.
    + intros Hys. inversion Hys. reflexivity.
  - split.
    + intros Hr. apply bind_Return in Hr as (y & Hy & Hr).
      apply bind_Return in Hr as (ys' & Hys' & [= <-]).
      constructor; [exact Hy | apply IH; exact Hys'].
    + intros Hys. inversion Hys as [|? y ? ys' Hy Hys']; subst.
      rewrite Hy. simpl. apply IH in Hys'. rewrite Hys'. reflexivity.
Qed.

Lemma mapM_outcome_Raise {A B} (f : A -> outcome B) (l : list A) (e : exn) :
  mapM f l = Raise e -> exists x, x ∈ l /\ f x = Raise e.
Proof.
  induction l as [|x l IH]; simpl; [discriminate |].
  intros Hr. apply bind_Raise in Hr as [Hx | (y & Hy & Hr)].
  - exists x. split; [left | exact Hx].
  - apply bind_Raise in Hr as [Hl | (ys & _ & Hr)]; [| discriminate].
    destruct (IH Hl) as (x' & Hin & Hx'). exists x'. split; [right; exact Hin | exact Hx'].
Qed.

Lemma get_sample_ids_loaded (self : Session value results row) (k : string) :
  k ∈ get_sample_ids self true <-> exists s, sample_lut self !! k = Some (Some s).
Proof.
  unfold get_sample_ids. rewrite list_elem_of_omap. split.
  - intros ([k' [s|]] & Hin & Hk); simpl in Hk; [| discriminate].
    injection Hk as ->. apply elem_of_map_to_list in Hin. exists s. exact Hin.
  - intros (s & Hs). exists (k, Some s). split; [| reflexivity].
    apply elem_of_map_to_list. exact Hs.
Qed.

Lemma elem_of_keys (m : gmap string nat) (k : string) :
  k ∈ (map_to_list m).*1 <-> is_Some (m !! k).
Proof.
  rewrite list_elem_of_fmap. split.
  - intros ([k' l] & -> & Hin). apply elem_of_map_to_list in Hin. exists l. exact Hin.
  - intros [l Hl]. exists (k, l). split; [reflexivity |]. apply elem_of_map_to_list. exact Hl.
Qed.

(** The members of the list [get_group_sample_ids] answers. *)
Lemma get_group_sample_ids_members (self : Session value results row)
    (group_name : string) (loaded_only : bool) (grp : group) :
  _sample_group_lut self !! group_name = Some grp ->
  exists ids,
    get_group_sample_ids self group_name loaded_only = Return ids /\
    NoDup ids /\
    forall k, k ∈ ids <->
      is_Some (samples grp !! k) \/
      (loaded_only = true /\ exists s, sample_lut self !! k = Some (Some s)).
Proof.
  intros Hgrp. unfold get_group_sample_ids. rewrite Hgrp. destruct loaded_only.
  - eexists. split; [reflexivity |]. split; [apply NoDup_elements |].
    intros k. rewrite elem_of_elements, elem_of_union, !elem_of_list_to_set.
    rewrite elem_of_keys, get_sample_ids_loaded. tauto.
  - eexists. split; [reflexivity |]. split; [apply NoDup_fst_map_to_list |].
    intros k. rewrite elem_of_keys. split; [tauto |].
    intros [Hk | [Hf _]]; [exact Hk | discriminate].
Qed.

(** X15.  [get_group_sample_ids] on an existing group answers a list
    without repetition; with [loaded_only=False] its members are the ids
    assigned to the group; with [loaded_only=True] they are the ids assigned
    to the group (loaded or not) together with every loaded sample of the
    session (assigned to the group or not): the option adds ids, it removes
    none. *)
Theorem get_group_sample_ids_elem_of (self : Session value results row)
    (group_name : string) (loaded_only : bool) (grp : group) :
  _sample_group_lut self !! group_name = Some grp ->
  exists ids,
    get_group_sample_ids self group_name loaded_only = Return ids /\
    NoDup ids /\
    forall k, k ∈ ids <->
      is_Some (samples grp !! k) \/
      (loaded_only = true /\ exists s, sample_lut self !! k = Some (Some s)).
Proof. apply get_group_sample_ids_members. Qed.

(** When [get_group_samples] returns, and which samples. *)
Lemma get_group_samples_members (self : Session value results row)
    (group_name : string) (grp : group) :
  _sample_group_lut self !! group_name = Some grp ->
  (returns (get_group_samples self group_name) <->
   forall k, is_Some (samples grp !! k) -> is_Some (sample_lut self !! k)) /\
  forall l, get_group_samples self group_name = Return l ->
    forall s, Some s ∈ l <-> exists k, sample_lut self !! k = Some (Some s).
Proof.
  intros Hgrp.
  destruct (get_group_sample_ids_members self group_name true grp Hgrp)
    as (ids & Hids & _ & Hmem).
  unfold get_group_samples. rewrite Hids. simpl. split.
  - split.
    + intros [l Hl] k Hk. apply mapM_outcome_Return in Hl.
      assert (Hin : k ∈ ids) by (apply Hmem; left; exact Hk).
      apply list_elem_of_lookup in Hin as (i & Hi).
      destruct (Forall2_lookup_l _ _ _ _ _ Hl Hi) as (o & _ & Ho).
      unfold get_sample in Ho. destruct (sample_lut self !! k) as [o'|]; [eexists; reflexivity |].
      discriminate.
    + intros Hall.
      destruct (returns_or_raises (mapM (get_sample self) ids)) as [Hret | [e He]];
        [exact Hret |].
      apply mapM_outcome_Raise in He as (k & Hin & Hk). exfalso.
      apply Hmem in Hin as [Hin | [_ (s & Hs)]].
      * destruct (Hall k Hin) as [o Ho]. unfold get_sample in Hk. rewrite Ho in Hk. discriminate.
      * unfold get_sample in Hk. rewrite Hs in Hk. discriminate.
  - intros l Hl s. apply mapM_outcome_Return in Hl. split.
    + intros Hin. apply list_elem_of_lookup in Hin as (i & Hi).
      destruct (Forall2_lookup_r _ _ _ _ _ Hl Hi) as (k & _ & Hk).
      exists k. unfold get_sample in Hk.
      destruct (sample_lut self !! k) as [o|]; [| discriminate]. congruence.
    + intros (k & Hk).
      assert (Hin : k ∈ ids) by (apply Hmem; right; split; [reflexivity | exists s; exact Hk]).
      apply list_elem_of_lookup in Hin as (i & Hi).
      destruct (Forall2_lookup_l _ _ _ _ _ Hl Hi) as (o & Ho & Hget).
      unfold get_sample in Hget. rewrite Hk in Hget. injection Hget as <-.
      apply list_elem_of_lookup. exists i. exact Ho.
Qed.

(** X16.  [get_group_samples] on an existing group returns exactly when
    every id assigned to the group is a key of [sample_lut]; the [Sample]
    instances it then returns are all the loaded samples of the session,
    whatever group they are assigned to. *)
Theorem get_group_samples_Return (self : Session value results row)
    (group_name : string) (grp : group) :
  _sample_group_lut self !! group_name = Some grp ->
  (returns (get_group_samples self group_name) <->
   forall k, is_Some (samples grp !! k) -> is_Some (sample_lut self !! k)) /\
  forall l, get_group_samples self group_name = Return l ->
    forall s, Some s ∈ l <-> exists k, sample_lut self !! k = Some (Some s).
Proof. apply get_group_samples_members. Qed.

Lemma collect_units_missing (self : Session value results row) (group_name : string)
    (grp : group) (s : Sample value) (sample_list : list (option (Sample value))) :
  _sample_group_lut self !! group_name = Some grp ->
  samples grp !! original_filename s = None ->
  Some s ∈ sample_list ->
  forall gs ss, exists key,
    collect_units self group_name sample_list gs ss = Raise (KeyError key).
Proof.
  intros Hgrp Hmiss. induction sample_list as [|o rest IH]; intros Hin gs ss.
  - apply elem_of_nil in Hin. contradiction.
  - apply elem_of_cons in Hin. destruct o as [s0|]; simpl.
    + rewrite Hgrp. destruct (samples grp !! original_filename s0) as [l|] eqn:Hs0.
      * destruct Hin as [[= <-] | Hin]; [congruence |]. apply IH. exact Hin.
      * eexists. reflexivity.
    + destruct Hin as [Hin | Hin]; [discriminate |]. apply IH. exact Hin.
Qed.

(** X17.  When the session holds a loaded sample that is not assigned to
    the group, [analyze_samples] on the whole group raises [KeyError] and
    changes nothing: the sample comes back from [get_group_samples] but has
    no strategy in the group. *)
Theorem analyze_samples_loaded_sample_outside_group (w : world value payload results row)
    env use_mp (group_name : string) verbose (grp : group) (k : string) (s : Sample value) :
  _sample_group_lut (session w) !! group_name = Some grp ->
  sample_lut (session w) !! k = Some (Some s) ->
  samples grp !! original_filename s = None ->
  exists key,
    analyze_samples env use_mp group_name None verbose w = (Raise (KeyError key), w).
Proof.
  intros Hgrp Hk Hmiss.
  enough (Hunits : exists key, units_to_run (session w) group_name None = Raise (KeyError key)).
  { destruct Hunits as [key Hunits]. exists key. unfold analyze_samples.
    rewrite Hunits. reflexivity. }
  unfold units_to_run.
  destruct (get_group_samples (session w) group_name) as [e|l] eqn:Hl.
  - unfold get_group_samples in Hl.
    destruct (get_group_sample_ids_members (session w) group_name true grp Hgrp)
      as (ids & Hids & _ & _).
    rewrite Hids in Hl. simpl in Hl. apply mapM_outcome_Raise in Hl as (k' & _ & Hk').
    unfold get_sample in Hk'. destruct (sample_lut (session w) !! k'); [discriminate |].
    injection Hk' as <-. exists k'. reflexivity.
  - simpl.
    assert (Hin : Some s ∈ l).
    { apply (proj2 (get_group_samples_members (session w) group_name grp Hgrp) l Hl).
      exists k. exact Hk. }
    case_decide as Hlen.
    + destruct l; [apply elem_of_nil in Hin; contradiction | discriminate].
    + destruct (collect_units_missing (session w) group_name grp s l Hgrp Hmiss Hin [] [])
        as [key Hkey].
      exists key. rewrite Hkey. reflexivity.
Qed.

Lemma store_results_lookup (rs : list results) (k : string) :
  store_results rs !! k = last (filter (fun r => GatingResults_sample_id r = k) rs).
Proof.
  induction rs as [|r rs IH] using rev_ind; [reflexivity |].
  unfold store_results in *. rewrite foldl_app. simpl. rewrite filter_app.
  destruct (decide (GatingResults_sample_id r = k)) as [Heq | Hne].
  - rewrite Heq, lookup_insert_eq. rewrite filter_cons_True by exact Heq.
    rewrite filter_nil, last_snoc. reflexivity.
  - rewrite lookup_insert_ne by exact Hne. rewrite filter_cons_False by exact Hne.
    rewrite filter_nil, app_nil_r. exact IH.
Qed.

(** X18.  When [analyze_samples] runs units and returns, every unit has
    returned its result; [get_group_report] then answers the reports of the
    results, concatenated in the order of the units, and
    [get_gating_results] answers, for a sample id, the last result that
    carries this id, and raises [KeyError] for every other id, also for one
    analysed by an earlier call.  The results of the other groups, the
    samples, the groups and the strategies are as they were. *)
Theorem analyze_samples_stores_results (w w' : world value payload results row)
    env use_mp (group_name : string) (sample_id : option string) verbose
    (gs : list nat) (ss : list (Sample value)) :
  units_to_run (session w) group_name sample_id = Return (inr (gs, ss)) ->
  analyze_samples env use_mp group_name sample_id verbose w = (Return (), w') ->
  exists rs,
    rs <> [] /\ length rs = length ss /\
    (forall j s, ss !! j = Some s ->
       exists g r, gs !! j = Some g /\ rs !! j = Some r /\
                   GatingStrategy_gate_sample (objects w) g s verbose = Return r) /\
    get_group_report (session w') group_name =
      Return (concat (GatingResults_report <$> rs)) /\
    (forall sid,
       get_gating_results (session w') group_name sid =
         match last (filter (fun r => GatingResults_sample_id r = sid) rs) with
         | Some r => Return r
         | None => Raise (KeyError sid)
         end) /\
    (forall g, g <> group_name ->
       _results_lut (session w') !! g = _results_lut (session w) !! g) /\
    sample_lut (session w') = sample_lut (session w) /\
    _sample_group_lut (session w') = _sample_group_lut (session w) /\
    objects w' = objects w /\
    warnings w' = warnings w.
Proof.
  intros Hunits. unfold analyze_samples. rewrite Hunits.
  destruct (_gate_samples _ env gs ss verbose use_mp) as [e|rs] eqn:Hrun;
    [intros [=] |].
  destruct (pd_concat (GatingResults_report <$> rs)) as [e|rep] eqn:Hrep;
    [intros [=] |].
  intros [= <-]. exists rs.
  assert (Hne : rs <> []).
  { intros ->. simpl in Hrep. discriminate. }
  assert (Hrep' : rep = concat (GatingResults_report <$> rs)).
  { unfold pd_concat in Hrep. destruct (GatingResults_report <$> rs); [discriminate |].
    congruence. }
  destruct (_gate_samples_Return_lookup _ env gs ss verbose use_mp rs Hrun)
    as [Hlen Hall].
  split; [exact Hne |]. split; [exact Hlen |]. split; [exact Hall |].
  split.
  { unfold get_group_report. simpl. rewrite lookup_insert_eq. simpl. rewrite Hrep'. reflexivity. }
  split.
  { intros sid. unfold get_gating_results. simpl. rewrite lookup_insert_eq. simpl.
    rewrite store_results_lookup. reflexivity. }
  split.
  { intros g Hg. simpl. apply lookup_insert_ne. congruence. }
  repeat split; reflexivity.
Qed.

End SessionQueries.

Lemma get_group_sample_ids_elem_of_witness :
  exists ids,
    get_group_sample_ids (session world0) "default" true = Return ids /\
    NoDup ids /\
    forall k, k ∈ ids <->
      is_Some (samples {| template := 0; samples := ∅ |} !! k) \/
      (true = true /\ exists s, sample_lut (session world0) !! k = Some (Some s)).
Proof.
  apply (get_group_sample_ids_elem_of (session world0) "default" true
           {| template := 0; samples := ∅ |}).
  reflexivity.
Defined.

Lemma get_group_samples_Return_witness :
  (returns (get_group_samples (session world_RR) "default") <->
   forall k, is_Some (samples {| template := 0; samples := {["a.fcs" := 1; "b.fcs" := 2]} |} !! k) ->
             is_Some (sample_lut (session world_RR) !! k)) /\
  forall l, get_group_samples (session world_RR) "default" = Return l ->
    forall s, Some s ∈ l <-> exists k, sample_lut (session world_RR) !! k = Some (Some s).
Proof.
  apply (get_group_samples_Return (session world_RR) "default"
           {| template := 0; samples := {["a.fcs" := 1; "b.fcs" := 2]} |}).
  reflexivity.
Defined.

Lemma analyze_samples_loaded_sample_outside_group_witness :
  exists key,
    analyze_samples four_cpus true "default" None false world0 = (Raise (KeyError key), world0).
Proof.
  apply (analyze_samples_loaded_sample_outside_group world0 four_cpus true "default" false
           {| template := 0; samples := ∅ |} "a.fcs" sample4).
  - reflexivity.
  - reflexivity.
  - reflexivity.
Defined.

Lemma analyze_samples_stores_results_witness :
  exists rs,
    rs <> [] /\ length rs = length [sample4; sample5] /\
    (forall j s, [sample4; sample5] !! j = Some s ->
       exists g r, [1; 2] !! j = Some g /\ rs !! j = Some r /\
                   GatingStrategy_gate_sample (objects world_RR) g s false = Return r) /\
    get_group_report
      (session (analyze_samples four_cpus true "default" None false world_RR).2) "default" =
      Return (concat (GatingResults_report <$> rs)) /\
    (forall sid,
       get_gating_results
         (session (analyze_samples four_cpus true "default" None false world_RR).2)
         "default" sid =
         match last (filter (fun r => GatingResults_sample_id r = sid) rs) with
         | Some r => Return r
         | None => Raise (KeyError sid)
         end) /\
    (forall g, g <> "default" ->
       _results_lut (session (analyze_samples four_cpus true "default" None false world_RR).2)
         !! g = _results_lut (session world_RR) !! g) /\
    sample_lut (session (analyze_samples four_cpus true "default" None false world_RR).2) =
      sample_lut (session world_RR) /\
    _sample_group_lut (session (analyze_samples four_cpus true "default" None false world_RR).2) =
      _sample_group_lut (session world_RR) /\
    objects (analyze_samples four_cpus true "default" None false world_RR).2 = objects world_RR /\
    warnings (analyze_samples four_cpus true "default" None false world_RR).2 = warnings world_RR.
Proof.
  apply (analyze_samples_stores_results world_RR
           (analyze_samples four_cpus true "default" None false world_RR).2
           four_cpus true "default" None false [1; 2] [sample4; sample5]).
  - vm_compute. reflexivity.
  - vm_compute. reflexivity.
Defined.

(** ** [Session.__init__], [add_sample_group] and [add_samples] *)

Section SessionPlaces.
Context {value payload results row : Type} `{Collaborators value payload results row}.

(** The places of the session after a group has been created. *)
Lemma strategy_at_new_group (w : world value payload results row) group_name l g sid :
  strategy_at (session (set_group group_name {| template := l; samples := ∅ |} w)) g sid =
  if decide (g = group_name) then
    match sid with None => Some l | Some _ => None end
  else strategy_at (session w) g sid.
Proof.
  unfold strategy_at. simpl. case_decide as Hg.
  - subst g. rewrite lookup_insert_eq. simpl. destruct sid; [apply lookup_empty | reflexivity].
  - rewrite lookup_insert_ne by congruence. reflexivity.
Qed.

Lemma strategy_at_group (s : Session value results row) g sid l :
  strategy_at s g sid = Some l -> is_Some (_sample_group_lut s !! g).
Proof.
  unfold strategy_at. destruct (_sample_group_lut s !! g); [eexists; reflexivity | discriminate].
Qed.

Lemma assign_sample_session (w w' : world value payload results row) sample_id group_name r :
  assign_sample sample_id group_name w = (r, w') ->
  subsample_count (session w') = subsample_count (session w) /\
  sample_lut (session w') = sample_lut (session w) /\
  _results_lut (session w') = _results_lut (session w) /\
  length (strategies (objects w)) <= length (strategies (objects w')).
Proof.
  unfold assign_sample.
  destruct (_sample_group_lut (session w) !! group_name) as [grp|];
    [| intros [= <- <-]; repeat split; reflexivity].
  case_decide; [intros [= <- <-]; repeat split; reflexivity |].
  destruct (deepcopy_strategy (objects w) (template grp)) as [h copy] eqn:Hcopy.
  intros [= <- <-]. simpl. repeat split.
  unfold deepcopy_strategy in Hcopy.
  destruct (strategies (objects w) !! template grp) as [gs|]; [| injection Hcopy as <- <-; lia].
  destruct (deepcopy_dict (leaves (objects w), ∅) (Strategy.gates gs)) as [st1 d1].
  destruct (deepcopy_dict st1 (Strategy.transformations gs)) as [st2 d2].
  destruct (deepcopy_dict st2 (Strategy.comp_matrices gs)) as [st3 d3].
  injection Hcopy as <- <-. simpl. rewrite length_app. lia.
Qed.

Lemma loads_refl (w : world value payload results row) : well_formed w -> loads w w.
Proof.
  intros Hwf. split; [exact Hwf |]. split; [tauto |].
  repeat (split; [reflexivity || (intros; assumption) |]).
  intros g sid l Hl. left. exact Hl.
Qed.

Lemma loads_trans (w1 w2 w3 : world value payload results row) :
  well_formed w1 -> loads w1 w2 -> loads w2 w3 -> loads w1 w3.
Proof.
  intros [_ Hlocs1] (Hwf2 & Hsep2 & Hn2 & Hr2 & Hlen2 & Hld2 & Ht2 & Hk2 & Hv2 & Hnew2)
         (Hwf3 & Hsep3 & Hn3 & Hr3 & Hlen3 & Hld3 & Ht3 & Hk3 & Hv3 & Hnew3).
  split; [exact Hwf3 |]. split; [tauto |]. split; [congruence |]. split; [congruence |].
  split; [lia |].
  split; [intros k smp Hk; apply Hld3, Hld2; exact Hk |].
  split; [intros g; rewrite Ht3; apply Ht2 |].
  split; [intros g sid l Hl; apply Hk3, Hk2; exact Hl |].
  split; [intros l Hl; rewrite Hv3 by lia; apply Hv2; exact Hl |].
  intros g sid l Hl. destruct (Hnew3 g sid l Hl) as [Hl2 | (-> & Hlen & t & Ht & Hview)].
  - destruct (Hnew2 g sid l Hl2) as [Hl1 | (-> & Hlen & t & Ht & Hview)]; [left; exact Hl1 |].
    right. split; [reflexivity |]. split; [exact Hlen |]. exists t. split; [exact Ht |].
    rewrite Hv3; [exact Hview |]. destruct Hwf2 as [_ Hlocs2]. apply (Hlocs2 _ _ _ Hl2).
  - right. split; [reflexivity |]. split; [lia |]. exists t.
    rewrite Ht2 in Ht. split; [exact Ht |]. rewrite Hview. apply Hv2.
    apply (Hlocs1 _ _ _ Ht).
Qed.

(** One turn of the loop of [add_samples]. *)
Lemma add_samples_step (w : world value payload results row) (s : Sample value) :
  well_formed w ->
  is_Some (strategy_at (session w) "default" None) ->
  (exists smp, sample_lut (session w) !! original_filename s = Some (Some smp)) \/
  ((forall smp, sample_lut (session w) !! original_filename s <> Some (Some smp)) /\
   exists w2,
    assign_sample (original_filename s) "default" (set_sample (original_filename s) (Some s) w) =
      (Return (), w2) /\
    loads w w2 /\
    sample_lut (session w2) = <[original_filename s := Some s]> (sample_lut (session w)) /\
    is_Some (strategy_at (session w2) "default" (Some (original_filename s))) /\
    (forall sid, is_Some (strategy_at (session w2) "default" (Some sid)) ->
                 is_Some (strategy_at (session w) "default" (Some sid)) \/
                 sid = original_filename s)).
Proof.
  intros Hwf [t Ht].
  destruct (sample_lut (session w) !! original_filename s) as [[smp|]|] eqn:Hlut;
    [left; exists smp; reflexivity | right | right].
  all: split; [intros smp; congruence |].
  all: set (w0 := set_sample (original_filename s) (Some s) w).
  all: assert (Hwf0 : well_formed w0) by exact Hwf.
  all: unfold strategy_at in Ht;
       destruct (_sample_group_lut (session w) !! "default") as [grp|] eqn:Hgrp;
       [| discriminate].
  all: assert (Hgrp0 : _sample_group_lut (session w0) !! "default" = Some grp) by exact Hgrp.
  all: assert (Hloaded : forall k smp, sample_lut (session w) !! k = Some (Some smp) ->
         <[original_filename s := Some s]> (sample_lut (session w)) !! k = Some (Some smp))
       by (intros k smp Hk; rewrite lookup_insert_ne; [exact Hk | congruence]).
  all: destruct (samples grp !! original_filename s) as [l|] eqn:Hin.
  all: try (destruct (assign_sample_already_assigned w0 _ _ _ _ Hgrp0 Hin) as [msg Hrun];
            exists (warn msg w0); split; [exact Hrun |];
            split; [| split; [reflexivity |]; split;
                      [exists l; unfold strategy_at; simpl; rewrite Hgrp; exact Hin |
                       intros sid Hs; left; exact Hs]];
            split; [exact Hwf |]; split; [tauto |];
            split; [reflexivity |]; split; [reflexivity |]; split; [reflexivity |];
            split; [exact Hloaded |];
            split; [reflexivity |]; split; [intros; assumption |];
            split; [reflexivity |]; intros g sid l0 Hl0; left; exact Hl0).
  all: destruct (assign_sample_copies w0 _ _ _ Hwf0 Hgrp0 Hin)
         as (w2 & copy & Hrun & Hat & Hother & Hcopy & Hfresh & Hview & Hold & Hwf2 & Hsep2).
  all: destruct (assign_sample_session _ _ _ _ _ Hrun) as (Hn & Hsl & Hres & Hlen).
  all: exists w2; split; [exact Hrun |].
  all: split; [| split; [exact Hsl |]; split; [exists copy; exact Hat |];
                 intros sid Hs;
                 destruct (decide (sid = original_filename s)) as [-> | Hne];
                 [right; reflexivity | left];
                 rewrite Hother in Hs by congruence; exact Hs].
  all: split; [exact Hwf2 |]; split; [exact Hsep2 |]; split; [exact Hn |];
       split; [exact Hres |]; split; [exact Hlen |].
  all: split; [rewrite Hsl; exact Hloaded |].
  all: split; [intros g; apply Hother; congruence |].
  all: split; [intros g sid l Hl; rewrite Hother; [exact Hl |];
               intros [= -> ->]; unfold strategy_at in Hl; rewrite Hgrp in Hl; congruence |].
  all: split; [intros l Hl; apply (Hold l Hl) |].
  all: intros g sid l Hl;
       destruct (decide ((g, sid) = ("default", original_filename s))) as [[= -> ->] | Hne];
       [right; rewrite Hat in Hl; injection Hl as <-;
        split; [reflexivity |]; split; [exact Hcopy |];
        exists (template grp); split;
        [unfold strategy_at; rewrite Hgrp; reflexivity | exact Hview]
       | left; rewrite Hother in Hl by congruence; exact Hl].
Qed.

End SessionPlaces.

Section SessionSetup.
Context {value payload results row : Type} `{Collaborators value payload results row}.
Variable blank_strategy : Strategy.t.
Variable parse_gating_xml : string -> heap payload -> outcome (heap payload * nat).
Variable Sample_subsample_events : Sample value -> Z -> Sample value.

(** A group created without a strategy gets a new strategy object. *)
Lemma add_sample_group_new_object (w : world value payload results row) group_name :
  refs blank_strategy = [] ->
  well_formed w ->
  _sample_group_lut (session w) !! group_name = None ->
  exists w',
    add_sample_group blank_strategy parse_gating_xml group_name StrategyNone w =
      (Return (), w') /\
    strategy_at (session w') group_name None = Some (length (strategies (objects w))) /\
    strategies (objects w') !! length (strategies (objects w)) = Some blank_strategy /\
    (forall sid, strategy_at (session w') group_name (Some sid) = None) /\
    (forall g sid, g <> group_name ->
                   strategy_at (session w') g sid = strategy_at (session w) g sid) /\
    (forall l, l < length (strategies (objects w)) ->
               view (objects w') l = view (objects w) l) /\
    well_formed w' /\
    (separated w -> separated w').
Proof.
  intros Hblank [Hclosed Hlocs] Hnew. unfold add_sample_group.
  rewrite decide_False by (rewrite Hnew; intros [x Hx]; discriminate).
  simpl. eexists. split; [reflexivity |].
  set (h' := {| strategies := strategies (objects w) ++ [blank_strategy];
                leaves := leaves (objects w) |}).
  assert (Hfp_old : forall l, l < length (strategies (objects w)) ->
            footprint h' l = footprint (objects w) l).
  { intros l Hl. unfold footprint. simpl. rewrite lookup_app_l by exact Hl. reflexivity. }
  assert (Hfp_new : footprint h' (length (strategies (objects w))) = []).
  { unfold footprint. simpl. rewrite list_lookup_middle by reflexivity. exact Hblank. }
  split; [rewrite strategy_at_new_group, decide_True by reflexivity; reflexivity |].
  split; [simpl; apply list_lookup_middle; reflexivity |].
  split; [intros sid; rewrite strategy_at_new_group, decide_True by reflexivity; reflexivity |].
  split; [intros g sid Hg; rewrite strategy_at_new_group, decide_False by exact Hg;
          reflexivity |].
  split.
  { intros l Hl. simpl. unfold view. simpl. rewrite lookup_app_l by exact Hl. reflexivity. }
  split.
  { split.
    - intros l gs Hl r Hr. simpl in *. apply lookup_app_Some in Hl as [Hl | [_ Hl]].
      + exact (Hclosed l gs Hl r Hr).
      + apply list_lookup_singleton_Some in Hl as [_ <-]. rewrite Hblank in Hr.
        apply elem_of_nil in Hr. contradiction.
    - intros g sid l. rewrite strategy_at_new_group. simpl. rewrite length_app. simpl.
      case_decide.
      + destruct sid; [discriminate |]. intros [= <-]. lia.
      + intros Hl. pose proof (Hlocs g sid l Hl). lia. }
  intros Hsep g1 sid1 g2 sid2 l1 l2 Hne. rewrite !strategy_at_new_group. simpl.
  fold h'.
  destruct (decide (g1 = group_name)) as [-> | N1];
    destruct (decide (g2 = group_name)) as [-> | N2].
  - destruct sid1, sid2; try discriminate. congruence.
  - destruct sid1; [discriminate |]. intros [= <-] H2.
    pose proof (Hlocs g2 sid2 l2 H2) as Hl2. split; [lia |].
    rewrite Hfp_new. intros r Hr. apply elem_of_nil in Hr. contradiction.
  - destruct sid2; [discriminate |]. intros H1 [= <-].
    pose proof (Hlocs g1 sid1 l1 H1) as Hl1. split; [lia |].
    rewrite Hfp_new. intros r _ Hr. apply elem_of_nil in Hr. contradiction.
  - intros H1 H2. pose proof (Hlocs g1 sid1 l1 H1) as Hl1.
    pose proof (Hlocs g2 sid2 l2 H2) as Hl2.
    rewrite (Hfp_old l1 Hl1), (Hfp_old l2 Hl2).
    exact (Hsep g1 sid1 g2 sid2 l1 l2 Hne H1 H2).
Qed.

(** X19.  [add_sample_group] with no strategy, for a name that is not
    taken: the template of the new group is a new [GatingStrategy()]
    object, the group has no sample, every other place of the session
    holds what it held, and no existing strategy has changed; a session
    that was in order, or separated, stays so. *)
Theorem add_sample_group_blank (w : world value payload results row) group_name :
  refs blank_strategy = [] ->
  well_formed w ->
  _sample_group_lut (session w) !! group_name = None ->
  exists w',
    add_sample_group blank_strategy parse_gating_xml group_name StrategyNone w =
      (Return (), w') /\
    strategy_at (session w') group_name None = Some (length (strategies (objects w))) /\
    strategies (objects w') !! length (strategies (objects w)) = Some blank_strategy /\
    (forall sid, strategy_at (session w') group_name (Some sid) = None) /\
    (forall g sid, g <> group_name ->
                   strategy_at (session w') g sid = strategy_at (session w) g sid) /\
    (forall l, l < length (strategies (objects w)) ->
               view (objects w') l = view (objects w) l) /\
    well_formed w' /\
    (separated w -> separated w').
Proof. apply add_sample_group_new_object. Qed.

(** X20.  [add_sample_group] with a [GatingStrategy] instance files the
    instance itself, not a copy of it: when the instance is already the
    strategy of a place of the session, that place and the template of the
    new group are one object afterwards, and the session is not
    separated. *)
Theorem add_sample_group_instance_is_shared (w : world value payload results row)
    group_name l g sid :
  _sample_group_lut (session w) !! group_name = None ->
  strategy_at (session w) g sid = Some l ->
  exists w',
    add_sample_group blank_strategy parse_gating_xml group_name (StrategyInstance l) w =
      (Return (), w') /\
    objects w' = objects w /\
    strategy_at (session w') group_name None = Some l /\
    strategy_at (session w') g sid = Some l /\
    ~ separated w'.
Proof.
  intros Hnew Hl. unfold add_sample_group.
  rewrite decide_False by (rewrite Hnew; intros [x Hx]; discriminate).
  assert (Hg : g <> group_name).
  { intros ->. apply strategy_at_group in Hl as [x Hx]. congruence. }
  eexists. split; [reflexivity |]. split; [reflexivity |].
  assert (H1 : strategy_at (session (set_group group_name {| template := l; samples := ∅ |} w))
                 group_name None = Some l).
  { rewrite strategy_at_new_group, decide_True by reflexivity. reflexivity. }
  assert (H2 : strategy_at (session (set_group group_name {| template := l; samples := ∅ |} w))
                 g sid = Some l).
  { rewrite strategy_at_new_group, decide_False by exact Hg. exact Hl. }
  split; [exact H1 |]. split; [exact H2 |].
  intros Hsep.
  destruct (Hsep group_name None g sid l l) as [Hne _]; [congruence | exact H1 | exact H2 |].
  apply Hne. reflexivity.
Qed.

Lemma add_samples_spec (new_samples : list (Sample value)) :
  forall w : world value payload results row,
  well_formed w ->
  is_Some (strategy_at (session w) "default" None) ->
  exists w',
    add_samples Sample_subsample_events new_samples w = (Return (), w') /\
    loads w w' /\
    (forall s, s ∈ new_samples ->
       let k := original_filename
                  (Sample_subsample_events s (subsample_count (session w))) in
       loaded (session w') k /\
       (is_Some (strategy_at (session w') "default" (Some k)) \/ loaded (session w) k)) /\
    (forall k, is_Some (sample_lut (session w') !! k) ->
       is_Some (sample_lut (session w) !! k) \/
       exists s, s ∈ new_samples /\
         k = original_filename (Sample_subsample_events s (subsample_count (session w)))) /\
    (forall sid, is_Some (strategy_at (session w') "default" (Some sid)) ->
       is_Some (strategy_at (session w) "default" (Some sid)) \/
       exists s, s ∈ new_samples /\
         sid = original_filename (Sample_subsample_events s (subsample_count (session w)))).
Proof.
  induction new_samples as [|s0 rest IH]; intros w Hwf Hdef.
  - exists w. split; [reflexivity |]. split; [apply loads_refl; exact Hwf |].
    split; [intros s Hs; apply elem_of_nil in Hs; contradiction |].
    split; intros k Hk; left; exact Hk.
  - simpl. set (s := Sample_subsample_events s0 (subsample_count (session w))).
    destruct (add_samples_step w s Hwf Hdef)
      as [[smp Hsmp] | (Hnot & w2 & Hrun & Hloads & Hsl & Hassigned & Hfrom)].
    + rewrite Hsmp.
      set (w1 := warn ("A sample with ID " +:+ original_filename s +:+
                       " already exists...skipping") w).
      destruct (IH w1 Hwf Hdef) as (w' & Hrest & Hl & Hin & Hkeys & Hplaces).
      exists w'. split; [exact Hrest |]. split; [exact Hl |].
      split; [| split].
      * intros x Hx. apply elem_of_cons in Hx as [-> | Hx]; [| apply (Hin x Hx)].
        simpl. fold s. split; [| right; exists smp; exact Hsmp].
        exists smp. destruct Hl as (_ & _ & _ & _ & _ & Hld & _). apply Hld. exact Hsmp.
      * intros k Hk. destruct (Hkeys k Hk) as [Hk' | (x & Hx & ->)]; [left; exact Hk' |].
        right. exists x. split; [right; exact Hx | reflexivity].
      * intros sid Hs. destruct (Hplaces sid Hs) as [Hs' | (x & Hx & ->)]; [left; exact Hs' |].
        right. exists x. split; [right; exact Hx | reflexivity].
    + replace (match sample_lut (session w) !! original_filename s with
               | Some (Some _) =>
                   add_samples Sample_subsample_events rest
                     (warn ("A sample with ID " +:+ original_filename s +:+
                            " already exists...skipping") w)
               | _ =>
                   match assign_sample (original_filename s) "default"
                           (set_sample (original_filename s) (Some s) w) with
                   | (Raise e, w2) => (Raise e, w2)
                   | (Return _, w2) => add_samples Sample_subsample_events rest w2
                   end
               end)
        with (add_samples Sample_subsample_events rest w2).
      2:{ destruct (sample_lut (session w) !! original_filename s) as [[smp|]|] eqn:Hlut;
          [exfalso; exact (Hnot smp eq_refl) | |]; rewrite Hrun; reflexivity. }
      pose proof Hloads as (Hwf2 & _ & Hn2 & _ & _ & Hld2 & Ht2 & Hk2 & _ & _).
      assert (Hdef2 : is_Some (strategy_at (session w2) "default" None))
        by (rewrite Ht2; exact Hdef).
      destruct (IH w2 Hwf2 Hdef2) as (w' & Hrest & Hl & Hin & Hkeys & Hplaces).
      rewrite Hn2 in Hin, Hkeys, Hplaces.
      pose proof Hl as (_ & _ & _ & _ & _ & Hld & _ & Hk & _ & _).
      exists w'. split; [exact Hrest |].
      split; [apply (loads_trans w w2 w' Hwf Hloads Hl) |].
      assert (Hs2 : loaded (session w2) (original_filename s)).
      { exists s. rewrite Hsl. apply lookup_insert_eq. }
      split; [| split].
      * intros x Hx. apply elem_of_cons in Hx as [-> | Hx].
        -- simpl. fold s. split.
           ++ destruct Hs2 as [smp Hsmp]. exists smp. apply Hld. exact Hsmp.
           ++ left. destruct Hassigned as [l Hl2]. exists l. apply Hk. exact Hl2.
        -- destruct (Hin x Hx) as [Hloaded Hor]. split; [exact Hloaded |].
           destruct Hor as [Hor | [smp Hsmp]]; [left; exact Hor |].
           rewrite Hsl in Hsmp.
           destruct (decide (original_filename s =
                             original_filename
                               (Sample_subsample_events x (subsample_count (session w)))))
             as [Heq | Hne].
           ++ left. rewrite <- Heq. destruct Hassigned as [l Hl2]. exists l. apply Hk. exact Hl2.
           ++ right. rewrite lookup_insert_ne in Hsmp by exact Hne. exists smp. exact Hsmp.
      * intros k Hkk. destruct (Hkeys k Hkk) as [Hk' | (x & Hx & ->)].
        -- rewrite Hsl in Hk'. destruct (decide (original_filename s = k)) as [<- | Hne].
           ++ right. exists s0. split; [left | reflexivity].
           ++ left. rewrite lookup_insert_ne in Hk' by exact Hne. exact Hk'.
        -- right. exists x. split; [right; exact Hx | reflexivity].
      * intros sid Hs. destruct (Hplaces sid Hs) as [Hs' | (x & Hx & ->)].
        -- destruct (Hfrom sid Hs') as [Hs0 | ->]; [left; exact Hs0 |].
           right. exists s0. split; [left | reflexivity].
        -- right. exists x. split; [right; exact Hx | reflexivity].
Qed.

(** X21.  [add_samples] in a session that has its default group: the call
    returns; every sample of the list is loaded afterwards under its file
    name, and is assigned to the default group unless a sample of that name
    was loaded before the call; a sample that was loaded is still the one
    loaded under its id; the strategy filed for a new sample is a new
    object with the content of the default template; no existing strategy
    or template has changed, and a session that was separated stays so. *)
Theorem add_samples_loads (new_samples : list (Sample value))
    (w : world value payload results row) :
  well_formed w ->
  is_Some (_sample_group_lut (session w) !! "default") ->
  exists w',
    add_samples Sample_subsample_events new_samples w = (Return (), w') /\
    loads w w' /\
    forall s, s ∈ new_samples ->
      let k := original_filename
                 (Sample_subsample_events s (subsample_count (session w))) in
      loaded (session w') k /\
      (is_Some (strategy_at (session w') "default" (Some k)) \/ loaded (session w) k).
Proof.
  intros Hwf [grp Hgrp].
  destruct (add_samples_spec new_samples w Hwf) as (w' & Hrun & Hl & Hin & _).
  { exists (template grp). unfold strategy_at. rewrite Hgrp. reflexivity. }
  exists w'. split; [exact Hrun |]. split; [exact Hl | exact Hin].
Qed.

(** X22.  [Session.__init__]: the new session has the default group and no
    other; its loaded samples are the samples of the list, under their file
    names; a sample is loaded exactly when it is assigned to the default
    group; every sample has a strategy object of its own, other than the
    template and with the template's content; the session is in order and
    separated. *)
Theorem Session__init__default_group (new_samples : list (Sample value))
    (count : Z) (h : heap payload) :
  refs blank_strategy = [] ->
  closed h ->
  exists (w' : world value payload results row) t,
    Session__init__ blank_strategy parse_gating_xml Sample_subsample_events
                    new_samples count h = (Return (), w') /\
    well_formed w' /\ separated w' /\
    (forall g, is_Some (_sample_group_lut (session w') !! g) <-> g = "default") /\
    strategy_at (session w') "default" None = Some t /\
    (forall k, loaded (session w') k <->
       exists s, s ∈ new_samples /\
                 k = original_filename (Sample_subsample_events s count)) /\
    (forall k, loaded (session w') k <->
               is_Some (strategy_at (session w') "default" (Some k))) /\
    (forall k l, strategy_at (session w') "default" (Some k) = Some l ->
                 l <> t /\ view (objects w') l = view (objects w') t).
Proof.
  intros Hblank Hclosed. unfold Session__init__.
  set (w0 := {| session := {| subsample_count := count; sample_lut := ∅;
                              _results_lut := ∅; _sample_group_lut := ∅ |};
                objects := h; warnings := [] |} : world value payload results row).
  assert (Hat0 : forall g sid, strategy_at (session w0) g sid = None).
  { intros g sid. unfold strategy_at. simpl. rewrite lookup_empty. reflexivity. }
  assert (Hwf0 : well_formed w0).
  { split; [exact Hclosed |]. intros g sid l. rewrite Hat0. discriminate. }
  assert (Hsep0 : separated w0).
  { intros g1 sid1 g2 sid2 l1 l2 _. rewrite Hat0. discriminate. }
  destruct (add_sample_group_new_object w0 "default" Hblank Hwf0 (lookup_empty _))
    as (w1 & Hrun1 & Ht1 & _ & Hnone1 & Hother1 & _ & Hwf1 & Hsep1).
  rewrite Hrun1.
  destruct (add_samples_spec new_samples w1 Hwf1) as (w' & Hrun & Hl & Hin & Hkeys & Hplaces).
  { rewrite Ht1. eexists. reflexivity. }
  assert (Hn1 : subsample_count (session w1) = count).
  { unfold add_sample_group in Hrun1. simpl in Hrun1. injection Hrun1 as <-. reflexivity. }
  assert (Hlut1 : sample_lut (session w1) = ∅).
  { unfold add_sample_group in Hrun1. simpl in Hrun1. injection Hrun1 as <-. reflexivity. }
  rewrite Hn1 in Hin, Hkeys, Hplaces.
  pose proof Hl as (Hwf' & Hsep' & _ & _ & _ & _ & Ht' & _ & Hv' & Hnew').
  exists w', (length (strategies (objects w0))). split; [exact Hrun |].
  split; [exact Hwf' |]. split; [apply Hsep', Hsep1, Hsep0 |].
  assert (Hnot_loaded1 : forall k, ~ loaded (session w1) k).
  { intros k [smp Hsmp]. rewrite Hlut1, lookup_empty in Hsmp. discriminate. }
  assert (Hloaded : forall k, loaded (session w') k <->
            exists s, s ∈ new_samples /\
                      k = original_filename (Sample_subsample_events s count)).
  { intros k. split.
    - intros [smp Hsmp]. destruct (Hkeys k) as [Hk | Hk]; [eexists; exact Hsmp | | exact Hk].
      rewrite Hlut1, lookup_empty in Hk. destruct Hk. discriminate.
    - intros (s & Hs & ->). apply (Hin s Hs). }
  split.
  { intros g. split.
    - intros [grp Hgrp]. destruct (decide (g = "default")) as [-> | Hg]; [reflexivity |].
      exfalso. assert (Hsome : strategy_at (session w') g None = Some (template grp))
        by (unfold strategy_at; rewrite Hgrp; reflexivity).
      rewrite Ht', (Hother1 g None Hg), Hat0 in Hsome. discriminate.
    - intros ->. eapply strategy_at_group. rewrite Ht'. exact Ht1. }
  split; [rewrite Ht'; exact Ht1 |].
  split; [exact Hloaded |].
  split.
  { intros k. split.
    - intros Hk. apply Hloaded in Hk as (s & Hs & ->).
      destruct (Hin s Hs) as [_ [Ha | Hb]]; [exact Ha |]. exfalso. exact (Hnot_loaded1 _ Hb).
    - intros Hk. destruct (Hplaces k Hk) as [[l Hl1] | (s & Hs & ->)].
      + rewrite Hnone1 in Hl1. discriminate.
      + apply (Hin s Hs). }
  intros k l Hkl. destruct (Hnew' "default" k l) as [Hold | (_ & Hlen & t & Ht & Hview)].
  - exact Hkl.
  - rewrite Hnone1 in Hold. discriminate.
  - rewrite Ht1 in Ht. injection Ht as <-.
    assert (Hlt : length (strategies (objects w0)) < length (strategies (objects w1))).
    { destruct Hwf1 as [_ Hlocs1]. apply (Hlocs1 "default" None). exact Ht1. }
    split; [lia |]. rewrite Hview. symmetry. apply Hv'. exact Hlt.
Qed.

End SessionSetup.

Lemma add_sample_group_blank_witness :
  exists w',
    add_sample_group mini_blank mini_parse "other" StrategyNone world_RR = (Return (), w') /\
    strategy_at (session w') "other" None = Some (length (strategies (objects world_RR))) /\
    strategies (objects w') !! length (strategies (objects world_RR)) = Some mini_blank /\
    (forall sid, strategy_at (session w') "other" (Some sid) = None) /\
    (forall g sid, g <> "other" ->
                   strategy_at (session w') g sid = strategy_at (session world_RR) g sid) /\
    (forall l, l < length (strategies (objects world_RR)) ->
               view (objects w') l = view (objects world_RR) l) /\
    well_formed w' /\
    (separated world_RR -> separated w').
Proof.
  apply (add_sample_group_blank mini_blank mini_parse world_RR "other").
  - reflexivity.
  - exact world_RR_well_formed.
  - reflexivity.
Defined.

Lemma add_sample_group_instance_is_shared_witness :
  exists w',
    add_sample_group mini_blank mini_parse "other" (StrategyInstance 1) world_RR =
      (Return (), w') /\
    objects w' = objects world_RR /\
    strategy_at (session w') "other" None = Some 1 /\
    strategy_at (session w') "default" (Some "a.fcs") = Some 1 /\
    ~ separated w'.
Proof.
  apply (add_sample_group_instance_is_shared mini_blank mini_parse world_RR "other" 1
           "default" (Some "a.fcs")).
  - reflexivity.
  - reflexivity.
Defined.

Lemma add_samples_loads_witness :
  exists w',
    add_samples mini_subsample [sample4; sample6] world_RR = (Return (), w') /\
    loads world_RR w' /\
    forall s, s ∈ [sample4; sample6] ->
      let k := original_filename (mini_subsample s (subsample_count (session world_RR))) in
      loaded (session w') k /\
      (is_Some (strategy_at (session w') "default" (Some k)) \/ loaded (session world_RR) k).
Proof.
  apply (add_samples_loads mini_subsample [sample4; sample6] world_RR).
  - exact world_RR_well_formed.
  - eexists. reflexivity.
Defined.

Lemma Session__init__default_group_witness :
  exists (w' : world Z (Gate.t Z) mini_results (string * list string * nat)) t,
    Session__init__ mini_blank mini_parse mini_subsample [sample4; sample5] 10000
                    {| strategies := []; leaves := [] |} = (Return (), w') /\
    well_formed w' /\ separated w' /\
    (forall g, is_Some (_sample_group_lut (session w') !! g) <-> g = "default") /\
    strategy_at (session w') "default" None = Some t /\
    (forall k, loaded (session w') k <->
       exists s, s ∈ [sample4; sample5] /\
                 k = original_filename (mini_subsample s 10000)) /\
    (forall k, loaded (session w') k <->
               is_Some (strategy_at (session w') "default" (Some k))) /\
    (forall k l, strategy_at (session w') "default" (Some k) = Some l ->
                 l <> t /\ view (objects w') l = view (objects w') t).
Proof.
  apply (Session__init__default_group mini_blank mini_parse mini_subsample
           [sample4; sample5] 10000 {| strategies := []; leaves := [] |}).
  - reflexivity.
  - intros l gs Hl. simpl in Hl. rewrite lookup_nil in Hl. discriminate.
Defined.

(** ** [Session.import_flowjo_workspace] *)

Section SessionImport.
Context {value payload results row : Type} `{Collaborators value payload results row}.
Variable blank_strategy : Strategy.t.
Variable parse_gating_xml : string -> heap payload -> outcome (heap payload * nat).

Lemma import_gates_session (gate_dicts : list (nat * option (list string))) (gs : nat) :
  forall (w w' : world value payload results row) r,
  import_gates gate_dicts gs w = (r, w') ->
  session w' = session w /\
  length (strategies (objects w')) = length (strategies (objects w)).
Proof.
  induction gate_dicts as [|[gate gate_path] rest IH]; intros w w' r; simpl.
  - intros [= <- <-]. split; reflexivity.
  - destruct (strategies (objects w) !! gs) as [state|]; [| intros [= <- <-]; split; reflexivity].
    destruct (GatingStrategy_add_gate (leaves (objects w)) state gate gate_path) as [e|state'];
      [intros [= <- <-]; split; reflexivity |].
    intros Hrest. apply IH in Hrest as [Hs Hlen]. simpl in Hs, Hlen.
    rewrite length_alter in Hlen. split; assumption.
Qed.

(** The places of the session after one sample of a workspace has been
    imported: the sample's place holds the new strategy object, and so
    does the template when the group is new. *)
Lemma import_sample_places (w w' : world value payload results row)
    ignore_missing_files group_name sample data_dict :
  import_sample blank_strategy parse_gating_xml ignore_missing_files group_name sample
                data_dict w = (Return (), w') ->
  length (strategies (objects w')) = S (length (strategies (objects w))) /\
  forall g sid,
    strategy_at (session w') g sid =
    if decide (g = group_name) then
      match sid with
      | None =>
          if decide (is_Some (_sample_group_lut (session w) !! group_name))
          then strategy_at (session w) g None
          else Some (length (strategies (objects w)))
      | Some sid =>
          if decide (sid = sample) then Some (length (strategies (objects w)))
          else strategy_at (session w) g (Some sid)
      end
    else strategy_at (session w) g sid.
Proof.
  unfold import_sample.
  set (w1 := if decide (is_Some (sample_lut (session w) !! sample)) then w
             else let w' := set_sample sample None w in
                  if ignore_missing_files then w'
                  else warn ("Sample " +:+ sample +:+
                             " has not been added to the session. ") w').
  assert (Hw1 : _sample_group_lut (session w1) = _sample_group_lut (session w) /\
                objects w1 = objects w).
  { unfold w1. case_decide; [split; reflexivity |]. destruct ignore_missing_files;
      split; reflexivity. }
  destruct Hw1 as [Hlut1 Hobj1]. simpl. rewrite Hobj1.
  set (l := length (strategies (objects w))).
  destruct (import_gates (wsp_gates data_dict) l _) as [[e|[]] w2] eqn:Hgates;
    [intros [=] |].
  apply import_gates_session in Hgates as [Hs2 Hlen2]. simpl in Hs2, Hlen2.
  rewrite length_app in Hlen2. simpl in Hlen2.
  set (w3 := match wsp_compensation data_dict with
             | Some (matrix_id, matrix) => alter_strategy _ l w2
             | None => w2
             end).
  assert (Hw3 : session w3 = session w2 /\
                length (strategies (objects w3)) = length (strategies (objects w2))).
  { unfold w3. destruct (wsp_compensation data_dict) as [[matrix_id matrix]|];
      [| split; reflexivity]. simpl. rewrite length_alter. split; reflexivity. }
  destruct Hw3 as [Hs3 Hlen3].
  set (w4 := alter_strategy _ l w3).
  assert (Hs3' : _sample_group_lut (session w3) = _sample_group_lut (session w)).
  { rewrite Hs3, Hs2. exact Hlut1. }
  assert (Hs4 : _sample_group_lut (session w4) = _sample_group_lut (session w))
    by exact Hs3'.
  assert (Hlen4 : length (strategies (objects w4)) = S l).
  { unfold w4. simpl. rewrite length_alter, Hlen3, Hlen2. unfold l. lia. }
  rewrite Hs3'.
  destruct (decide (is_Some (_sample_group_lut (session w) !! group_name))) as [[grp Hgrp] | Hnew].
  - rewrite Hs4, Hgrp. intros [= <-]. split; [exact Hlen4 |].
    intros g sid. unfold strategy_at. simpl. rewrite Hs3'.
    destruct (decide (g = group_name)) as [-> | Hg].
    + rewrite lookup_insert_eq, Hgrp. simpl. destruct sid as [sid|]; [| reflexivity].
      destruct (decide (sid = sample)) as [-> | Hne].
      * rewrite lookup_insert_eq. reflexivity.
      * rewrite lookup_insert_ne by congruence. reflexivity.
    + rewrite lookup_insert_ne by congruence. reflexivity.
  - unfold add_sample_group. rewrite Hs4. rewrite decide_False by exact Hnew.
    simpl. rewrite lookup_insert_eq. intros [= <-]. split; [exact Hlen4 |].
    intros g sid. unfold strategy_at. simpl. rewrite Hs3'.
    assert (Hnone : _sample_group_lut (session w) !! group_name = None).
    { destruct (_sample_group_lut (session w) !! group_name) eqn:E; [| reflexivity].
      exfalso. apply Hnew. eexists. reflexivity. }
    destruct (decide (g = group_name)) as [-> | Hg].
    + rewrite lookup_insert_eq. simpl. rewrite Hnone. destruct sid as [sid|]; [| reflexivity].
      destruct (decide (sid = sample)) as [-> | Hne].
      * rewrite lookup_insert_eq. reflexivity.
      * rewrite lookup_insert_ne by congruence. apply lookup_empty.
    + rewrite !lookup_insert_ne by congruence. reflexivity.
Qed.

Lemma strategy_at_template_None (s : Session value results row) g :
  strategy_at s g None = None <-> _sample_group_lut s !! g = None.
Proof.
  unfold strategy_at. destruct (_sample_group_lut s !! g); split; congruence.
Qed.

Lemma import_samples_places ignore_missing_files group_name
    (sample_data : list (string * wsp_sample_data)) :
  forall w w' : world value payload results row,
  NoDup sample_data.*1 ->
  import_samples blank_strategy parse_gating_xml ignore_missing_files group_name
                 sample_data w = (Return (), w') ->
  length (strategies (objects w)) <= length (strategies (objects w')) /\
  (forall g sid, g <> group_name ->
                 strategy_at (session w') g sid = strategy_at (session w) g sid) /\
  (is_Some (_sample_group_lut (session w) !! group_name) ->
   strategy_at (session w') group_name None = strategy_at (session w) group_name None) /\
  (forall sid, sid ∉ sample_data.*1 ->
     strategy_at (session w') group_name (Some sid) =
     strategy_at (session w) group_name (Some sid)) /\
  (_sample_group_lut (session w) !! group_name = None ->
   forall s0 d0 rest, sample_data = (s0, d0) :: rest ->
     strategy_at (session w') group_name None = Some (length (strategies (objects w))) /\
     strategy_at (session w') group_name (Some s0) = Some (length (strategies (objects w)))).
Proof.
  induction sample_data as [|[s d] rest IH]; intros w w' Hnd; simpl.
  - intros [= <-]. split; [lia |]. split; [reflexivity |]. split; [reflexivity |].
    split; [reflexivity |]. intros _ s0 d0 rest; discriminate.
  - destruct (import_sample _ _ ignore_missing_files group_name s d w) as [[e|[]] w1] eqn:Hone;
      [intros [=] |].
    apply import_sample_places in Hone as [Hlen1 Hat1].
    apply NoDup_cons in Hnd as [Hs Hnd]. simpl in Hs. intros Hrest.
    destruct (IH w1 w' Hnd Hrest) as (Hlen & Hother & Htemplate & Hsids & _).
    assert (Hgrp1 : is_Some (_sample_group_lut (session w1) !! group_name)).
    { destruct (strategy_at (session w1) group_name None) as [l0|] eqn:Hl0.
      - eapply strategy_at_group. exact Hl0.
      - rewrite Hat1, decide_True in Hl0 by reflexivity.
        case_decide as Hgrp; [| discriminate]. destruct Hgrp as [grp Hgrp].
        unfold strategy_at in Hl0. rewrite Hgrp in Hl0. discriminate. }
    split; [lia |]. split; [| split; [| split]].
    + intros g sid Hg. rewrite Hother by exact Hg. rewrite Hat1, decide_False by exact Hg.
      reflexivity.
    + intros Hgrp. rewrite (Htemplate Hgrp1), Hat1, decide_True by reflexivity.
      rewrite decide_True by exact Hgrp. reflexivity.
    + intros sid Hsid. apply not_elem_of_cons in Hsid as [Hne Hsid].
      rewrite (Hsids sid Hsid), Hat1, decide_True by reflexivity.
      rewrite decide_False by exact Hne. reflexivity.
    + intros Hnone s0 d0 rest' [= <- <- <-]. split.
      * rewrite (Htemplate Hgrp1), Hat1, decide_True by reflexivity.
        rewrite decide_False; [reflexivity |]. rewrite Hnone. intros [x Hx]. discriminate.
      * rewrite (Hsids s Hs), Hat1, decide_True by reflexivity.
        rewrite decide_True by reflexivity. reflexivity.
Qed.

Lemma import_flowjo_workspace_places ignore_missing_files
    (wsp_sample_groups : list (string * list (string * wsp_sample_data))) :
  forall w w' : world value payload results row,
  NoDup wsp_sample_groups.*1 ->
  (forall g sd, (g, sd) ∈ wsp_sample_groups -> NoDup sd.*1) ->
  import_flowjo_workspace blank_strategy parse_gating_xml ignore_missing_files
                          wsp_sample_groups w = (Return (), w') ->
  length (strategies (objects w)) <= length (strategies (objects w')) /\
  (forall g sid, g ∉ wsp_sample_groups.*1 ->
                 strategy_at (session w') g sid = strategy_at (session w) g sid) /\
  (forall g s0 d0 rest, (g, (s0, d0) :: rest) ∈ wsp_sample_groups ->
     _sample_group_lut (session w) !! g = None ->
     exists l, length (strategies (objects w)) <= l /\
               strategy_at (session w') g None = Some l /\
               strategy_at (session w') g (Some s0) = Some l).
Proof.
  induction wsp_sample_groups as [|[g1 sd1] groups IH]; intros w w' Hnd Hkeys; simpl.
  - intros [= <-]. split; [lia |]. split; [reflexivity |].
    intros g s0 d0 rest Hin. apply elem_of_nil in Hin. contradiction.
  - destruct (import_samples _ _ ignore_missing_files g1 sd1 w) as [[e|[]] w1] eqn:Hone;
      [intros [=] |].
    apply import_samples_places in Hone as (Hlen1 & Hother1 & _ & _ & Hfirst1);
      [| apply (Hkeys g1); left].
    apply NoDup_cons in Hnd as [Hg1 Hnd]. simpl in Hg1. intros Hrest.
    destruct (IH w1 w' Hnd) as (Hlen & Hother & Hshared); [| exact Hrest |].
    { intros g sd Hin. apply (Hkeys g). right. exact Hin. }
    split; [lia |]. split.
    + intros g sid Hg. apply not_elem_of_cons in Hg as [Hne Hg].
      rewrite (Hother g sid Hg). apply Hother1. exact Hne.
    + intros g s0 d0 rest Hin Hnone. apply elem_of_cons in Hin as [[= -> <-] | Hin].
      * destruct (Hfirst1 Hnone s0 d0 rest eq_refl) as [Ht Hs].
        exists (length (strategies (objects w))). split; [lia |].
        rewrite !(Hother g1) by exact Hg1. split; assumption.
      * assert (Hne : g <> g1).
        { intros ->. apply Hg1. apply list_elem_of_fmap. eexists. split; [| exact Hin].
          reflexivity. }
        destruct (Hshared g s0 d0 rest Hin) as (l & Hl & Ht & Hs).
        { apply strategy_at_template_None. rewrite (Hother1 g None Hne).
          apply strategy_at_template_None. exact Hnone. }
        exists l. split; [lia |]. split; assumption.
Qed.

(** X23.  After [import_flowjo_workspace] has returned, every group of the
    workspace that was new to the session has, as its template, the very
    strategy object it filed for the first sample of the group: the
    constructor of the group is given the object and the object is filed
    again for the sample, so a session that imports a workspace with a new
    group is not separated.  (The workspace is a dict of dicts: no group
    name occurs twice in it, and no sample id twice in a group.) *)
Theorem import_flowjo_workspace_template_is_first_sample
    (w w' : world value payload results row) ignore_missing_files
    (wsp_sample_groups : list (string * list (string * wsp_sample_data)))
    g s0 d0 rest :
  NoDup wsp_sample_groups.*1 ->
  (forall g sd, (g, sd) ∈ wsp_sample_groups -> NoDup sd.*1) ->
  (g, (s0, d0) :: rest) ∈ wsp_sample_groups ->
  _sample_group_lut (session w) !! g = None ->
  import_flowjo_workspace blank_strategy parse_gating_xml ignore_missing_files
                          wsp_sample_groups w = (Return (), w') ->
  (exists l, length (strategies (objects w)) <= l /\
             strategy_at (session w') g None = Some l /\
             strategy_at (session w') g (Some s0) = Some l) /\
  ~ separated w'.
Proof.
  intros Hnd Hkeys Hin Hnone Hrun.
  destruct (import_flowjo_workspace_places _ _ w w' Hnd Hkeys Hrun) as (_ & _ & Hshared).
  destruct (Hshared g s0 d0 rest Hin Hnone) as (l & Hl & Ht & Hs).
  split; [exists l; repeat split; assumption |].
  intros Hsep. destruct (Hsep g None g (Some s0) l l) as [Hne _];
    [congruence | exact Ht | exact Hs |].
  apply Hne. reflexivity.
Qed.

End SessionImport.

Lemma import_flowjo_workspace_template_is_first_sample_witness :
  (exists l, length (strategies (objects world_RR)) <= l /\
     strategy_at
       (session (import_flowjo_workspace mini_blank mini_parse false
                   [("wsp", [("a.fcs", {| wsp_gates := [(0, None)];
                                          wsp_compensation := None;
                                          wsp_transforms := [] |})])] world_RR).2)
       "wsp" None = Some l /\
     strategy_at
       (session (import_flowjo_workspace mini_blank mini_parse false
                   [("wsp", [("a.fcs", {| wsp_gates := [(0, None)];
                                          wsp_compensation := None;
                                          wsp_transforms := [] |})])] world_RR).2)
       "wsp" (Some "a.fcs") = Some l) /\
  ~ separated
      (import_flowjo_workspace mini_blank mini_parse false
         [("wsp", [("a.fcs", {| wsp_gates := [(0, None)];
                                wsp_compensation := None;
                                wsp_transforms := [] |})])] world_RR).2.
Proof.
  apply (import_flowjo_workspace_template_is_first_sample mini_blank mini_parse world_RR
           (import_flowjo_workspace mini_blank mini_parse false
              [("wsp", [("a.fcs", {| wsp_gates := [(0, None)];
                                     wsp_compensation := None;
                                     wsp_transforms := [] |})])] world_RR).2
           false
           [("wsp", [("a.fcs", {| wsp_gates := [(0, None)];
                                  wsp_compensation := None;
                                  wsp_transforms := [] |})])]
           "wsp" "a.fcs" {| wsp_gates := [(0, None)];
                            wsp_compensation := None;
                            wsp_transforms := [] |} []).
  - apply NoDup_singleton.
  - intros g sd Hin. apply list_elem_of_singleton in Hin. injection Hin as -> ->.
    apply NoDup_singleton.
  - left.
  - reflexivity.
  - vm_compute. reflexivity.
Defined.

(** The consequence for [Session.add_gate] with the small engine: in a
    group imported from a workspace the template and the first sample are
    one object, so the gate reaches that object twice and the second call
    finds its path taken. *)
Example import_then_add_gate :
  let w1 := (import_flowjo_workspace mini_blank mini_parse false
               [("wsp", [("a.fcs", {| wsp_gates := [(0, None)];
                                      wsp_compensation := None;
                                      wsp_transforms := [] |})])] world0).2 in
  (add_gate 1 None "wsp" w1).1 = Raise (ValueError "gate path already exists") /\
  (add_gate 1 None "default" w1).1 = Return ().
Proof. vm_compute. split; reflexivity. Qed.

(** ** [Session.add_transform] and [Session.add_comp_matrix] *)

Section SessionPassThrough.
Context {value payload results row : Type}.
Variable GatingStrategy_add_transform : list payload -> Strategy.t -> nat -> outcome Strategy.t.
Variable GatingStrategy_add_comp_matrix : list payload -> Strategy.t -> nat -> outcome Strategy.t.

Lemma call_with_copy_add_gate name method self arg (w : world value payload results row) :
  (call_with_copy name method self arg w).2 =
    (@call_add_gate value payload results row (as_add_gate method) self arg None w).2 /\
  ((call_with_copy name method self arg w).1 = Return () <->
   (@call_add_gate value payload results row (as_add_gate method) self arg None w).1 = Return ()).
Proof.
  unfold call_with_copy, call_add_gate.
  destruct (deepcopy_leaf (objects w) arg) as [h arg_copy].
  destruct (strategies h !! self) as [gs|]; [| split; [reflexivity | split; discriminate]].
  simpl. destruct (method (leaves h) gs arg_copy) as [e|gs']; split; reflexivity.
Qed.

Lemma call_members_add_gate_members name method arg (members : list (string * nat)) :
  forall w : world value payload results row,
  (call_members name method arg members w).2 =
    (@add_gate_members value payload results row (as_add_gate method) arg None members w).2 /\
  ((call_members name method arg members w).1 = Return () <->
   (@add_gate_members value payload results row (as_add_gate method) arg None members w).1
     = Return ()).
Proof.
  induction members as [|[s_id s_strategy] rest IH]; intros w; simpl;
    [split; reflexivity |].
  destruct (call_with_copy_add_gate name method s_strategy arg w) as [Hw Hr].
  destruct (call_with_copy name method s_strategy arg w) as [[e|[]] w1];
    destruct (@call_add_gate value payload results row (as_add_gate method)
                s_strategy arg None w) as [[e'|[]] w1'];
    simpl in Hw, Hr; subst w1'.
  - split; [reflexivity | split; discriminate].
  - destruct Hr as [_ Hr]. discriminate (Hr eq_refl).
  - destruct Hr as [Hr _]. discriminate (Hr eq_refl).
  - apply IH.
Qed.

Lemma pass_through_add_gate name method arg group_name (w : world value payload results row) :
  (pass_through name method arg group_name w).2 =
    (@add_gate value payload results row (as_add_gate method) arg None group_name w).2.
Proof.
  unfold pass_through, add_gate.
  destruct (_sample_group_lut (session w) !! group_name) as [grp|]; [| reflexivity].
  destruct (call_with_copy_add_gate name method (template grp) arg w) as [Hw Hr].
  destruct (call_with_copy name method (template grp) arg w) as [[e|[]] w1];
    destruct (@call_add_gate value payload results row (as_add_gate method)
                (template grp) arg None w) as [[e'|[]] w1'];
    simpl in Hw, Hr; subst w1'.
  - reflexivity.
  - destruct Hr as [_ Hr]. discriminate (Hr eq_refl).
  - destruct Hr as [Hr _]. discriminate (Hr eq_refl).
  - apply call_members_add_gate_members.
Qed.

Lemma call_with_copy_leaves name method self arg (w w' : world value payload results row) :
  arg < length (leaves (objects w)) ->
  call_with_copy name method self arg w = (Return (), w') ->
  length (leaves (objects w')) = S (length (leaves (objects w))).
Proof.
  intros Harg. unfold call_with_copy, deepcopy_leaf.
  destruct (lookup_lt_is_Some_2 _ _ Harg) as [p ->]. simpl.
  destruct (strategies (objects w) !! self) as [gs|]; [| intros [=]].
  destruct (method _ gs _) as [e|gs']; [intros [=] |].
  intros [= <-]. simpl. rewrite length_app. simpl. lia.
Qed.

Lemma call_members_leaves name method arg (members : list (string * nat)) :
  forall w w' : world value payload results row,
  arg < length (leaves (objects w)) ->
  call_members name method arg members w = (Return (), w') ->
  length (leaves (objects w')) = length (leaves (objects w)) + length members.
Proof.
  induction members as [|[s_id s_strategy] rest IH]; intros w w' Harg; simpl.
  - intros [= <-]. lia.
  - destruct (call_with_copy name method s_strategy arg w) as [[e|[]] w1] eqn:Hone;
      [intros [=] |].
    apply call_with_copy_leaves in Hone; [| exact Harg]. intros Hrest.
    apply IH in Hrest; lia.
Qed.

Lemma pass_through_grows name method arg group_name
    (w w' : world value payload results row) r :
  stores_its_argument method ->
  well_formed w ->
  arg < length (leaves (objects w)) ->
  pass_through name method arg group_name w = (r, w') ->
  grows w w' /\
  (r = Return () ->
   forall grp, _sample_group_lut (session w) !! group_name = Some grp ->
     length (leaves (objects w')) = length (leaves (objects w)) + 1 + size (samples grp)).
Proof.
  intros Hstores Hwf Harg Hrun. split.
  - pose proof (pass_through_add_gate name method arg group_name w) as Hsame.
    rewrite Hrun in Hsame. simpl in Hsame.
    destruct (@add_gate value payload results row (as_add_gate method) arg None group_name w)
      as [r' w''] eqn:Hadd.
    simpl in Hsame. subst w''.
    apply (@add_gate_grows value payload results row (as_add_gate method)
             w arg None group_name r' w'); try assumption.
    intros leaves gs x gate_path gs' Hcall. exact (Hstores leaves gs x gs' Hcall).
  - intros -> grp Hgrp. unfold pass_through in Hrun. rewrite Hgrp in Hrun.
    destruct (call_with_copy name method (template grp) arg w) as [[e|[]] w1] eqn:Hone;
      [discriminate |].
    apply call_with_copy_leaves in Hone; [| exact Harg].
    apply call_members_leaves in Hrun; [| lia].
    rewrite length_map_to_list in Hrun. lia.
Qed.

(** X24.  [Session.add_transform] and [Session.add_comp_matrix], whether
    they return or raise half-way: the session holds the strategies it
    held; each strategy refers to what it referred to before or to
    instances created by the call; strategies that were separate objects
    stay separate, so no two of them share a copy; and when the call
    returns, it has made one copy of its argument for the template and one
    for each sample of the group. *)
Theorem add_transform_add_comp_matrix_copy (w w' : world value payload results row)
    (arg : nat) (group_name : string) r :
  stores_its_argument GatingStrategy_add_transform ->
  stores_its_argument GatingStrategy_add_comp_matrix ->
  well_formed w ->
  arg < length (leaves (objects w)) ->
  add_transform GatingStrategy_add_transform arg group_name w = (r, w') \/
  add_comp_matrix GatingStrategy_add_comp_matrix arg group_name w = (r, w') ->
  grows w w' /\
  (r = Return () ->
   forall grp, _sample_group_lut (session w) !! group_name = Some grp ->
     length (leaves (objects w')) = length (leaves (objects w)) + 1 + size (samples grp)).
Proof.
  intros Ht Hm Hwf Harg [Hrun | Hrun].
  - exact (pass_through_grows _ _ arg group_name w w' r Ht Hwf Harg Hrun).
  - exact (pass_through_grows _ _ arg group_name w w' r Hm Hwf Harg Hrun).
Qed.

End SessionPassThrough.

Lemma mini_add_transform_stores : stores_its_argument mini_add_transform.
Proof.
  intros leaves gs arg gs' Hcall. unfold mini_add_transform in Hcall.
  apply bind_Return in Hcall as (x & _ & Hcall).
  case_decide; [discriminate |]. injection Hcall as <-.
  intros r. unfold refs. simpl. rewrite fmap_app. simpl.
  rewrite elem_of_cons, !elem_of_app, list_elem_of_singleton. tauto.
Qed.

Lemma mini_add_comp_matrix_stores : stores_its_argument mini_add_comp_matrix.
Proof.
  intros leaves gs arg gs' Hcall. unfold mini_add_comp_matrix in Hcall.
  apply bind_Return in Hcall as (x & _ & Hcall).
  case_decide; [discriminate |]. injection Hcall as <-.
  intros r. unfold refs. simpl. rewrite fmap_app. simpl.
  rewrite elem_of_cons, !elem_of_app, list_elem_of_singleton. tauto.
Qed.

Lemma add_transform_add_comp_matrix_copy_witness :
  grows world_RR (add_transform mini_add_transform 0 "default" world_RR).2 /\
  ((add_transform mini_add_transform 0 "default" world_RR).1 = Return () ->
   forall grp, _sample_group_lut (session world_RR) !! "default" = Some grp ->
     length (leaves (objects (add_transform mini_add_transform 0 "default" world_RR).2)) =
     length (leaves (objects world_RR)) + 1 + size (samples grp)).
Proof.
  apply (add_transform_add_comp_matrix_copy mini_add_transform mini_add_comp_matrix
           world_RR (add_transform mini_add_transform 0 "default" world_RR).2
           0 "default" (add_transform mini_add_transform 0 "default" world_RR).1).
  - exact mini_add_transform_stores.
  - exact mini_add_comp_matrix_stores.
  - exact world_RR_well_formed.
  - simpl. lia.
  - left. vm_compute. reflexivity.
Defined.

(** ** [analyze_samples] without a loaded sample *)

Section AnalyzeSamplesMore.
Context {value payload results row : Type} `{Collaborators value payload results row}.

Lemma collect_units_not_loaded (self : Session value results row) (group_name : string)
    (sample_list : list (option (Sample value))) :
  Forall (fun o => o = None) sample_list ->
  forall gs ss, collect_units self group_name sample_list gs ss = Return (gs, ss).
Proof.
  induction 1 as [|o rest -> _ IH]; intros gs ss; simpl; [reflexivity | apply IH].
Qed.

Lemma _gate_samples_nil (m : nat -> Sample value -> bool -> outcome results) env verbose use_mp :
  _gate_samples m env [] [] verbose use_mp = Return [].
Proof.
  unfold _gate_samples.
  replace (use_pool env (length (@nil (Sample value))) use_mp) with false; [reflexivity |].
  unfold use_pool. rewrite bool_decide_false by (simpl; lia).
  rewrite andb_false_r. reflexivity.
Qed.

(** [analyze_samples] once it has nothing to run. *)
Lemma analyze_samples_nothing_to_run (w : world value payload results row)
    env use_mp group_name sample_id verbose :
  units_to_run (session w) group_name sample_id = Return (inr ([], [])) ->
  analyze_samples env use_mp group_name sample_id verbose w =
    (Raise (ValueError "No objects to concatenate"), w).
Proof.
  intros Hunits. unfold analyze_samples. rewrite Hunits, _gate_samples_nil. reflexivity.
Qed.

Lemma get_group_samples_ids (self : Session value results row) group_name grp :
  _sample_group_lut self !! group_name = Some grp ->
  (forall k, is_Some (samples grp !! k) -> is_Some (sample_lut self !! k)) ->
  exists ids l,
    get_group_sample_ids self group_name true = Return ids /\
    get_group_samples self group_name = Return l /\
    Forall2 (fun k o => sample_lut self !! k = Some o) ids l /\
    forall k, k ∈ ids <-> is_Some (samples grp !! k) \/ loaded self k.
Proof.
  intros Hgrp Hkeys.
  destruct (get_group_sample_ids_members self group_name true grp Hgrp)
    as (ids & Hids & _ & Hmem).
  destruct (proj2 (proj1 (get_group_samples_members self group_name grp Hgrp)) Hkeys)
    as [l Hl].
  exists ids, l. split; [exact Hids |]. split; [exact Hl |]. split.
  - unfold get_group_samples in Hl. rewrite Hids in Hl. simpl in Hl.
    apply mapM_outcome_Return in Hl.
    eapply Forall2_impl; [exact Hl |]. intros k o Hget. unfold get_sample in Hget.
    destruct (sample_lut self !! k); [congruence | discriminate].
  - intros k. rewrite Hmem. unfold loaded. split; [| tauto].
    intros [Hk | [_ Hk]]; [left | right]; exact Hk.
Qed.

(** X25.  In a group whose sample ids are all known to the session:
    [analyze_samples] for one sample of the group that is referenced but
    not loaded, and [analyze_samples] for the whole group when the group
    is not empty and the session has no loaded sample, find nothing to run,
    give [pd.concat] an empty list and raise its [ValueError]; the session
    is as it was. *)
Theorem analyze_samples_no_loaded_sample (w : world value payload results row)
    env use_mp (group_name : string) verbose (grp : group) :
  _sample_group_lut (session w) !! group_name = Some grp ->
  (forall k, is_Some (samples grp !! k) -> is_Some (sample_lut (session w) !! k)) ->
  (forall sid, is_Some (samples grp !! sid) ->
     sample_lut (session w) !! sid = Some None ->
     analyze_samples env use_mp group_name (Some sid) verbose w =
       (Raise (ValueError "No objects to concatenate"), w)) /\
  (samples grp <> ∅ ->
   (forall k, ~ loaded (session w) k) ->
   analyze_samples env use_mp group_name None verbose w =
     (Raise (ValueError "No objects to concatenate"), w)).
Proof.
  intros Hgrp Hkeys.
  destruct (get_group_samples_ids (session w) group_name grp Hgrp Hkeys)
    as (ids & l & Hids & Hl & Hall & Hmem).
  split.
  - intros sid Hsid Hnone. apply analyze_samples_nothing_to_run.
    unfold units_to_run. rewrite Hl. simpl.
    assert (Hin : sid ∈ ids) by (apply Hmem; left; exact Hsid).
    rewrite decide_False.
    2:{ intros Hlen. apply list_elem_of_lookup in Hin as (i & Hi).
        destruct (Forall2_lookup_l _ _ _ _ _ Hall Hi) as (o & Ho & _).
        destruct l; [rewrite lookup_nil in Ho |]; discriminate. }
    rewrite Hids. simpl. rewrite decide_True by exact Hin.
    unfold get_sample. rewrite Hnone. reflexivity.
  - intros Hne Hnot. apply analyze_samples_nothing_to_run.
    unfold units_to_run. rewrite Hl. simpl.
    assert (Hnone : Forall (fun o => o = None) l).
    { apply Forall_forall. intros o Ho. apply list_elem_of_lookup in Ho as (i & Hi).
      destruct (Forall2_lookup_r _ _ _ _ _ Hall Hi) as (k & _ & Hk).
      destruct o as [s|]; [| reflexivity]. exfalso. apply (Hnot k). exists s. exact Hk. }
    rewrite decide_False.
    2:{ intros Hlen. apply Hne. apply map_empty. intros k.
        destruct (samples grp !! k) as [x|] eqn:Hk; [| reflexivity]. exfalso.
        assert (Hin : k ∈ ids) by (apply Hmem; left; eexists; exact Hk).
        apply list_elem_of_lookup in Hin as (i & Hi).
        destruct (Forall2_lookup_l _ _ _ _ _ Hall Hi) as (o & Ho & _).
        destruct l; [rewrite lookup_nil in Ho |]; discriminate. }
    rewrite (collect_units_not_loaded _ _ l Hnone). reflexivity.
Qed.

(** X26.  [analyze_samples] on a group without samples, in a session
    without loaded samples, only warns, whatever sample id it is given. *)
Theorem analyze_samples_empty_group (w : world value payload results row)
    env use_mp (group_name : string) (sample_id : option string) verbose (grp : group) :
  _sample_group_lut (session w) !! group_name = Some grp ->
  samples grp = ∅ ->
  (forall k, ~ loaded (session w) k) ->
  analyze_samples env use_mp group_name sample_id verbose w =
    (Return (), warn ("No samples have been assigned to sample group " +:+ group_name) w).
Proof.
  intros Hgrp Hempty Hnot.
  destruct (get_group_samples_ids (session w) group_name grp Hgrp)
    as (ids & l & Hids & Hl & Hall & Hmem).
  { intros k [x Hx]. rewrite Hempty, lookup_empty in Hx. discriminate. }
  assert (Hids_nil : ids = []).
  { destruct ids as [|k ids]; [reflexivity |]. exfalso.
    destruct (proj1 (Hmem k)) as [[x Hx] | Hk]; [left | |].
    - rewrite Hempty, lookup_empty in Hx. discriminate.
    - exact (Hnot k Hk). }
  subst ids. inversion Hall; subst.
  unfold analyze_samples, units_to_run. rewrite Hl. simpl. reflexivity.
Qed.

End AnalyzeSamplesMore.

Lemma analyze_samples_no_loaded_sample_witness :
  (forall sid,
     is_Some (samples {| template := 0; samples := {["a.fcs" := 1]} |} !! sid) ->
     sample_lut (session (set_group "default" {| template := 0; samples := {["a.fcs" := 1]} |}
                            (set_sample "a.fcs" None world_RR))) !! sid = Some None ->
     analyze_samples four_cpus true "default" (Some sid) false
       (set_group "default" {| template := 0; samples := {["a.fcs" := 1]} |}
          (set_sample "a.fcs" None world_RR)) =
       (Raise (ValueError "No objects to concatenate"),
        set_group "default" {| template := 0; samples := {["a.fcs" := 1]} |}
          (set_sample "a.fcs" None world_RR))) /\
  (samples {| template := 0; samples := {["a.fcs" := 1]} |} <> ∅ ->
   (forall k, ~ loaded (session (set_group "default"
                                   {| template := 0; samples := {["a.fcs" := 1]} |}
                                   (set_sample "a.fcs" None world_RR))) k) ->
   analyze_samples four_cpus true "default" None false
     (set_group "default" {| template := 0; samples := {["a.fcs" := 1]} |}
        (set_sample "a.fcs" None world_RR)) =
     (Raise (ValueError "No objects to concatenate"),
      set_group "default" {| template := 0; samples := {["a.fcs" := 1]} |}
        (set_sample "a.fcs" None world_RR))).
Proof.
  apply (analyze_samples_no_loaded_sample
           (set_group "default" {| template := 0; samples := {["a.fcs" := 1]} |}
              (set_sample "a.fcs" None world_RR))
           four_cpus true "default" false
           {| template := 0; samples := {["a.fcs" := 1]} |}).
  - reflexivity.
  - intros k [x Hx]. simpl in Hx. apply lookup_singleton_Some in Hx as [<- _].
    eexists. reflexivity.
Defined.

Lemma analyze_samples_empty_group_witness :
  analyze_samples four_cpus true "other" None false
    (set_group "other" {| template := 0; samples := ∅ |} (set_sample "a.fcs" None
       (set_sample "b.fcs" None world_RR))) =
    (Return (),
     warn ("No samples have been assigned to sample group " +:+ "other")
       (set_group "other" {| template := 0; samples := ∅ |} (set_sample "a.fcs" None
          (set_sample "b.fcs" None world_RR)))).
Proof.
  apply (analyze_samples_empty_group
           (set_group "other" {| template := 0; samples := ∅ |} (set_sample "a.fcs" None
              (set_sample "b.fcs" None world_RR)))
           four_cpus true "other" None false {| template := 0; samples := ∅ |}).
  - reflexivity.
  - reflexivity.
  - intros k [s Hs]. simpl in Hs.
    destruct (decide (k = "a.fcs")) as [-> | Ha];
      [rewrite lookup_insert_eq in Hs; discriminate |].
    rewrite lookup_insert_ne in Hs by congruence.
    destruct (decide (k = "b.fcs")) as [-> | Hb];
      [rewrite lookup_insert_eq in Hs; discriminate |].
    rewrite lookup_insert_ne in Hs by congruence.
    destruct (decide (k = "a.fcs")) as [-> | Ha']; [contradiction |].
    rewrite lookup_insert_ne in Hs by congruence.
    rewrite lookup_singleton_ne in Hs by congruence. discriminate.
Defined.

(** ** [Dimension.__init__] *)

Section DimensionInit.
Context {value : Type} `{PyFloat value}.

(** The bound read from the answer of an attribute query: none when the
    query finds nothing, else the number written in the first answer. *)
Lemma bound_Return (attribs : list string) (b : option value) :
  match attribs with
  | [] => Return None
  | a :: _ => Some <$> float a
  end = Return b <->
  (attribs = [] /\ b = None) \/
  (exists a rest v, attribs = a :: rest /\ float_of_str a = Some v /\ b = Some v).
Proof.
  destruct attribs as [|a rest]; split.
  - intros [= <-]. left. split; reflexivity.
  - intros [[_ ->] | (a & rest & v & Hnil & _)]; [reflexivity | discriminate].
  - unfold float. destruct (float_of_str a) as [v|] eqn:Ha; simpl; [| discriminate].
    intros [= <-]. right. exists a, rest, v. repeat split; assumption.
  - intros [[Hnil _] | (a' & rest' & v & [= <- <-] & Ha & ->)]; [discriminate |].
    unfold float. rewrite Ha. reflexivity.
Qed.

(** X27.  [Dimension.__init__] returns exactly when the element has a
    [compensation-ref], every bound that is written is a number, the
    [fcs-dimension] child exists and has a [name].  The dimension then has
    the first answer of each query; its [id] is not an id but the list that
    the query for [max] answered, so that a dimension that was built has no
    upper bound exactly when its [id] is the empty list. *)
Theorem Dimension__init__Return (el : dim_element) :
  (forall d : Dimension.t value,
     Dimension__init__ el = Return d <->
     head (compensation_ref_attribs el) = Some (Dimension.compensation_ref d) /\
     ((min_attribs el = [] /\ Dimension.min d = None) \/
      (exists a rest v, min_attribs el = a :: rest /\ float_of_str a = Some v /\
                        Dimension.min d = Some v)) /\
     ((max_attribs el = [] /\ Dimension.max d = None) \/
      (exists a rest v, max_attribs el = a :: rest /\ float_of_str a = Some v /\
                        Dimension.max d = Some v)) /\
     Dimension.id d = max_attribs el /\
     exists names, fcs_dim_els el = Some names /\ head names = Some (Dimension.label d)) /\
  (forall d : Dimension.t value,
     Dimension__init__ el = Return d ->
     (Dimension.max d = None <-> Dimension.id d = [])).
Proof.
  assert (Hiff : forall d : Dimension.t value,
     Dimension__init__ el = Return d <->
     head (compensation_ref_attribs el) = Some (Dimension.compensation_ref d) /\
     ((min_attribs el = [] /\ Dimension.min d = None) \/
      (exists a rest v, min_attribs el = a :: rest /\ float_of_str a = Some v /\
                        Dimension.min d = Some v)) /\
     ((max_attribs el = [] /\ Dimension.max d = None) \/
      (exists a rest v, max_attribs el = a :: rest /\ float_of_str a = Some v /\
                        Dimension.max d = Some v)) /\
     Dimension.id d = max_attribs el /\
     exists names, fcs_dim_els el = Some names /\ head names = Some (Dimension.label d)).
  { intros d. unfold Dimension__init__. split.
    - intros Hr. apply bind_Return in Hr as (c & Hc & Hr).
      apply bind_Return in Hr as (lo & Hlo & Hr).
      apply bind_Return in Hr as (hi & Hhi & Hr).
      apply bound_Return in Hlo. apply bound_Return in Hhi.
      destruct (fcs_dim_els el) as [[|a names]|]; try discriminate.
      injection Hr as <-. simpl.
      split.
      { unfold getitem in Hc. rewrite <- head_lookup in Hc.
        destruct (head (compensation_ref_attribs el)); [congruence | discriminate]. }
      split; [exact Hlo |]. split; [exact Hhi |]. split; [reflexivity |].
      exists (a :: names). split; reflexivity.
    - intros (Hc & Hlo & Hhi & Hid & names & Hnames & Hlabel).
      unfold getitem. rewrite <- head_lookup, Hc. simpl.
      apply bound_Return in Hlo. apply bound_Return in Hhi.
      rewrite Hlo. simpl. rewrite Hhi. simpl. rewrite Hnames.
      destruct names as [|a names]; [discriminate |]. injection Hlabel as ->.
      rewrite <- Hid. destruct d; reflexivity. }
  split; [exact Hiff |].
  intros d Hd. apply Hiff in Hd as (_ & _ & Hhi & Hid & _). rewrite Hid.
  destruct Hhi as [[Hnil Hmax] | (a & rest & v & Hcons & _ & Hmax)].
  - rewrite Hnil, Hmax. split; reflexivity.
  - rewrite Hcons, Hmax. split; discriminate.
Qed.

End DimensionInit.

(** The element [dim_full] builds; the [id] of the dimension is the text of
    its upper bound. *)
Example dim_full_builds :
  Dimension__init__ dim_full =
    Return (Dimension.mk "uncompensated" (Some 3%Z) (Some 9%Z) ["9"] "FSC-A").
Proof. reflexivity. Qed.
